(** * Farm Rescue: the temporal simulation and economic state engine

    A shallow embedding of the game core (helpers.js, config.js, constants.js,
    Crop.js, Animal.js, Weather.js, GameState.js, ShopManager.js and
    TimerManager.js) together with the properties stated about it.

    Modelling conventions.
    - JavaScript numbers that hold integer quantities (money, day counters,
      millisecond timestamps and durations) are [Z]; they stay far inside the
      range in which doubles are exact.  Numbers that hold fractions (weather
      values, multipliers, probabilities, percentages) are [Q]; the code only
      compares them and scales them by positive constants, both of which are
      order-faithful on doubles.
    - An argument that the code validates with [typeof]/[isNaN]/[isFinite] is
      a [JsValue].
    - [Date.now()], [Math.random()] and [HELPERS.generateUniqueId] are explicit
      arguments of the operations that call them.
    - Methods that mutate [this] return the new object next to their result.
      A method that can throw returns a [Completion]; the state reached when
      the exception leaves the method is returned with it.
    - Logging, DOM events, display-only fields (name, emoji, description,
      tier) and bookkeeping timestamps (createdAt, gameStartTime,
      lastSaveTime) are left out. *)

From Stdlib Require Import ZArith QArith Qround Lqa List String Bool Lia.
Import ListNotations.

Open Scope Z_scope.

(* ====================================================================== *)
(** ** JavaScript values and completions *)
(* ====================================================================== *)

(** A value passed where the code expects a number.  [JOther] stands for any
    value whose [typeof] is not ['number'] (undefined, null, a string...). *)
Inductive JsValue (A : Type) : Type :=
| JNum (x : A)
| JNaN
| JPosInf
| JNegInf
| JOther.

Arguments JNum {A} x.
Arguments JNaN {A}.
Arguments JPosInf {A}.
Arguments JNegInf {A}.
Arguments JOther {A}.

(** [typeof v === 'number'] *)
Definition typeofNumber {A} (v : JsValue A) : bool :=
  match v with
  | JOther => false
  | _ => true
  end.

(** [v < k] and [v > k] for a finite integer [k], with IEEE behaviour on NaN
    and the infinities.  On [JOther] the code never reaches the comparison. *)
Definition jsLtZ (v : JsValue Z) (k : Z) : bool :=
  match v with
  | JNum x => x <? k
  | JNegInf => true
  | _ => false
  end.

Definition jsGtZ (v : JsValue Z) (k : Z) : bool :=
  match v with
  | JNum x => k <? x
  | JPosInf => true
  | _ => false
  end.

(** [v >= k] *)
Definition jsGeZ (v : JsValue Z) (k : Z) : bool :=
  match v with
  | JNum x => k <=? x
  | JPosInf => true
  | _ => false
  end.

(** [v + k] on numbers. *)
Definition jsAddZ (v : JsValue Z) (k : Z) : JsValue Z :=
  match v with
  | JNum x => JNum (x + k)
  | other => other
  end.

(** [v || null] on a field that holds a number or null: zero is falsy. *)
Definition truthyNumber (v : option Z) : option Z :=
  match v with
  | Some 0 => None
  | other => other
  end.

(** [v || fallback] on a field that holds a string or is absent: the empty
    string is falsy. *)
Definition stringOr (v : option string) (fallback : string) : string :=
  match v with
  | Some EmptyString => fallback
  | Some text => text
  | None => fallback
  end.

(** [v === k] for a finite integer [k]. *)
Definition jsEqZ (v : JsValue Z) (k : Z) : bool :=
  match v with
  | JNum x => x =? k
  | _ => false
  end.

Inductive Completion (A : Type) : Type :=
| Return (v : A)
| Throw (error : string).

Arguments Return {A} v.
Arguments Throw {A} error.

(** Boolean comparisons on rationals, as the code writes them. *)
Definition Qltb (x y : Q) : bool := negb (Qle_bool y x).
Definition Qgeb (x y : Q) : bool := Qle_bool y x.

Module Math.
Definition min (a b : Q) : Q := if Qle_bool a b then a else b.
Definition max (a b : Q) : Q := if Qle_bool a b then b else a.
End Math.

(* ====================================================================== *)
(** ** helpers.js *)
(* ====================================================================== *)

Module HELPERS.

(** [typeof value === 'number' && !isNaN(value) && isFinite(value)] *)
Definition isValidNumber {A} (value : JsValue A) : bool :=
  match value with
  | JNum _ => true
  | _ => false
  end.

(** [Math.min(Math.max(value, min), max)] *)
Definition clamp (value min max : Q) : Q :=
  Math.min (Math.max value min) max.

(** [calculatePercentage(current, total)] *)
Definition calculatePercentage (current total : Z) : Q :=
  if total =? 0 then 0%Q
  else if current >=? total then 100%Q
  else
    let percentage := ((inject_Z current / inject_Z total) * 100)%Q in
    clamp percentage 0 100.

(** [minutesToMilliseconds(minutes)] *)
Definition minutesToMilliseconds (minutes : Z) : Z :=
  if minutes <? 0 then 0 else minutes * 60 * 1000.

(** [getElapsedTime(startTime)]: [None] is a start time that is not a
    number (null before planting or placing). *)
Definition getElapsedTime (now : Z) (startTime : option Z) : Z :=
  match startTime with
  | None => 0
  | Some t => if t <? 0 then 0 else now - t
  end.

(** [getRemainingTime(startTime, duration)] *)
Definition getRemainingTime (now : Z) (startTime : option Z) (duration : Z) : Z :=
  let elapsed := getElapsedTime now startTime in
  let remaining := duration - elapsed in
  Z.max 0 remaining.

(** [x.toFixed(decimals)] read back with [parseFloat]: the nearest multiple
    of [10^-decimals], the larger one on a tie. *)
Definition toFixed (x : Q) (decimals : Z) : Q :=
  let scale := 10 ^ decimals in
  Qmake (Qfloor (x * inject_Z scale + (1 # 2))) (Z.to_pos scale).

(** [randomFloat(min, max, decimals)], [random] being [Math.random()]. *)
Definition randomFloat (min max : Q) (decimals : Z) (random : Q) : Q :=
  let '(min, max) := if Qltb max min then (max, min) else (min, max) in
  let x := (random * (max - min) + min)%Q in
  toFixed x decimals.

(** [randomBoolean(probability)], [random] being [Math.random()]. *)
Definition randomBoolean (probability : Q) (random : Q) : bool :=
  if Qltb probability 0 || Qltb 1 probability then false
  else Qltb random probability.




(** [isPositiveNumber(value)] *)
Definition isPositiveNumber (value : JsValue Z) : bool :=
isValidNumber value && jsGtZ value 0.

End HELPERS.

(* ====================================================================== *)
(** ** constants.js and config.js *)
(* ====================================================================== *)

Module CONSTANTS.

Inductive GAME_STATUS : Type := PLAYING | WON | LOST | PAUSED.

Module CROP_STATUS.
Inductive t : Type := SEED | GROWING | MATURE | HARVESTED.
Definition eqb (a b : t) : bool :=
  match a, b with
  | SEED, SEED | GROWING, GROWING | MATURE, MATURE
  | HARVESTED, HARVESTED => true
  | _, _ => false
  end.
End CROP_STATUS.

Module ANIMAL_STATUS.
Inductive t : Type := YOUNG | GROWING | MATURE | BREEDING.
Definition eqb (a b : t) : bool :=
  match a, b with
  | YOUNG, YOUNG | GROWING, GROWING | MATURE, MATURE
  | BREEDING, BREEDING => true
  | _, _ => false
  end.
End ANIMAL_STATUS.

Module WEATHER_RANGES.
Definition MIN : Q := 10 # 100.
Definition MAX : Q := 100 # 100.
Definition DECIMALS : Z := 2.
End WEATHER_RANGES.

Module VALIDATION.
Definition MAX_CROP_SLOTS : nat := 10.
Definition MAX_ANIMAL_SLOTS : nat := 5.
End VALIDATION.

End CONSTANTS.

Module GAME_CONFIG.

Definition STARTING_MONEY : Z := 50.
Definition GOAL_MONEY : Z := 5000.
Definition TOTAL_DAYS : Z := 10.
Definition WEATHER_FORECAST_DAYS : Z := 7.

Record CropDef : Type := mkCropDef {
  crop_id : string;
  seedCost : Z;
  crop_growthTime : Z;
  crop_baseSellPrice : Z;
}.

Definition CROPS : list CropDef :=
  [ mkCropDef "wheat" 10 2 18;
    mkCropDef "carrot" 30 3 60;
    mkCropDef "corn" 70 4 150;
    mkCropDef "strawberry" 150 5 350;
    mkCropDef "watermelon" 300 7 750 ].

Record AnimalDef : Type := mkAnimalDef {
  animal_id : string;
  purchaseCost : Z;
  animal_growthTime : Z;
  animal_baseSellPrice : Z;
  breedingChance : Q;
  offspringSurvivalRate : Q;
}.

Definition ANIMALS : list AnimalDef :=
  [ mkAnimalDef "chicken" 40 3 75 (35 # 100) (75 # 100);
    mkAnimalDef "rabbit" 100 4 200 (40 # 100) (70 # 100);
    mkAnimalDef "sheep" 220 5 480 (30 # 100) (65 # 100);
    mkAnimalDef "pig" 450 6 1050 (25 # 100) (60 # 100);
    mkAnimalDef "cow" 900 8 2250 (20 # 100) (55 # 100) ].

Record WeatherRule : Type := mkRule {
  minWeather : Q;
  maxWeather : Q;
  demandMultiplier : Q;
  marketCondition : string;
}.

(** Ordered from best to worst weather, as in the source. *)
Definition WEATHER_DEMAND_RULES : list WeatherRule :=
  [ mkRule (100 # 100) (100 # 100) (8 # 10) "Oversupply";
    mkRule (90 # 100) (99 # 100) (9 # 10) "Good Supply";
    mkRule (80 # 100) (89 # 100) (10 # 10) "Balanced";
    mkRule (70 # 100) (79 # 100) (12 # 10) "Slight Shortage";
    mkRule (60 # 100) (69 # 100) (13 # 10) "Moderate Shortage";
    mkRule (50 # 100) (59 # 100) (14 # 10) "Significant Shortage";
    mkRule (40 # 100) (49 # 100) (15 # 10) "High Shortage";
    mkRule (30 # 100) (39 # 100) (17 # 10) "Severe Shortage";
    mkRule (10 # 100) (29 # 100) (20 # 10) "Critical Shortage" ].

Definition MILESTONES : list Z := [100; 1250; 2500; 3750; 5000].

End GAME_CONFIG.

(* ====================================================================== *)
(** ** Weather.js *)
(* ====================================================================== *)

Module Weather.
Import GAME_CONFIG.

(** [day] keeps the argument when it passes the constructor's range test,
    so it has the argument's type. *)
Record t : Type := mk {
  day : JsValue Z;
  weatherValue : Q;
  demandIndex : Q;
  marketCondition : string;
}.

(** The rule scan shared by [calculateDemandIndex] and
    [_getMarketCondition]: the first rule whose closed range holds the
    value. *)
Fixpoint findRule (rules : list WeatherRule) (weatherValue : Q)
  : option WeatherRule :=
  match rules with
  | [] => None
  | rule :: rest =>
      if Qgeb weatherValue (minWeather rule)
         && Qle_bool weatherValue (maxWeather rule)
      then Some rule
      else findRule rest weatherValue
  end.

(** [static calculateDemandIndex(weatherValue)] *)
Definition calculateDemandIndex (weatherValue : JsValue Q) : Q :=
  match weatherValue with
  | JNum v =>
      let v := HELPERS.clamp v CONSTANTS.WEATHER_RANGES.MIN
                               CONSTANTS.WEATHER_RANGES.MAX in
      match findRule WEATHER_DEMAND_RULES v with
      | Some rule => demandMultiplier rule
      | None => 1%Q
      end
  | _ => 1%Q
  end.

(** [_getMarketCondition()] *)
Definition _getMarketCondition (weatherValue : Q) : string :=
  match findRule WEATHER_DEMAND_RULES weatherValue with
  | Some rule => GAME_CONFIG.marketCondition rule
  | None => "Unknown"
  end.

(** [_generateWeatherValue()] *)
Definition _generateWeatherValue (random : Q) : Q :=
  HELPERS.randomFloat CONSTANTS.WEATHER_RANGES.MIN
                      CONSTANTS.WEATHER_RANGES.MAX
                      CONSTANTS.WEATHER_RANGES.DECIMALS random.

(** [constructor(day, weatherValue = null)]; [random] is the draw used when
    no weather value is given. *)
Definition new (day : JsValue Z) (weatherValue : option Q) (random : Q) : t :=
  let day' :=
    if negb (typeofNumber day) || jsLtZ day 1 || jsGtZ day TOTAL_DAYS
    then JNum 1
    else day in
  let value :=
    match weatherValue with
    | Some v => HELPERS.clamp v CONSTANTS.WEATHER_RANGES.MIN
                                CONSTANTS.WEATHER_RANGES.MAX
    | None => _generateWeatherValue random
    end in
  mk day' value (calculateDemandIndex (JNum value)) (_getMarketCondition value).

(** [static generateForecast(numDays, startDay)]; the i-th Weather draws
    [random i]. *)
Fixpoint forecastLoop (count : nat) (i : nat) (startDay : Z)
         (random : nat -> Q) : list t :=
  match count with
  | O => []
  | S count' =>
      new (JNum (startDay + Z.of_nat i)) None (random i)
        :: forecastLoop count' (S i) startDay random
  end.

Definition generateForecast (numDays startDay : JsValue Z)
           (random : nat -> Q) : list t :=
  let numDays' :=
    match numDays with
    | JNum n => if n <? 1 then 7 else n
    | _ => 7
    end in
  let startDay' :=
    match startDay with
    | JNum s => if s <? 1 then 1 else s
    | _ => 1
    end in
  forecastLoop (Z.to_nat numDays') 0 startDay' random.

(** The object built by [toJSON()], and read by [fromJSON(json)].  A day
    that is absent or not a number is [JOther]; an absent or null weather
    value is [None]. *)
Record Json : Type := mkJson {
j_day : JsValue Z;
j_weatherValue : option Q;
j_demandIndex : Q;
j_marketCondition : string;
}.

(** [toJSON()] *)
Definition toJSON (w : t) : Json :=
mkJson (day w) (Some (weatherValue w)) (demandIndex w) (marketCondition w).

(** [json.day || 1]: zero and NaN are falsy.  A value that is not a number
    is kept when truthy and replaced by 1 when falsy; the constructor stores
    day 1 in both cases, so it is kept here. *)
Definition dayOr1 (v : JsValue Z) : JsValue Z :=
match v with
| JNum 0 => JNum 1
| JNaN => JNum 1
| other => other
end.

(** [static fromJSON(json)]; [None] is a json that is not an object. *)
Definition fromJSON (json : option Json) (random : Q) : t :=
match json with
| None => new (JNum 1) None random
| Some json => new (dayOr1 (j_day json)) (j_weatherValue json) random
end.

(** [static getWorstWeatherForSelling(forecast)]; [None] is null. *)
Definition getWorstWeatherForSelling (forecast : list t) : option t :=
match forecast with
| [] => None
| first :: _ =>
    Some (fold_left
            (fun worstWeather weather =>
               if Qltb (weatherValue weather) (weatherValue worstWeather)
               then weather else worstWeather)
            forecast first)
end.

(** [static getBestWeatherForSelling(forecast)]; [None] is null. *)
Definition getBestWeatherForSelling (forecast : list t) : option t :=
match forecast with
| [] => None
| first :: _ =>
    Some (fold_left
            (fun bestWeather weather =>
               if Qltb (weatherValue bestWeather) (weatherValue weather)
               then weather else bestWeather)
            forecast first)
end.


End Weather.

(* ====================================================================== *)
(** ** Crop.js *)
(* ====================================================================== *)

Module Crop.
Import CONSTANTS.CROP_STATUS.

Record t : Type := mk {
  id : string;
  type : string;
  seedCost : Z;
  baseSellPrice : Z;
  growthTime : Z;
  growthDuration : Z;
  status : CONSTANTS.CROP_STATUS.t;
  plantTime : option Z;
  harvestTime : option Z;
}.

Definition with_status (s : CONSTANTS.CROP_STATUS.t) (c : t) : t :=
  mk (id c) (type c) (seedCost c) (baseSellPrice c) (growthTime c)
     (growthDuration c) s (plantTime c) (harvestTime c).

Definition with_plantTime (p : option Z) (c : t) : t :=
  mk (id c) (type c) (seedCost c) (baseSellPrice c) (growthTime c)
     (growthDuration c) (status c) p (harvestTime c).

Definition with_harvestTime (h : option Z) (c : t) : t :=
  mk (id c) (type c) (seedCost c) (baseSellPrice c) (growthTime c)
     (growthDuration c) (status c) (plantTime c) h.

(** [constructor(type)]; [newId] is [HELPERS.generateUniqueId('crop')]. *)
Definition new (type : string) (newId : string) : Completion t :=
  match find (fun c => String.eqb (GAME_CONFIG.crop_id c) type)
             GAME_CONFIG.CROPS with
  | None => Throw "Invalid crop type"
  | Some cropDef =>
      Return (mk newId
                 (GAME_CONFIG.crop_id cropDef)
                 (GAME_CONFIG.seedCost cropDef)
                 (GAME_CONFIG.crop_baseSellPrice cropDef)
                 (GAME_CONFIG.crop_growthTime cropDef)
                 (HELPERS.minutesToMilliseconds
                    (GAME_CONFIG.crop_growthTime cropDef))
                 SEED None None)
  end.

(** [plant()] *)
Definition plant (now : Z) (c : t) : bool * t :=
  if negb (eqb (status c) SEED) then (false, c)
  else (true, with_plantTime (Some now) (with_status GROWING c)).

(** [harvest()] *)
Definition harvest (now : Z) (c : t) : bool * t :=
  if negb (eqb (status c) MATURE) then (false, c)
  else (true, with_harvestTime (Some now) (with_status HARVESTED c)).

(** [isMature()]: a query that performs the GROWING -> MATURE transition. *)
Definition isMature (now : Z) (c : t) : bool * t :=
  if negb (eqb (status c) GROWING) then (eqb (status c) MATURE, c)
  else
    let elapsed := HELPERS.getElapsedTime now (plantTime c) in
    let isReady := elapsed >=? growthDuration c in
    if isReady then (isReady, with_status MATURE c) else (isReady, c).

(** [getGrowthProgress()] *)
Definition getGrowthProgress (now : Z) (c : t) : Q :=
  if eqb (status c) SEED then 0%Q
  else if eqb (status c) MATURE || eqb (status c) HARVESTED then 100%Q
  else
    let elapsed := HELPERS.getElapsedTime now (plantTime c) in
    let progress := HELPERS.calculatePercentage elapsed (growthDuration c) in
    Math.min 100 progress.

(** [getRemainingTime()] *)
Definition getRemainingTime (now : Z) (c : t) : Z :=
  if negb (eqb (status c) GROWING) then 0
  else HELPERS.getRemainingTime now (plantTime c) (growthDuration c).

(** [isPlanted()] *)
Definition isPlanted (c : t) : bool :=
eqb (status c) GROWING || eqb (status c) MATURE.

(** [isHarvested()] *)
Definition isHarvested (c : t) : bool :=
eqb (status c) HARVESTED.

(** [calculateSellPrice(demandIndex)] *)
Definition calculateSellPrice (demandIndex : JsValue Q) (c : t) : Z :=
let demandIndex :=
  match demandIndex with
  | JNum d => if Qle_bool d 0 then 1%Q else d
  | _ => 1%Q
  end in
let finalPrice := (inject_Z (baseSellPrice c) * demandIndex)%Q in
Qfloor finalPrice.

(** [calculateProfit(demandIndex)] *)
Definition calculateProfit (demandIndex : JsValue Q) (c : t) : Z :=
let sellPrice := calculateSellPrice demandIndex c in
sellPrice - seedCost c.

(** The object built by [toJSON()] and read by [fromJSON(json)]; [None] is a
    field that is absent or null. *)
Record Json : Type := mkJson {
j_id : option string;
j_type : option string;
j_status : option CONSTANTS.CROP_STATUS.t;
j_seedCost : Z;
j_baseSellPrice : Z;
j_growthTime : Z;
j_growthDuration : Z;
j_plantTime : option Z;
j_harvestTime : option Z;
}.

(** [toJSON()] *)
Definition toJSON (c : t) : Json :=
mkJson (Some (id c)) (Some (type c)) (Some (status c)) (seedCost c)
       (baseSellPrice c) (growthTime c) (growthDuration c)
       (plantTime c) (harvestTime c).

(** [static fromJSON(json)]; [None] is a json that is not an object, [newId]
    the identifier the constructor generates before it is overwritten. *)
Definition fromJSON (json : option Json) (newId : string) : Completion t :=
match json with
| None => Throw "Invalid crop JSON data"
| Some json =>
    match j_type json with
    | None | Some EmptyString => Throw "Invalid crop JSON data"
    | Some type =>
        match new type newId with
        | Throw e => Throw e
        | Return crop =>
            let crop :=
              mk (stringOr (j_id json) (id crop))
                 (Crop.type crop) (seedCost crop) (baseSellPrice crop)
                 (growthTime crop) (growthDuration crop)
                 (match j_status json with
                  | Some status => status
                  | None => SEED
                  end)
                 (truthyNumber (j_plantTime json))
                 (truthyNumber (j_harvestTime json)) in
            Return crop
        end
    end
end.

(** [static getCropDefinition(type)]; [None] is null. *)
Definition getCropDefinition (type : string) : option GAME_CONFIG.CropDef :=
find (fun c => String.eqb (GAME_CONFIG.crop_id c) type) GAME_CONFIG.CROPS.

(** [static getAllCropTypes()] *)
Definition getAllCropTypes : list string :=
map GAME_CONFIG.crop_id GAME_CONFIG.CROPS.

End Crop.

(* ====================================================================== *)
(** ** Animal.js *)
(* ====================================================================== *)

Module Animal.
Import CONSTANTS.ANIMAL_STATUS.

(** [offspring] holds the objects pushed by [attemptBreeding]; the value
    stored is the child's state when that call returns. *)
#[warnings="-register-all"]
Inductive t : Type := mk {
  id : string;
  type : string;
  purchaseCost : Z;
  baseSellPrice : Z;
  growthTime : Z;
  breedingChance : Q;
  offspringSurvivalRate : Q;
  growthDuration : Z;
  status : CONSTANTS.ANIMAL_STATUS.t;
  placeTime : option Z;
  isPurchased : bool;
  hasOffspring : bool;
  offspring : list t;
  breedingAttempted : bool;
}.

Definition with_status (s : CONSTANTS.ANIMAL_STATUS.t) (a : t) : t :=
  mk (id a) (type a) (purchaseCost a) (baseSellPrice a) (growthTime a)
     (breedingChance a) (offspringSurvivalRate a) (growthDuration a)
     s (placeTime a) (isPurchased a) (hasOffspring a) (offspring a)
     (breedingAttempted a).

Definition with_placeTime (p : option Z) (a : t) : t :=
  mk (id a) (type a) (purchaseCost a) (baseSellPrice a) (growthTime a)
     (breedingChance a) (offspringSurvivalRate a) (growthDuration a)
     (status a) p (isPurchased a) (hasOffspring a) (offspring a)
     (breedingAttempted a).

Definition with_hasOffspring (h : bool) (a : t) : t :=
  mk (id a) (type a) (purchaseCost a) (baseSellPrice a) (growthTime a)
     (breedingChance a) (offspringSurvivalRate a) (growthDuration a)
     (status a) (placeTime a) (isPurchased a) h (offspring a)
     (breedingAttempted a).

Definition with_offspring (o : list t) (a : t) : t :=
  mk (id a) (type a) (purchaseCost a) (baseSellPrice a) (growthTime a)
     (breedingChance a) (offspringSurvivalRate a) (growthDuration a)
     (status a) (placeTime a) (isPurchased a) (hasOffspring a) o
     (breedingAttempted a).

Definition with_breedingAttempted (b : bool) (a : t) : t :=
  mk (id a) (type a) (purchaseCost a) (baseSellPrice a) (growthTime a)
     (breedingChance a) (offspringSurvivalRate a) (growthDuration a)
     (status a) (placeTime a) (isPurchased a) (hasOffspring a) (offspring a)
     b.

(** [constructor(type, isPurchased)]; [newId] is
    [HELPERS.generateUniqueId('animal')]. *)
Definition new (type : string) (isPurchased : bool) (newId : string)
  : Completion t :=
  match find (fun a => String.eqb (GAME_CONFIG.animal_id a) type)
             GAME_CONFIG.ANIMALS with
  | None => Throw "Invalid animal type"
  | Some animalDef =>
      Return (mk newId
                 (GAME_CONFIG.animal_id animalDef)
                 (GAME_CONFIG.purchaseCost animalDef)
                 (GAME_CONFIG.animal_baseSellPrice animalDef)
                 (GAME_CONFIG.animal_growthTime animalDef)
                 (GAME_CONFIG.breedingChance animalDef)
                 (GAME_CONFIG.offspringSurvivalRate animalDef)
                 (HELPERS.minutesToMilliseconds
                    (GAME_CONFIG.animal_growthTime animalDef))
                 YOUNG None isPurchased false [] false)
  end.

(** [place()] *)
Definition place (now : Z) (a : t) : bool * t :=
  if negb (eqb (status a) YOUNG) then (false, a)
  else (true, with_placeTime (Some now) (with_status GROWING a)).

(** [isMature()]: a query that performs the GROWING -> MATURE transition. *)
Definition isMature (now : Z) (a : t) : bool * t :=
  if negb (eqb (status a) GROWING) then (eqb (status a) MATURE, a)
  else
    let elapsed := HELPERS.getElapsedTime now (placeTime a) in
    let isReady := elapsed >=? growthDuration a in
    if isReady then (isReady, with_status MATURE a) else (isReady, a).

(** [getGrowthProgress()] *)
Definition getGrowthProgress (now : Z) (a : t) : Q :=
  if eqb (status a) YOUNG then 0%Q
  else if eqb (status a) MATURE then 100%Q
  else
    let elapsed := HELPERS.getElapsedTime now (placeTime a) in
    let progress := HELPERS.calculatePercentage elapsed (growthDuration a) in
    Math.min 100 progress.

(** [canBreed()] *)
Definition canBreed (now : Z) (a : t) : bool :=
  if negb (eqb (status a) GROWING) then false
  else if breedingAttempted a then false
  else
    let progress := getGrowthProgress now a in
    Qgeb progress 50.

(** The object returned by [attemptBreeding()]. *)
Module Result.
Record r : Type := mk {
  attempted : bool;
  bred : bool;
  survived : bool;
  offspring : option t;
}.
End Result.

(** [attemptBreeding()].  [random1] and [random2] are the draws of the
    breeding and of the survival check, [childId] the identifier generated
    for the offspring, [now] the time at which the offspring is placed. *)
Definition attemptBreeding (now : Z) (random1 random2 : Q) (childId : string)
           (a : t) : Completion Result.r * t :=
  let result := Result.mk false false false None in
  if breedingAttempted a then (Return result, a)
  else if negb (eqb (status a) GROWING) then (Return result, a)
  else
    let a := with_breedingAttempted true a in
    let result := Result.mk true false false None in
    let breedingSuccess := HELPERS.randomBoolean (breedingChance a) random1 in
    if negb breedingSuccess then (Return result, a)
    else
      let result := Result.mk true true false None in
      let a := with_hasOffspring true a in
      match new (type a) false childId with
      | Throw e => (Throw e, a)
      | Return child =>
          let survivalSuccess :=
            HELPERS.randomBoolean (offspringSurvivalRate a) random2 in
          if negb survivalSuccess then (Return result, a)
          else
            (* the pushed object and the returned one are the same object,
               placed before the method returns *)
            let child := snd (place now child) in
            let result := Result.mk true true true (Some child) in
            let a := with_offspring (offspring a ++ [child]) a in
            (Return result, a)
      end.

(** [isPlaced()] *)
Definition isPlaced (a : t) : bool :=
eqb (status a) GROWING || eqb (status a) MATURE.

(** [getRemainingTime()] *)
Definition getRemainingTime (now : Z) (a : t) : Z :=
if negb (eqb (status a) GROWING) then 0
else HELPERS.getRemainingTime now (placeTime a) (growthDuration a).

(** [calculateSellPrice(demandIndex)] *)
Definition calculateSellPrice (demandIndex : JsValue Q) (a : t) : Z :=
let demandIndex :=
  match demandIndex with
  | JNum d => if Qle_bool d 0 then 1%Q else d
  | _ => 1%Q
  end in
let finalPrice := (inject_Z (baseSellPrice a) * demandIndex)%Q in
Qfloor finalPrice.

(** [calculateProfit(demandIndex)] *)
Definition calculateProfit (demandIndex : JsValue Q) (a : t) : Z :=
let sellPrice := calculateSellPrice demandIndex a in
let cost := if isPurchased a then purchaseCost a else 0 in
sellPrice - cost.

(** [getTotalOffspringCount()] *)
Fixpoint getTotalOffspringCount (a : t) : nat :=
match a with
| mk _ _ _ _ _ _ _ _ _ _ _ _ offspring _ =>
    let count := List.length offspring in
    fold_left (fun count child => (count + getTotalOffspringCount child)%nat)
              offspring count
end.

(** [getAllOffspring()] *)
Fixpoint getAllOffspring (a : t) : list t :=
match a with
| mk _ _ _ _ _ _ _ _ _ _ _ _ offspring _ =>
    let allOffspring := offspring in
    fold_left (fun allOffspring child => allOffspring ++ getAllOffspring child)
              offspring allOffspring
end.

(** The object built by [toJSON()] and read by [fromJSON(json)]; [None] is a
    field that is absent or null. *)
Record Json : Type := mkJson {
j_id : option string;
j_type : option string;
j_status : option CONSTANTS.ANIMAL_STATUS.t;
j_purchaseCost : Z;
j_baseSellPrice : Z;
j_growthTime : Z;
j_growthDuration : Z;
j_placeTime : option Z;
j_breedingChance : Q;
j_offspringSurvivalRate : Q;
j_isPurchased : option bool;
j_hasOffspring : option bool;
j_breedingAttempted : option bool;
j_offspringIds : list string;
}.

(** [toJSON()]; the offspring are written as identifiers only. *)
Definition toJSON (a : t) : Json :=
mkJson (Some (id a)) (Some (type a)) (Some (status a)) (purchaseCost a)
       (baseSellPrice a) (growthTime a) (growthDuration a) (placeTime a)
       (breedingChance a) (offspringSurvivalRate a) (Some (isPurchased a))
       (Some (hasOffspring a)) (Some (breedingAttempted a))
       (map id (offspring a)).

(** [static fromJSON(json)]; [None] is a json that is not an object, [newId]
    the identifier the constructor generates before it is overwritten. *)
Definition fromJSON (json : option Json) (newId : string) : Completion t :=
match json with
| None => Throw "Invalid animal JSON data"
| Some json =>
    match j_type json with
    | None | Some EmptyString => Throw "Invalid animal JSON data"
    | Some type =>
        let purchased :=
          match j_isPurchased json with
          | Some false => false
          | _ => true
          end in
        match new type purchased newId with
        | Throw e => Throw e
        | Return animal =>
            let animal :=
              mk (stringOr (j_id json) (id animal))
                 (Animal.type animal) (purchaseCost animal)
                 (baseSellPrice animal) (growthTime animal)
                 (breedingChance animal) (offspringSurvivalRate animal)
                 (growthDuration animal)
                 (match j_status json with
                  | Some status => status
                  | None => YOUNG
                  end)
                 (truthyNumber (j_placeTime json))
                 (isPurchased animal)
                 (match j_hasOffspring json with
                  | Some b => b
                  | None => false
                  end)
                 (offspring animal)
                 (match j_breedingAttempted json with
                  | Some b => b
                  | None => false
                  end) in
            Return animal
        end
    end
end.

(** [static getAnimalDefinition(type)]; [None] is null. *)
Definition getAnimalDefinition (type : string) : option GAME_CONFIG.AnimalDef :=
find (fun a => String.eqb (GAME_CONFIG.animal_id a) type) GAME_CONFIG.ANIMALS.

End Animal.

(* ====================================================================== *)
(** ** Array operations used by GameState.js *)
(* ====================================================================== *)

Module Array.
Section Ops.
Context {A : Type}.

(** [arr.findIndex(p)] together with the element found; [None] is -1. *)
Fixpoint findIndex (p : A -> bool) (arr : list A) : option (nat * A) :=
  match arr with
  | [] => None
  | x :: rest =>
      if p x then Some (O, x)
      else match findIndex p rest with
           | Some (i, y) => Some (S i, y)
           | None => None
           end
  end.

(** [arr.splice(i, 1)]: the array without its element [i]. *)
Definition splice1 (i : nat) (arr : list A) : list A :=
  firstn i arr ++ skipn (S i) arr.

(** The array after the object at index [i] was mutated into [x]. *)
Fixpoint setAt (i : nat) (x : A) (arr : list A) {struct arr} : list A :=
  match arr, i with
  | [], _ => []
  | _ :: rest, O => x :: rest
  | y :: rest, S j => y :: setAt j x rest
  end.

(** [arr.push(x)] *)
Definition push (x : A) (arr : list A) : list A := arr ++ [x].

(** [arr[arr.length - 1]]; [None] is undefined. *)
Fixpoint lastElement (arr : list A) : option A :=
  match arr with
  | [] => None
  | [x] => Some x
  | _ :: rest => lastElement rest
  end.
End Ops.
End Array.

(* ====================================================================== *)
(** ** GameState.js *)
(* ====================================================================== *)

Module GameState.
Import CONSTANTS.

Record Inventory : Type := mkInventory {
  seeds : list Crop.t;
  crops : list Crop.t;
  harvestedCrops : list Crop.t;
  youngAnimals : list Animal.t;
  animals : list Animal.t;
}.

Record Statistics : Type := mkStatistics {
  totalCropsSold : Z;
  totalAnimalsSold : Z;
  totalCropsPurchased : Z;
  totalAnimalsPurchased : Z;
  totalMoneyEarned : Z;
  totalMoneySpent : Z;
  bestSingleSale : Z;
  totalOffspringBorn : Z;
  successfulBreedings : Z;
}.

Record t : Type := mk {
  currentMoney : Z;
  currentDay : Z;
  goalMoney : Z;
  gameStatus : GAME_STATUS;
  weatherForecast : list Weather.t;
  inventory : Inventory;
  statistics : Statistics;
  milestonesReached : list Z;
}.

(** *** Field updates *)

Definition with_currentMoney (m : Z) (g : t) : t :=
  mk m (currentDay g) (goalMoney g) (gameStatus g) (weatherForecast g)
     (inventory g) (statistics g) (milestonesReached g).

Definition with_currentDay (d : Z) (g : t) : t :=
  mk (currentMoney g) d (goalMoney g) (gameStatus g) (weatherForecast g)
     (inventory g) (statistics g) (milestonesReached g).

Definition with_gameStatus (s : GAME_STATUS) (g : t) : t :=
  mk (currentMoney g) (currentDay g) (goalMoney g) s (weatherForecast g)
     (inventory g) (statistics g) (milestonesReached g).

Definition with_weatherForecast (f : list Weather.t) (g : t) : t :=
  mk (currentMoney g) (currentDay g) (goalMoney g) (gameStatus g) f
     (inventory g) (statistics g) (milestonesReached g).

Definition with_inventory (i : Inventory) (g : t) : t :=
  mk (currentMoney g) (currentDay g) (goalMoney g) (gameStatus g)
     (weatherForecast g) i (statistics g) (milestonesReached g).

Definition with_statistics (s : Statistics) (g : t) : t :=
  mk (currentMoney g) (currentDay g) (goalMoney g) (gameStatus g)
     (weatherForecast g) (inventory g) s (milestonesReached g).

Definition with_milestonesReached (ms : list Z) (g : t) : t :=
  mk (currentMoney g) (currentDay g) (goalMoney g) (gameStatus g)
     (weatherForecast g) (inventory g) (statistics g) ms.

Definition with_seeds (l : list Crop.t) (i : Inventory) : Inventory :=
  mkInventory l (crops i) (harvestedCrops i) (youngAnimals i) (animals i).

Definition with_crops (l : list Crop.t) (i : Inventory) : Inventory :=
  mkInventory (seeds i) l (harvestedCrops i) (youngAnimals i) (animals i).

Definition with_harvestedCrops (l : list Crop.t) (i : Inventory) : Inventory :=
  mkInventory (seeds i) (crops i) l (youngAnimals i) (animals i).

Definition with_youngAnimals (l : list Animal.t) (i : Inventory) : Inventory :=
  mkInventory (seeds i) (crops i) (harvestedCrops i) l (animals i).

Definition with_animals (l : list Animal.t) (i : Inventory) : Inventory :=
  mkInventory (seeds i) (crops i) (harvestedCrops i) (youngAnimals i) l.

Definition with_totalCropsSold (n : Z) (s : Statistics) : Statistics :=
  mkStatistics n (totalAnimalsSold s) (totalCropsPurchased s)
    (totalAnimalsPurchased s) (totalMoneyEarned s) (totalMoneySpent s)
    (bestSingleSale s) (totalOffspringBorn s) (successfulBreedings s).

Definition with_totalAnimalsSold (n : Z) (s : Statistics) : Statistics :=
  mkStatistics (totalCropsSold s) n (totalCropsPurchased s)
    (totalAnimalsPurchased s) (totalMoneyEarned s) (totalMoneySpent s)
    (bestSingleSale s) (totalOffspringBorn s) (successfulBreedings s).

Definition with_totalCropsPurchased (n : Z) (s : Statistics) : Statistics :=
  mkStatistics (totalCropsSold s) (totalAnimalsSold s) n
    (totalAnimalsPurchased s) (totalMoneyEarned s) (totalMoneySpent s)
    (bestSingleSale s) (totalOffspringBorn s) (successfulBreedings s).

Definition with_totalAnimalsPurchased (n : Z) (s : Statistics) : Statistics :=
  mkStatistics (totalCropsSold s) (totalAnimalsSold s)
    (totalCropsPurchased s) n (totalMoneyEarned s) (totalMoneySpent s)
    (bestSingleSale s) (totalOffspringBorn s) (successfulBreedings s).

Definition with_totalMoneyEarned (n : Z) (s : Statistics) : Statistics :=
  mkStatistics (totalCropsSold s) (totalAnimalsSold s)
    (totalCropsPurchased s) (totalAnimalsPurchased s) n (totalMoneySpent s)
    (bestSingleSale s) (totalOffspringBorn s) (successfulBreedings s).

Definition with_totalMoneySpent (n : Z) (s : Statistics) : Statistics :=
  mkStatistics (totalCropsSold s) (totalAnimalsSold s)
    (totalCropsPurchased s) (totalAnimalsPurchased s) (totalMoneyEarned s) n
    (bestSingleSale s) (totalOffspringBorn s) (successfulBreedings s).

Definition with_bestSingleSale (n : Z) (s : Statistics) : Statistics :=
  mkStatistics (totalCropsSold s) (totalAnimalsSold s)
    (totalCropsPurchased s) (totalAnimalsPurchased s) (totalMoneyEarned s)
    (totalMoneySpent s) n (totalOffspringBorn s) (successfulBreedings s).

Definition with_totalOffspringBorn (n : Z) (s : Statistics) : Statistics :=
  mkStatistics (totalCropsSold s) (totalAnimalsSold s)
    (totalCropsPurchased s) (totalAnimalsPurchased s) (totalMoneyEarned s)
    (totalMoneySpent s) (bestSingleSale s) n (successfulBreedings s).

Definition with_successfulBreedings (n : Z) (s : Statistics) : Statistics :=
  mkStatistics (totalCropsSold s) (totalAnimalsSold s)
    (totalCropsPurchased s) (totalAnimalsPurchased s) (totalMoneyEarned s)
    (totalMoneySpent s) (bestSingleSale s) (totalOffspringBorn s) n.

Definition gameStatus_eqb (a b : GAME_STATUS) : bool :=
  match a, b with
  | PLAYING, PLAYING | WON, WON | LOST, LOST | PAUSED, PAUSED => true
  | _, _ => false
  end.

(** *** Constructor *)

(** [constructor()]; [random i] is the draw of the i-th forecast entry. *)
Definition new (random : nat -> Q) : t :=
  let currentDay := 1 in
  mk GAME_CONFIG.STARTING_MONEY
     currentDay
     GAME_CONFIG.GOAL_MONEY
     PLAYING
     (Weather.generateForecast (JNum GAME_CONFIG.WEATHER_FORECAST_DAYS)
                               (JNum currentDay) random)
     (mkInventory [] [] [] [] [])
     (mkStatistics 0 0 0 0 0 0 0 0 0)
     [].

(** *** Win / lose conditions and milestones *)

Definition _setGameWon (g : t) : t := with_gameStatus WON g.
Definition _setGameLost (g : t) : t := with_gameStatus LOST g.

Definition _checkWinCondition (g : t) : t :=
  if negb (gameStatus_eqb (gameStatus g) PLAYING) then g
  else if currentMoney g >=? goalMoney g then _setGameWon g
  else g.

Definition _checkLoseCondition (g : t) : t :=
  if negb (gameStatus_eqb (gameStatus g) PLAYING) then g
  else if (currentDay g >? GAME_CONFIG.TOTAL_DAYS)
          && (currentMoney g <? goalMoney g)
       then _setGameLost g
       else g.

Definition isGameOver (g : t) : bool :=
  gameStatus_eqb (gameStatus g) WON || gameStatus_eqb (gameStatus g) LOST.

Definition _reachMilestone (amount : Z) (g : t) : t :=
  with_milestonesReached (Array.push amount (milestonesReached g)) g.

Definition _checkMilestones (g : t) : t :=
  fold_left
    (fun g amount =>
       if existsb (Z.eqb amount) (milestonesReached g) then g
       else if currentMoney g >=? amount then _reachMilestone amount g
       else g)
    GAME_CONFIG.MILESTONES g.

(** *** Money *)

(** [addMoney(amount)] *)
Definition addMoney (amount : JsValue Z) (g : t) : bool * t :=
  match amount with
  | JNum x =>
      if negb (HELPERS.isValidNumber amount) || jsLtZ amount 0
      then (false, g)
      else
        let g := with_currentMoney (currentMoney g + x) g in
        let g := with_statistics
                   (with_totalMoneyEarned
                      (totalMoneyEarned (statistics g) + x) (statistics g))
                   g in
        let g := if x >? bestSingleSale (statistics g)
                 then with_statistics
                        (with_bestSingleSale x (statistics g)) g
                 else g in
        let g := _checkMilestones g in
        let g := _checkWinCondition g in
        (true, g)
  | _ => (false, g)
  end.

(** [deductMoney(amount)] *)
Definition deductMoney (amount : JsValue Z) (g : t) : bool * t :=
  match amount with
  | JNum x =>
      if negb (HELPERS.isValidNumber amount) || jsLtZ amount 0
      then (false, g)
      else if currentMoney g <? x then (false, g)
      else
        let g := with_currentMoney (currentMoney g - x) g in
        let g := with_statistics
                   (with_totalMoneySpent
                      (totalMoneySpent (statistics g) + x) (statistics g))
                   g in
        (true, g)
  | _ => (false, g)
  end.

(** [canAfford(amount)] *)
Definition canAfford (amount : JsValue Z) (g : t) : bool :=
  match amount with
  | JNum x => currentMoney g >=? x
  | _ => false
  end.

(** *** Days and the forecast window *)

(** [_updateWeatherForecast()]; throws a TypeError when no entry is left
    after the filter, the forecast having been reassigned by then. *)
Definition _updateWeatherForecast (random : Q) (g : t) : Completion unit * t :=
  let g := with_weatherForecast
             (filter (fun w => jsGeZ (Weather.day w) (currentDay g))
                     (weatherForecast g))
             g in
  match Array.lastElement (weatherForecast g) with
  | None => (Throw "TypeError: cannot read properties of undefined", g)
  | Some lastWeather =>
      let lastDay := Weather.day lastWeather in
      let newWeather := Weather.new (jsAddZ lastDay 1) None random in
      (Return tt,
       with_weatherForecast (Array.push newWeather (weatherForecast g)) g)
  end.

(** [advanceDay()]; [random] is the draw of the appended forecast entry. *)
Definition advanceDay (random : Q) (g : t) : Completion unit * t :=
  if negb (gameStatus_eqb (gameStatus g) PLAYING) then (Return tt, g)
  else
    let g := with_currentDay (currentDay g + 1) g in
    match _updateWeatherForecast random g with
    | (Throw e, g) => (Throw e, g)
    | (Return _, g) =>
        let g := _checkLoseCondition g in
        (Return tt, g)
    end.

(** [getDaysRemaining()] *)
Definition getDaysRemaining (g : t) : Z :=
  let remaining := GAME_CONFIG.TOTAL_DAYS - currentDay g + 1 in
  Z.max 0 remaining.

(** *** Crops *)

(** [addSeed(crop)] *)
Definition addSeed (crop : Crop.t) (g : t) : t :=
  let g := with_inventory
             (with_seeds (Array.push crop (seeds (inventory g)))
                         (inventory g)) g in
  with_statistics
    (with_totalCropsPurchased (totalCropsPurchased (statistics g) + 1)
                              (statistics g)) g.

(** [plantCrop(cropId)] *)
Definition plantCrop (now : Z) (cropId : string) (g : t) : bool * t :=
  match Array.findIndex (fun s => String.eqb (Crop.id s) cropId)
                        (seeds (inventory g)) with
  | None => (false, g)
  | Some (seedIndex, crop) =>
      let g := with_inventory
                 (with_seeds (Array.splice1 seedIndex (seeds (inventory g)))
                             (inventory g)) g in
      let crop := snd (Crop.plant now crop) in
      let g := with_inventory
                 (with_crops (Array.push crop (crops (inventory g)))
                             (inventory g)) g in
      (true, g)
  end.

(** [harvestCrop(cropId)]; [isMature()] mutates the crop where it sits. *)
Definition harvestCrop (now : Z) (cropId : string) (g : t) : bool * t :=
  match Array.findIndex (fun c => String.eqb (Crop.id c) cropId)
                        (crops (inventory g)) with
  | None => (false, g)
  | Some (cropIndex, crop) =>
      let '(mature, crop) := Crop.isMature now crop in
      let g := with_inventory
                 (with_crops (Array.setAt cropIndex crop (crops (inventory g)))
                             (inventory g)) g in
      if negb mature then (false, g)
      else
        let crop := snd (Crop.harvest now crop) in
        let g := with_inventory
                   (with_crops (Array.splice1 cropIndex (crops (inventory g)))
                               (inventory g)) g in
        let g := with_inventory
                   (with_harvestedCrops
                      (Array.push crop (harvestedCrops (inventory g)))
                      (inventory g)) g in
        (true, g)
  end.

(** [sellCrop(cropId)]; [None] is the null result. *)
Definition sellCrop (cropId : string) (g : t) : option Crop.t * t :=
  match Array.findIndex (fun c => String.eqb (Crop.id c) cropId)
                        (harvestedCrops (inventory g)) with
  | None => (None, g)
  | Some (cropIndex, crop) =>
      let g := with_inventory
                 (with_harvestedCrops
                    (Array.splice1 cropIndex (harvestedCrops (inventory g)))
                    (inventory g)) g in
      let g := with_statistics
                 (with_totalCropsSold (totalCropsSold (statistics g) + 1)
                                      (statistics g)) g in
      (Some crop, g)
  end.

(** *** Animals *)

(** [addYoungAnimal(animal)] *)
Definition addYoungAnimal (animal : Animal.t) (g : t) : t :=
  let g := with_inventory
             (with_youngAnimals
                (Array.push animal (youngAnimals (inventory g)))
                (inventory g)) g in
  with_statistics
    (with_totalAnimalsPurchased (totalAnimalsPurchased (statistics g) + 1)
                                (statistics g)) g.

(** [placeAnimal(animalId)] *)
Definition placeAnimal (now : Z) (animalId : string) (g : t) : bool * t :=
  match Array.findIndex (fun a => String.eqb (Animal.id a) animalId)
                        (youngAnimals (inventory g)) with
  | None => (false, g)
  | Some (animalIndex, animal) =>
      let g := with_inventory
                 (with_youngAnimals
                    (Array.splice1 animalIndex (youngAnimals (inventory g)))
                    (inventory g)) g in
      let animal := snd (Animal.place now animal) in
      let g := with_inventory
                 (with_animals (Array.push animal (animals (inventory g)))
                               (inventory g)) g in
      (true, g)
  end.

(** [sellAnimal(animalId)]; [isMature()] mutates the animal where it sits. *)
Definition sellAnimal (now : Z) (animalId : string) (g : t)
  : option Animal.t * t :=
  match Array.findIndex (fun a => String.eqb (Animal.id a) animalId)
                        (animals (inventory g)) with
  | None => (None, g)
  | Some (animalIndex, animal) =>
      let '(mature, animal) := Animal.isMature now animal in
      let g := with_inventory
                 (with_animals
                    (Array.setAt animalIndex animal (animals (inventory g)))
                    (inventory g)) g in
      if negb mature then (None, g)
      else
        let g := with_inventory
                   (with_animals
                      (Array.splice1 animalIndex (animals (inventory g)))
                      (inventory g)) g in
        let g := with_statistics
                   (with_totalAnimalsSold
                      (totalAnimalsSold (statistics g) + 1) (statistics g))
                   g in
        (Some animal, g)
  end.

(** [addOffspringToFarm(offspring)] *)
Definition addOffspringToFarm (offspring : Animal.t) (g : t) : t :=
  let g := with_inventory
             (with_animals (Array.push offspring (animals (inventory g)))
                           (inventory g)) g in
  let g := with_statistics
             (with_totalOffspringBorn
                (totalOffspringBorn (statistics g) + 1) (statistics g)) g in
  with_statistics
    (with_successfulBreedings
       (successfulBreedings (statistics g) + 1) (statistics g)) g.

(** *** Capacity queries *)

(** [canPlantMoreCrops()] *)
Definition canPlantMoreCrops (g : t) : bool :=
  (List.length (crops (inventory g)) <? VALIDATION.MAX_CROP_SLOTS)%nat.

(** [canPlaceMoreAnimals()] *)
Definition canPlaceMoreAnimals (g : t) : bool :=
  (List.length (animals (inventory g)) <? VALIDATION.MAX_ANIMAL_SLOTS)%nat.

(** *** Queries and reset *)

(** [getCurrentWeather()]; [None] is null. *)
Definition getCurrentWeather (g : t) : option Weather.t :=
find (fun w => jsEqZ (Weather.day w) (currentDay g)) (weatherForecast g).

(** [isLastDay()] *)
Definition isLastDay (g : t) : bool :=
currentDay g =? GAME_CONFIG.TOTAL_DAYS.

(** [getProgress()] *)
Definition getProgress (g : t) : Q :=
HELPERS.calculatePercentage (currentMoney g) (goalMoney g).

(** [getAvailableCropSlots()] *)
Definition getAvailableCropSlots (g : t) : Z :=
Z.of_nat VALIDATION.MAX_CROP_SLOTS - Z.of_nat (List.length (crops (inventory g))).

(** [getAvailableAnimalSlots()] *)
Definition getAvailableAnimalSlots (g : t) : Z :=
Z.of_nat VALIDATION.MAX_ANIMAL_SLOTS
- Z.of_nat (List.length (animals (inventory g))).


(** *** Saving and loading *)

(** The object built by [toJSON()] and read by [fromJSON(json)], the two time
    stamps apart.  [None] is a field that is absent or null; the arrays are
    taken as present, without them [fromJSON] throws a TypeError. *)
Record Json : Type := mkJson {
  j_currentMoney : option Z;
  j_currentDay : option Z;
  j_goalMoney : option Z;
  j_gameStatus : option GAME_STATUS;
  j_weatherForecast : list Weather.Json;
  j_seeds : list Crop.Json;
  j_crops : list Crop.Json;
  j_harvestedCrops : list Crop.Json;
  j_youngAnimals : list Animal.Json;
  j_animals : list Animal.Json;
  j_statistics : option Statistics;
  j_milestonesReached : option (list Z);
}.

(** [toJSON()] *)
Definition toJSON (g : t) : Json :=
  mkJson (Some (currentMoney g)) (Some (currentDay g)) (Some (goalMoney g))
         (Some (gameStatus g))
         (map Weather.toJSON (weatherForecast g))
         (map Crop.toJSON (seeds (inventory g)))
         (map Crop.toJSON (crops (inventory g)))
         (map Crop.toJSON (harvestedCrops (inventory g)))
         (map Animal.toJSON (youngAnimals (inventory g)))
         (map Animal.toJSON (animals (inventory g)))
         (Some (statistics g)) (Some (milestonesReached g)).

(** [json.field || fallback] on a number: zero is falsy. *)
Definition numberOr (v : option Z) (fallback : Z) : Z :=
  match truthyNumber v with
  | Some x => x
  | None => fallback
  end.

(** [array.map(x => f(x))] for an [f] that may throw; the i-th call is
    [f i]. *)
Fixpoint mapThrowing {A B : Type} (f : nat -> A -> Completion B) (i : nat)
         (arr : list A) : Completion (list B) :=
  match arr with
  | [] => Return []
  | x :: rest =>
      match f i x with
      | Throw e => Throw e
      | Return y =>
          match mapThrowing f (S i) rest with
          | Throw e => Throw e
          | Return ys => Return (y :: ys)
          end
      end
  end.

(** [static fromJSON(json)].  [random i] is the draw of the i-th Weather,
    [newId k i] the id generated by the constructor of the i-th item of the
    k-th array, before it is overwritten. *)
Definition fromJSON (json : Json) (random : nat -> Q)
           (newId : nat -> nat -> string) : Completion t :=
  let currentMoney := numberOr (j_currentMoney json)
                               GAME_CONFIG.STARTING_MONEY in
  let currentDay := numberOr (j_currentDay json) 1 in
  let goalMoney := numberOr (j_goalMoney json) GAME_CONFIG.GOAL_MONEY in
  let gameStatus :=
    match j_gameStatus json with
    | Some status => status
    | None => PLAYING
    end in
  let weatherForecast :=
    map (fun iw => Weather.fromJSON (Some (snd iw)) (random (fst iw)))
        (combine (seq 0 (List.length (j_weatherForecast json)))
                 (j_weatherForecast json)) in
  match mapThrowing (fun i c => Crop.fromJSON (Some c) (newId 0%nat i)) 0
                    (j_seeds json) with
  | Throw e => Throw e
  | Return seeds =>
  match mapThrowing (fun i c => Crop.fromJSON (Some c) (newId 1%nat i)) 0
                    (j_crops json) with
  | Throw e => Throw e
  | Return crops =>
  match mapThrowing (fun i c => Crop.fromJSON (Some c) (newId 2%nat i)) 0
                    (j_harvestedCrops json) with
  | Throw e => Throw e
  | Return harvestedCrops =>
  match mapThrowing (fun i a => Animal.fromJSON (Some a) (newId 3%nat i)) 0
                    (j_youngAnimals json) with
  | Throw e => Throw e
  | Return youngAnimals =>
  match mapThrowing (fun i a => Animal.fromJSON (Some a) (newId 4%nat i)) 0
                    (j_animals json) with
  | Throw e => Throw e
  | Return animals =>
      let statistics :=
        match j_statistics json with
        | Some statistics => statistics
        | None => mkStatistics 0 0 0 0 0 0 0 0 0
        end in
      let milestonesReached :=
        match j_milestonesReached json with
        | Some reached => reached
        | None => []
        end in
      Return (mk currentMoney currentDay goalMoney gameStatus weatherForecast
                 (mkInventory seeds crops harvestedCrops youngAnimals animals)
                 statistics milestonesReached)
  end end end end end.

End GameState.

(* ====================================================================== *)
(** ** TimerManager.js: the growth tick and the interval timers *)
(* ====================================================================== *)

Module TimerManager.

(** [_attemptAnimalBreeding(animal)] followed by [_onBreedingSuccess]; the
    animal is the object at [index] of the farm's animals, mutated where it
    sits. *)
Definition _attemptAnimalBreeding (now : Z) (random1 random2 : Q)
           (childId : string) (index : nat) (g : GameState.t)
  : Completion unit * GameState.t :=
  match nth_error (GameState.animals (GameState.inventory g)) index with
  | None => (Return tt, g)
  | Some animal =>
      let '(result, animal) :=
        Animal.attemptBreeding now random1 random2 childId animal in
      let g := GameState.with_inventory
                 (GameState.with_animals
                    (Array.setAt index animal
                       (GameState.animals (GameState.inventory g)))
                    (GameState.inventory g)) g in
      match result with
      | Throw e => (Throw e, g)
      | Return result =>
          if Animal.Result.attempted result then
            if Animal.Result.bred result && Animal.Result.survived result
            then
              match Animal.Result.offspring result with
              | Some offspring =>
                  (Return tt, GameState.addOffspringToFarm offspring g)
              | None => (Return tt, g)
              end
            else (Return tt, g)
          else (Return tt, g)
      end
  end.

(** *** The growth tick *)

(** What one visit of [_updateAnimals] reads from outside: the clock at
    [isMature()], at [canBreed()] and when an offspring is placed, the two
    draws of [attemptBreeding()] and the id generated for the offspring. *)
Record Visit : Type := mkVisit {
  nowMature : Z;
  nowBreed : Z;
  nowPlace : Z;
  random1 : Q;
  random2 : Q;
  childId : string;
}.

(** [_updateCrops()]: [isMature()] on every crop of the farm, the i-th reading
    the clock as [now i]. *)
Fixpoint updateEachCrop (now : nat -> Z) (i : nat) (crops : list Crop.t)
  : list Crop.t :=
  match crops with
  | [] => []
  | crop :: rest =>
      snd (Crop.isMature (now i) crop) :: updateEachCrop now (S i) rest
  end.

Definition _updateCrops (now : nat -> Z) (g : GameState.t) : GameState.t :=
  GameState.with_inventory
    (GameState.with_crops
       (updateEachCrop now 0 (GameState.crops (GameState.inventory g)))
       (GameState.inventory g)) g.

(** [animals.forEach(animal => ...)] of [_updateAnimals()] over the farm's own
    array, to which [addOffspringToFarm] pushes: [forEach] reads the length
    once and visits the indices below it.  [remaining] counts the indices
    still to visit; an exception of [attemptBreeding()] ends the loop. *)
Fixpoint updateEachAnimal (visits : nat -> Visit) (remaining : nat)
         (index : nat) (g : GameState.t) : Completion unit * GameState.t :=
  match remaining with
  | O => (Return tt, g)
  | S remaining' =>
      let visit := visits index in
      match nth_error (GameState.animals (GameState.inventory g)) index with
      | None => updateEachAnimal visits remaining' (S index) g
      | Some animal =>
          let '(_, animal) := Animal.isMature (nowMature visit) animal in
          let g := GameState.with_inventory
                     (GameState.with_animals
                        (Array.setAt index animal
                           (GameState.animals (GameState.inventory g)))
                        (GameState.inventory g)) g in
          if CONSTANTS.ANIMAL_STATUS.eqb (Animal.status animal)
                                         CONSTANTS.ANIMAL_STATUS.GROWING
             && Animal.canBreed (nowBreed visit) animal
          then
            match _attemptAnimalBreeding (nowPlace visit) (random1 visit)
                    (random2 visit) (childId visit) index g with
            | (Throw e, g) => (Throw e, g)
            | (Return _, g) =>
                updateEachAnimal visits remaining' (S index) g
            end
          else updateEachAnimal visits remaining' (S index) g
      end
  end.

(** [_updateAnimals()] *)
Definition _updateAnimals (visits : nat -> Visit) (g : GameState.t)
  : Completion unit * GameState.t :=
  updateEachAnimal visits
    (List.length (GameState.animals (GameState.inventory g))) 0 g.

(** *** The two interval timers *)

(** The browser's interval timers: the intervals that are scheduled, each
    with the method it calls, and the id the next [setInterval] returns. *)
Inductive Callback : Type := MainLoop | AdvanceDay.

Record Browser : Type := mkBrowser {
  scheduled : list (Z * Callback);
  nextId : Z;
}.

Definition setInterval (callback : Callback) (b : Browser) : Z * Browser :=
  (nextId b,
   mkBrowser (Array.push (nextId b, callback) (scheduled b)) (nextId b + 1)).

Definition clearInterval (id : Z) (b : Browser) : Browser :=
  mkBrowser (filter (fun entry => negb (fst entry =? id)) (scheduled b))
            (nextId b).

Record t : Type := mk {
  mainLoopTimer : option Z;
  dayTimer : option Z;
  isRunning : bool;
  currentDayStartTime : option Z;
}.

(** [constructor()] *)
Definition new : t := mk None None false None.

(** [start()] with [_startDayTimer()] *)
Definition start (now : Z) (tm : t) (b : Browser) : t * Browser :=
  if isRunning tm then (tm, b)
  else
    let '(mainLoopId, b) := setInterval MainLoop b in
    let '(dayId, b) := setInterval AdvanceDay b in
    (mk (Some mainLoopId) (Some dayId) true (Some now), b).

(** [stop()]; [if (this.mainLoopTimer)] takes the id 0 for no timer. *)
Definition stop (tm : t) (b : Browser) : t * Browser :=
  if negb (isRunning tm) then (tm, b)
  else
    let '(mainLoopTimer', b) :=
      match truthyNumber (mainLoopTimer tm) with
      | Some id => (None, clearInterval id b)
      | None => (mainLoopTimer tm, b)
      end in
    let '(dayTimer', b) :=
      match truthyNumber (dayTimer tm) with
      | Some id => (None, clearInterval id b)
      | None => (dayTimer tm, b)
      end in
    (mk mainLoopTimer' dayTimer' false (currentDayStartTime tm), b).

(** [pause()] and [resume()] *)
Definition pause (tm : t) (b : Browser) : t * Browser := stop tm b.
Definition resume (now : Z) (tm : t) (b : Browser) : t * Browser :=
  start now tm b.

(** [_mainLoop()] *)
Definition _mainLoop (now : nat -> Z) (visits : nat -> Visit)
           (tm : t) (b : Browser) (g : GameState.t)
  : Completion unit * (t * Browser * GameState.t) :=
  if GameState.isGameOver g then
    let '(tm, b) := stop tm b in (Return tt, (tm, b, g))
  else
    let g := _updateCrops now g in
    let '(outcome, g) := _updateAnimals visits g in
    (outcome, (tm, b, g)).

(** [_advanceDay()]; an exception of [gameState.advanceDay()] leaves the
    method before the start of the day is noted. *)
Definition _advanceDay (now : Z) (random : Q)
           (tm : t) (b : Browser) (g : GameState.t)
  : Completion unit * (t * Browser * GameState.t) :=
  match GameState.advanceDay random g with
  | (Throw e, g) => (Throw e, (tm, b, g))
  | (Return _, g) =>
      let tm := mk (mainLoopTimer tm) (dayTimer tm) (isRunning tm)
                   (Some now) in
      if GameState.isGameOver g then
        let '(tm, b) := stop tm b in (Return tt, (tm, b, g))
      else (Return tt, (tm, b, g))
  end.

End TimerManager.

(* ====================================================================== *)
(** ** ShopManager.js: buying and selling *)
(* ====================================================================== *)

Module ShopManager.
Import GameState.

(** The result objects of the purchase and sale methods.  Each constructor is
    one return statement of the method, in the order of the source; the
    message texts are left out. *)
Inductive Purchase (A : Type) : Type :=
| PurchaseGameOver
| PurchaseInvalidItem
| PurchaseNotEnoughMoney
| PurchaseFailed
| Purchased (item : A).

Arguments PurchaseGameOver {A}.
Arguments PurchaseInvalidItem {A}.
Arguments PurchaseNotEnoughMoney {A}.
Arguments PurchaseFailed {A}.
Arguments Purchased {A} item.

Inductive Sale (A : Type) : Type :=
| SaleGameOver
| SaleNotFound
| SaleNotReady
| SaleNoWeather
| SaleFailed
| Sold (sellPrice profit : Z) (item : A).

Arguments SaleGameOver {A}.
Arguments SaleNotFound {A}.
Arguments SaleNotReady {A}.
Arguments SaleNoWeather {A}.
Arguments SaleFailed {A}.
Arguments Sold {A} sellPrice profit item.

(** [result.success] and [result.sellPrice] *)
Definition purchaseSuccess {A : Type} (result : Purchase A) : bool :=
  match result with
  | Purchased _ => true
  | _ => false
  end.

Definition saleSuccess {A : Type} (result : Sale A) : bool :=
  match result with
  | Sold _ _ _ => true
  | _ => false
  end.

Definition saleSellPrice {A : Type} (result : Sale A) : option Z :=
  match result with
  | Sold sellPrice _ _ => Some sellPrice
  | _ => None
  end.

(** The answers of [canBuySeed] and [canBuyAnimal], of [canSellCrop] and
    [canSellAnimal]. *)
Inductive CanBuy : Type :=
| CanBuyGameOver | CanBuyInvalidType | CanBuyNotEnoughMoney | CanBuyYes.

Inductive CanSell : Type :=
| CanSellNotFound | CanSellNotReady | CanSellYes.

Definition canBuy (answer : CanBuy) : bool :=
  match answer with
  | CanBuyYes => true
  | _ => false
  end.

Definition canSell (answer : CanSell) : bool :=
  match answer with
  | CanSellYes => true
  | _ => false
  end.

(** *** Tom's shop: seeds and crops *)

(** [buySeed(cropType)]; [newId] is the id drawn by the Crop constructor. *)
Definition buySeed (cropType newId : string) (g : t)
  : Completion (Purchase Crop.t) * t :=
  if isGameOver g then (Return PurchaseGameOver, g)
  else
    match Crop.getCropDefinition cropType with
    | None => (Return PurchaseInvalidItem, g)
    | Some cropDef =>
        if negb (canAfford (JNum (GAME_CONFIG.seedCost cropDef)) g)
        then (Return PurchaseNotEnoughMoney, g)
        else
          let '(deducted, g) :=
            deductMoney (JNum (GAME_CONFIG.seedCost cropDef)) g in
          if negb deducted then (Return PurchaseFailed, g)
          else
            match Crop.new cropType newId with
            | Throw e => (Throw e, g)
            | Return crop =>
                let g := addSeed crop g in
                (Return (Purchased crop), g)
            end
    end.

(** [canBuySeed(cropType)] *)
Definition canBuySeed (cropType : string) (g : t) : CanBuy :=
  if isGameOver g then CanBuyGameOver
  else
    match Crop.getCropDefinition cropType with
    | None => CanBuyInvalidType
    | Some cropDef =>
        if negb (canAfford (JNum (GAME_CONFIG.seedCost cropDef)) g)
        then CanBuyNotEnoughMoney
        else CanBuyYes
    end.

(** [sellCrop(cropId)] *)
Definition sellCrop (cropId : string) (g : t) : Sale Crop.t * t :=
  if isGameOver g then (SaleGameOver, g)
  else
    match find (fun c => String.eqb (Crop.id c) cropId)
               (harvestedCrops (inventory g)) with
    | None => (SaleNotFound, g)
    | Some crop =>
        if negb (Crop.isHarvested crop) then (SaleNotReady, g)
        else
          match getCurrentWeather g with
          | None => (SaleNoWeather, g)
          | Some currentWeather =>
              let sellPrice :=
                Crop.calculateSellPrice
                  (JNum (Weather.demandIndex currentWeather)) crop in
              let profit :=
                Crop.calculateProfit
                  (JNum (Weather.demandIndex currentWeather)) crop in
              match GameState.sellCrop cropId g with
              | (None, g) => (SaleFailed, g)
              | (Some _, g) =>
                  let g := snd (addMoney (JNum sellPrice) g) in
                  (Sold sellPrice profit crop, g)
              end
          end
    end.

(** [canSellCrop(cropId)] *)
Definition canSellCrop (cropId : string) (g : t) : CanSell :=
  match find (fun c => String.eqb (Crop.id c) cropId)
             (harvestedCrops (inventory g)) with
  | None => CanSellNotFound
  | Some crop =>
      if negb (Crop.isHarvested crop) then CanSellNotReady else CanSellYes
  end.

(** *** Henry's shop: animals *)

(** [buyAnimal(animalType)]; [newId] is the id drawn by the Animal
    constructor. *)
Definition buyAnimal (animalType newId : string) (g : t)
  : Completion (Purchase Animal.t) * t :=
  if isGameOver g then (Return PurchaseGameOver, g)
  else
    match Animal.getAnimalDefinition animalType with
    | None => (Return PurchaseInvalidItem, g)
    | Some animalDef =>
        if negb (canAfford (JNum (GAME_CONFIG.purchaseCost animalDef)) g)
        then (Return PurchaseNotEnoughMoney, g)
        else
          let '(deducted, g) :=
            deductMoney (JNum (GAME_CONFIG.purchaseCost animalDef)) g in
          if negb deducted then (Return PurchaseFailed, g)
          else
            match Animal.new animalType true newId with
            | Throw e => (Throw e, g)
            | Return animal =>
                let g := addYoungAnimal animal g in
                (Return (Purchased animal), g)
            end
    end.

(** [canBuyAnimal(animalType)] *)
Definition canBuyAnimal (animalType : string) (g : t) : CanBuy :=
  if isGameOver g then CanBuyGameOver
  else
    match Animal.getAnimalDefinition animalType with
    | None => CanBuyInvalidType
    | Some animalDef =>
        if negb (canAfford (JNum (GAME_CONFIG.purchaseCost animalDef)) g)
        then CanBuyNotEnoughMoney
        else CanBuyYes
    end.

(** [sellAnimal(animalId)]; [isMature()] mutates the animal where it sits.
    [now] is the clock read by the shop's own [isMature()], [now'] the one
    read inside [gameState.sellAnimal]. *)
Definition sellAnimal (now now' : Z) (animalId : string) (g : t)
  : Sale Animal.t * t :=
  if isGameOver g then (SaleGameOver, g)
  else
    match Array.findIndex (fun a => String.eqb (Animal.id a) animalId)
                          (animals (inventory g)) with
    | None => (SaleNotFound, g)
    | Some (animalIndex, animal) =>
        let '(mature, animal) := Animal.isMature now animal in
        let g := with_inventory
                   (with_animals
                      (Array.setAt animalIndex animal (animals (inventory g)))
                      (inventory g)) g in
        if negb mature then (SaleNotReady, g)
        else
          match getCurrentWeather g with
          | None => (SaleNoWeather, g)
          | Some currentWeather =>
              let sellPrice :=
                Animal.calculateSellPrice
                  (JNum (Weather.demandIndex currentWeather)) animal in
              let profit :=
                Animal.calculateProfit
                  (JNum (Weather.demandIndex currentWeather)) animal in
              match GameState.sellAnimal now' animalId g with
              | (None, g) => (SaleFailed, g)
              | (Some _, g) =>
                  let g := snd (addMoney (JNum sellPrice) g) in
                  (Sold sellPrice profit animal, g)
              end
          end
    end.

(** [canSellAnimal(animalId)]; its [isMature()] mutates the animal too. *)
Definition canSellAnimal (now : Z) (animalId : string) (g : t)
  : CanSell * t :=
  match Array.findIndex (fun a => String.eqb (Animal.id a) animalId)
                        (animals (inventory g)) with
  | None => (CanSellNotFound, g)
  | Some (animalIndex, animal) =>
      let '(mature, animal) := Animal.isMature now animal in
      let g := with_inventory
                 (with_animals
                    (Array.setAt animalIndex animal (animals (inventory g)))
                    (inventory g)) g in
      if negb mature then (CanSellNotReady, g) else (CanSellYes, g)
  end.

(** *** Prices shown by the shops *)




(** *** Selling everything at once *)

(** The object returned by [sellAllHarvestedCrops()] and
    [sellAllMatureAnimals()], the message apart. *)
Record SaleSummary (A : Type) : Type := mkSaleSummary {
  success : bool;
  count : Z;
  totalEarnings : Z;
  soldItems : list A;
}.

Arguments mkSaleSummary {A}.
Arguments success {A}.
Arguments count {A}.
Arguments totalEarnings {A}.
Arguments soldItems {A}.

(** The locals [totalEarnings], [soldCount] and [soldCrops] of the loop. *)
Definition Tally (A : Type) : Type := (Z * Z * list A)%type.

Definition tallySale {A : Type} (item : A) (result : Sale A) (tally : Tally A)
  : Tally A :=
  let '(totalEarnings, soldCount, sold) := tally in
  match result with
  | Sold sellPrice _ _ =>
      (totalEarnings + sellPrice, soldCount + 1, Array.push item sold)
  | _ => tally
  end.

Definition summarize {A : Type} (tally : Tally A) : SaleSummary A :=
  let '(totalEarnings, soldCount, sold) := tally in
  mkSaleSummary (soldCount >? 0) soldCount totalEarnings sold.



(** [getAnimalsOnFarm().filter(a => a.isMature())]: the farm's animals after
    the calls of [isMature()], the i-th reading the clock as [now i], and the
    new array of those that answered true. *)
Fixpoint filterMature (now : nat -> Z) (i : nat) (farm : list Animal.t)
  : list Animal.t * list Animal.t :=
  match farm with
  | [] => ([], [])
  | animal :: rest =>
      let '(mature, animal) := Animal.isMature (now i) animal in
      let '(rest, matureRest) := filterMature now (S i) rest in
      (animal :: rest, if mature then animal :: matureRest else matureRest)
  end.

(** [matureAnimals.forEach(animal => ...)] over that new array; the k-th
    [sellAnimal] reads the clock as [now k] and [now' k]. *)
Fixpoint sellEachMatureAnimal (now now' : nat -> Z) (k : nat)
         (matureAnimals : list Animal.t) (g : t) (tally : Tally Animal.t)
  : Tally Animal.t * t :=
  match matureAnimals with
  | [] => (tally, g)
  | animal :: rest =>
      let '(result, g) := sellAnimal (now k) (now' k) (Animal.id animal) g in
      sellEachMatureAnimal now now' (S k) rest g
                           (tallySale animal result tally)
  end.

(** [sellAllMatureAnimals()]; [now0] is the clock of the filter, [now] and
    [now'] those of the sales. *)
Definition sellAllMatureAnimals (now0 now now' : nat -> Z) (g : t)
  : SaleSummary Animal.t * t :=
  let '(farm, matureAnimals) :=
    filterMature now0 0 (animals (inventory g)) in
  let g := with_inventory (with_animals farm (inventory g)) g in
  if (List.length matureAnimals =? 0)%nat
  then (mkSaleSummary false 0 0 [], g)
  else
    let '(tally, g) :=
      sellEachMatureAnimal now now' 0 matureAnimals g (0, 0, []) in
    (summarize tally, g).

End ShopManager.

(* ====================================================================== *)
(** ** Notions used to state the properties *)
(* ====================================================================== *)

(** The multiplier of a two-decimal weather value, given in hundredths. *)
Definition demandOfHundredths (n : Z) : Q :=
  if 100 <=? n then 8 # 10
  else if 90 <=? n then 9 # 10
  else if 80 <=? n then 10 # 10
  else if 70 <=? n then 12 # 10
  else if 60 <=? n then 13 # 10
  else if 50 <=? n then 14 # 10
  else if 40 <=? n then 15 # 10
  else if 30 <=? n then 17 # 10
  else 20 # 10.

(** An animal whose type and growth duration are those of an entry of
    [GAME_CONFIG.ANIMALS], as the constructor builds it. *)
Definition animalFromConfig (a : Animal.t) : Prop :=
  exists animalDef,
    find (fun d => String.eqb (GAME_CONFIG.animal_id d) (Animal.type a))
         GAME_CONFIG.ANIMALS = Some animalDef
    /\ Animal.growthDuration a =
       HELPERS.minutesToMilliseconds (GAME_CONFIG.animal_growthTime animalDef).

(** A crop whose type and growth duration are those of an entry of
    [GAME_CONFIG.CROPS], as the constructor builds it. *)
Definition cropFromConfig (c : Crop.t) : Prop :=
  exists cropDef,
    find (fun d => String.eqb (GAME_CONFIG.crop_id d) (Crop.type c))
         GAME_CONFIG.CROPS = Some cropDef
    /\ Crop.growthDuration c =
       HELPERS.minutesToMilliseconds (GAME_CONFIG.crop_growthTime cropDef).

(** A call of one of the state-changing methods of an Animal, with the time,
    draws and identifier it consumes. *)
Inductive AnimalCall : Type :=
| CallPlace (now : Z)
| CallIsMature (now : Z)
| CallAttemptBreeding (now : Z) (random1 random2 : Q) (childId : string).

Definition runAnimalCall (call : AnimalCall) (a : Animal.t) : Animal.t :=
  match call with
  | CallPlace now => snd (Animal.place now a)
  | CallIsMature now => snd (Animal.isMature now a)
  | CallAttemptBreeding now random1 random2 childId =>
      snd (Animal.attemptBreeding now random1 random2 childId a)
  end.

Definition runAnimalCalls (calls : list AnimalCall) (a : Animal.t) : Animal.t :=
  fold_left (fun a call => runAnimalCall call a) calls a.

(** A call of one of the mutating methods of the Ledger, with the time and
    draw it consumes. *)
Inductive LedgerCall : Type :=
| CallAddMoney (amount : JsValue Z)
| CallDeductMoney (amount : JsValue Z)
| CallAdvanceDay (random : Q)
| CallAddSeed (crop : Crop.t)
| CallPlantCrop (now : Z) (cropId : string)
| CallHarvestCrop (now : Z) (cropId : string)
| CallSellCrop (cropId : string)
| CallAddYoungAnimal (animal : Animal.t)
| CallPlaceAnimal (now : Z) (animalId : string)
| CallSellAnimal (now : Z) (animalId : string)
| CallAddOffspringToFarm (offspring : Animal.t).

(** The Ledger after a call, also when the call threw. *)
Definition runLedgerCall (call : LedgerCall) (g : GameState.t) : GameState.t :=
  match call with
  | CallAddMoney amount => snd (GameState.addMoney amount g)
  | CallDeductMoney amount => snd (GameState.deductMoney amount g)
  | CallAdvanceDay random => snd (GameState.advanceDay random g)
  | CallAddSeed crop => GameState.addSeed crop g
  | CallPlantCrop now cropId => snd (GameState.plantCrop now cropId g)
  | CallHarvestCrop now cropId => snd (GameState.harvestCrop now cropId g)
  | CallSellCrop cropId => snd (GameState.sellCrop cropId g)
  | CallAddYoungAnimal animal => GameState.addYoungAnimal animal g
  | CallPlaceAnimal now animalId => snd (GameState.placeAnimal now animalId g)
  | CallSellAnimal now animalId => snd (GameState.sellAnimal now animalId g)
  | CallAddOffspringToFarm offspring => GameState.addOffspringToFarm offspring g
  end.

Definition runLedgerCalls (calls : list LedgerCall) (g : GameState.t)
  : GameState.t :=
  fold_left (fun g call => runLedgerCall call g) calls g.

(** [n] successive calls of [advanceDay()], the k-th drawing [random k]; a
    thrown exception ends the run. *)
Fixpoint advanceDays (n : nat) (random : nat -> Q) (g : GameState.t)
  : Completion unit * GameState.t :=
  match n with
  | O => (Return tt, g)
  | S k =>
      match advanceDays k random g with
      | (Return _, g') => GameState.advanceDay (random k) g'
      | thrown => thrown
      end
  end.

(** Sample entities: a chicken bought and placed at time 1000, a wheat seed
    bought and planted at time 1000. *)
Definition youngChicken : Animal.t :=
  Animal.mk "animal_1" "chicken" 40 75 3 (35 # 100) (75 # 100) 180000
            CONSTANTS.ANIMAL_STATUS.YOUNG None true false [] false.

Definition placedChicken : Animal.t :=
  Animal.mk "animal_1" "chicken" 40 75 3 (35 # 100) (75 # 100) 180000
            CONSTANTS.ANIMAL_STATUS.GROWING (Some 1000) true false [] false.

Definition wheatSeed : Crop.t :=
  Crop.mk "crop_1" "wheat" 10 18 2 120000 CONSTANTS.CROP_STATUS.SEED None None.

Definition plantedWheat : Crop.t :=
  Crop.mk "crop_1" "wheat" 10 18 2 120000 CONSTANTS.CROP_STATUS.GROWING
          (Some 1000) None.

(** A placed chicken whose probabilities were set to breed always and never
    to keep the offspring, and a new game with that animal on the farm. *)
Definition certainBreeder : Animal.t :=
  Animal.mk "animal_1" "chicken" 40 75 3 1 0 180000
            CONSTANTS.ANIMAL_STATUS.GROWING (Some 1000) true false [] false.

Definition farmWithBreeder : GameState.t :=
  let g := GameState.new (fun _ => (1 # 2)%Q) in
  GameState.with_inventory
    (GameState.with_animals [certainBreeder] (GameState.inventory g)) g.


(** A farm whose ten crop slots are taken, with one more seed in stock:
    eleven wheat seeds bought in a new game, ten of them planted. *)
Definition seedIds : list string :=
  ["crop_1"; "crop_2"; "crop_3"; "crop_4"; "crop_5"; "crop_6"; "crop_7";
   "crop_8"; "crop_9"; "crop_10"; "crop_11"]%string.

Definition fullFarm : GameState.t :=
  let bought :=
    fold_left (fun g newId =>
                 match Crop.new "wheat" newId with
                 | Return crop => GameState.addSeed crop g
                 | Throw _ => g
                 end)
              seedIds (GameState.new (fun _ => (1 # 2)%Q)) in
  fold_left (fun g cropId => snd (GameState.plantCrop 1000 cropId g))
            (firstn 10 seedIds) bought.

(** A call of one of the state-changing methods of a Crop. *)
Inductive CropCall : Type :=
| CallPlant (now : Z)
| CallCropIsMature (now : Z)
| CallHarvest (now : Z).

Definition runCropCall (call : CropCall) (c : Crop.t) : Crop.t :=
  match call with
  | CallPlant now => snd (Crop.plant now c)
  | CallCropIsMature now => snd (Crop.isMature now c)
  | CallHarvest now => snd (Crop.harvest now c)
  end.

Definition runCropCalls (calls : list CropCall) (c : Crop.t) : Crop.t :=
  fold_left (fun c call => runCropCall call c) calls c.

(** The position of a status in the life of a crop and of an animal. *)
Definition cropStage (status : CONSTANTS.CROP_STATUS.t) : Z :=
  match status with
  | CONSTANTS.CROP_STATUS.SEED => 0
  | CONSTANTS.CROP_STATUS.GROWING => 1
  | CONSTANTS.CROP_STATUS.MATURE => 2
  | CONSTANTS.CROP_STATUS.HARVESTED => 3
  end.

Definition animalStage (status : CONSTANTS.ANIMAL_STATUS.t) : Z :=
  match status with
  | CONSTANTS.ANIMAL_STATUS.YOUNG => 0
  | CONSTANTS.ANIMAL_STATUS.GROWING => 1
  | CONSTANTS.ANIMAL_STATUS.MATURE => 2
  | CONSTANTS.ANIMAL_STATUS.BREEDING => 3
  end.

(** A crop all of whose configuration fields are those of the entry of
    [GAME_CONFIG.CROPS] for its type. *)
Definition cropMatchesConfig (c : Crop.t) : Prop :=
  exists cropDef,
    Crop.getCropDefinition (Crop.type c) = Some cropDef
    /\ Crop.type c = GAME_CONFIG.crop_id cropDef
    /\ Crop.seedCost c = GAME_CONFIG.seedCost cropDef
    /\ Crop.baseSellPrice c = GAME_CONFIG.crop_baseSellPrice cropDef
    /\ Crop.growthTime c = GAME_CONFIG.crop_growthTime cropDef
    /\ Crop.growthDuration c =
       HELPERS.minutesToMilliseconds (GAME_CONFIG.crop_growthTime cropDef).

(** An animal all of whose configuration fields are those of the entry of
    [GAME_CONFIG.ANIMALS] for its type. *)
Definition animalMatchesConfig (a : Animal.t) : Prop :=
  exists animalDef,
    Animal.getAnimalDefinition (Animal.type a) = Some animalDef
    /\ Animal.type a = GAME_CONFIG.animal_id animalDef
    /\ Animal.purchaseCost a = GAME_CONFIG.purchaseCost animalDef
    /\ Animal.baseSellPrice a = GAME_CONFIG.animal_baseSellPrice animalDef
    /\ Animal.growthTime a = GAME_CONFIG.animal_growthTime animalDef
    /\ Animal.breedingChance a = GAME_CONFIG.breedingChance animalDef
    /\ Animal.offspringSurvivalRate a
       = GAME_CONFIG.offspringSurvivalRate animalDef
    /\ Animal.growthDuration a =
       HELPERS.minutesToMilliseconds (GAME_CONFIG.animal_growthTime animalDef).

(** What holds of a crop at every moment of its life. *)
Definition cropConsistent (c : Crop.t) : Prop :=
  (Crop.status c = CONSTANTS.CROP_STATUS.SEED <-> Crop.plantTime c = None)
  /\ (Crop.status c = CONSTANTS.CROP_STATUS.HARVESTED
      <-> Crop.harvestTime c <> None).

(** What holds of an animal at every moment of its life. *)
Definition animalConsistent (a : Animal.t) : Prop :=
  (Animal.status a = CONSTANTS.ANIMAL_STATUS.YOUNG
   <-> Animal.placeTime a = None)
  /\ Animal.status a <> CONSTANTS.ANIMAL_STATUS.BREEDING
  /\ (Animal.breedingAttempted a = false ->
      Animal.hasOffspring a = false /\ Animal.offspring a = [])
  /\ (Animal.hasOffspring a = false -> Animal.offspring a = [])
  /\ (List.length (Animal.offspring a) <= 1)%nat.

(** The days held by the forecast window of a game that is on day [d]: seven
    days up to day 4; from day 5 the days left up to TOTAL_DAYS followed by
    the entry that was asked for a later day and stored as day 1; nothing
    after day 10. *)
Definition windowDays (d : Z) : list (JsValue Z) :=
  if d <=? 4 then map (fun k => JNum (d + Z.of_nat k)) (seq 0 7)
  else if d <=? 10
       then map (fun k => JNum (d + Z.of_nat k)) (seq 0 (Z.to_nat (11 - d)))
            ++ [JNum 1]
       else [].

(** What [_updateWeatherForecast] does to the days of the window when the
    game enters day [today]; [None] is the thrown TypeError. *)
Definition stepDays (today : Z) (days : list (JsValue Z))
  : option (list (JsValue Z)) :=
  let kept := filter (fun d => jsGeZ d today) days in
  match Array.lastElement kept with
  | None => None
  | Some lastDay =>
      Some (kept ++ [Weather.day (Weather.new (jsAddZ lastDay 1) None 0)])
  end.

(** The entities a Ledger holds. *)
Definition cropsHeld (g : GameState.t) : Z :=
  Z.of_nat (List.length (GameState.seeds (GameState.inventory g)))
  + Z.of_nat (List.length (GameState.crops (GameState.inventory g)))
  + Z.of_nat (List.length (GameState.harvestedCrops (GameState.inventory g))).

Definition animalsHeld (g : GameState.t) : Z :=
  Z.of_nat (List.length (GameState.youngAnimals (GameState.inventory g)))
  + Z.of_nat (List.length (GameState.animals (GameState.inventory g))).

(** What the Ledger's books record: the balance against the money statistics,
    and the stock against the purchase, birth and sale counters. *)
Definition booksBalance (g : GameState.t) : Prop :=
  GameState.currentMoney g
  = GAME_CONFIG.STARTING_MONEY
    + GameState.totalMoneyEarned (GameState.statistics g)
    - GameState.totalMoneySpent (GameState.statistics g)
  /\ 0 <= GameState.currentMoney g
  /\ 0 <= GameState.totalMoneySpent (GameState.statistics g)
  /\ 0 <= GameState.bestSingleSale (GameState.statistics g)
     <= GameState.totalMoneyEarned (GameState.statistics g)
  /\ GameState.goalMoney g = GAME_CONFIG.GOAL_MONEY.

Definition stockBalance (g : GameState.t) : Prop :=
  cropsHeld g
  = GameState.totalCropsPurchased (GameState.statistics g)
    - GameState.totalCropsSold (GameState.statistics g)
  /\ animalsHeld g
     = GameState.totalAnimalsPurchased (GameState.statistics g)
       + GameState.totalOffspringBorn (GameState.statistics g)
       - GameState.totalAnimalsSold (GameState.statistics g)
  /\ GameState.successfulBreedings (GameState.statistics g)
     = GameState.totalOffspringBorn (GameState.statistics g).

(** The milestones recorded so far: a prefix of the table, none at or under
    the balance missing, none above what was ever owned. *)
Definition milestonesInOrder (g : GameState.t) : Prop :=
  (exists k, GameState.milestonesReached g = firstn k GAME_CONFIG.MILESTONES)
  /\ (forall m, In m GAME_CONFIG.MILESTONES ->
                m <= GameState.currentMoney g ->
                In m (GameState.milestonesReached g))
  /\ (forall m, In m (GameState.milestonesReached g) ->
                m <= GAME_CONFIG.STARTING_MONEY
                     + GameState.totalMoneyEarned (GameState.statistics g)).

(** The forecast follows the calendar. *)
Definition forecastInStep (g : GameState.t) : Prop :=
  1 <= GameState.currentDay g
  /\ map Weather.day (GameState.weatherForecast g)
     = windowDays (GameState.currentDay g)
  /\ GameState.gameStatus g <> CONSTANTS.LOST.




Definition animalSalesTotal (w : Weather.t) (animals : list Animal.t) : Z :=
  fold_right
    (fun a total =>
       Animal.calculateSellPrice (JNum (Weather.demandIndex w)) a + total)
    0 animals.

(** [a.status === MATURE] *)
Definition hasMatureStatus (a : Animal.t) : bool :=
  CONSTANTS.ANIMAL_STATUS.eqb (Animal.status a) CONSTANTS.ANIMAL_STATUS.MATURE.


Definition chickenOnFarm (newId : string) (status : CONSTANTS.ANIMAL_STATUS.t)
  : Animal.t :=
  Animal.mk newId "chicken" 40 75 3 (35 # 100) (75 # 100) 180000
            status (Some 1000) true false [] false.


Definition farmOfThree : GameState.t :=
  let g := GameState.new (fun _ => (1 # 2)%Q) in
  GameState.with_inventory
    (GameState.with_animals
       [chickenOnFarm "animal_1" CONSTANTS.ANIMAL_STATUS.MATURE;
        chickenOnFarm "animal_2" CONSTANTS.ANIMAL_STATUS.GROWING;
        chickenOnFarm "animal_3" CONSTANTS.ANIMAL_STATUS.GROWING]
       (GameState.inventory g)) g.

(** A game whose purse is empty: a new game in which a chicken and a wheat
    seed were bought. *)
Definition emptyPurse : GameState.t :=
  let g := GameState.new (fun _ => (1 # 2)%Q) in
  let g := snd (ShopManager.buyAnimal "chicken" "animal_1" g) in
  snd (ShopManager.buySeed "wheat" "crop_1" g).

(** A call of one of the TimerManager's methods, a firing of one of its two
    intervals, which runs the method only while the browser has the interval
    scheduled, or a move of the player on the Ledger in between. *)
Inductive TimerCall : Type :=
| CallStart (now : Z)
| CallStop
| CallPause
| CallResume (now : Z)
| FireMainLoop (now : nat -> Z) (visits : nat -> TimerManager.Visit)
| FireAdvanceDay (now : Z) (random : Q)
| PlayerMove (call : LedgerCall).

Definition isScheduled (callback : TimerManager.Callback)
           (b : TimerManager.Browser) : bool :=
  existsb (fun entry =>
             match snd entry, callback with
             | TimerManager.MainLoop, TimerManager.MainLoop
             | TimerManager.AdvanceDay, TimerManager.AdvanceDay => true
             | _, _ => false
             end)
          (TimerManager.scheduled b).

(** The timers, the browser and the Ledger after a call, also when the call
    threw. *)
Definition runTimerCall (call : TimerCall)
           (s : TimerManager.t * TimerManager.Browser * GameState.t)
  : TimerManager.t * TimerManager.Browser * GameState.t :=
  let '(tm, b, g) := s in
  match call with
  | CallStart now => (TimerManager.start now tm b, g)
  | CallStop => (TimerManager.stop tm b, g)
  | CallPause => (TimerManager.pause tm b, g)
  | CallResume now => (TimerManager.resume now tm b, g)
  | FireMainLoop now visits =>
      if isScheduled TimerManager.MainLoop b
      then snd (TimerManager._mainLoop now visits tm b g)
      else s
  | FireAdvanceDay now random =>
      if isScheduled TimerManager.AdvanceDay b
      then snd (TimerManager._advanceDay now random tm b g)
      else s
  | PlayerMove call => (tm, b, runLedgerCall call g)
  end.

Definition runTimerCalls (calls : list TimerCall)
           (s : TimerManager.t * TimerManager.Browser * GameState.t)
  : TimerManager.t * TimerManager.Browser * GameState.t :=
  fold_left (fun s call => runTimerCall call s) calls s.

(** The timers and the browser agree: running with exactly the two intervals
    the manager holds, or stopped with none. *)
Definition timersInStep (tm : TimerManager.t) (b : TimerManager.Browser)
  : Prop :=
  0 < TimerManager.nextId b
  /\ if TimerManager.isRunning tm
     then exists mainLoopId dayId,
            TimerManager.mainLoopTimer tm = Some mainLoopId
            /\ TimerManager.dayTimer tm = Some dayId
            /\ TimerManager.scheduled b
               = [(mainLoopId, TimerManager.MainLoop);
                  (dayId, TimerManager.AdvanceDay)]
            /\ 0 < mainLoopId < dayId
            /\ dayId < TimerManager.nextId b
     else TimerManager.mainLoopTimer tm = None
          /\ TimerManager.dayTimer tm = None
          /\ TimerManager.scheduled b = [].

(** An animal as [attemptBreeding()] adds it to the farm: born, placed and
    without offspring of its own. *)
Definition isNewborn (a : Animal.t) : Prop :=
  Animal.isPurchased a = false
  /\ Animal.status a = CONSTANTS.ANIMAL_STATUS.GROWING
  /\ Animal.offspring a = []
  /\ Animal.breedingAttempted a = false.

(** The Ledger with the given animals on the farm and [born] more births
    counted. *)
Definition withBirths (farm : list Animal.t) (born : Z) (g : GameState.t)
  : GameState.t :=
  let statistics := GameState.statistics g in
  GameState.with_statistics
    (GameState.with_successfulBreedings
       (GameState.successfulBreedings statistics + born)
       (GameState.with_totalOffspringBorn
          (GameState.totalOffspringBorn statistics + born) statistics))
    (GameState.with_inventory
       (GameState.with_animals farm (GameState.inventory g)) g).

(** The result with which [attemptBreeding()] refuses. *)
Definition breedingRefused : Animal.Result.r :=
  Animal.Result.mk false false false None.

(* ====================================================================== *)
(** * Properties *)
(* ====================================================================== *)


(** ** Comparisons and clamping on rationals *)

Lemma Qle_bool_false (x y : Q) : Qle_bool x y = false <-> (y < x)%Q.
Proof.
  split; intro H.
  - apply Qnot_le_lt. intro Hle. apply Qle_bool_iff in Hle. congruence.
  - destruct (Qle_bool x y) eqn:E; [|reflexivity].
    apply Qle_bool_iff in E. exfalso. revert E. apply Qlt_not_le, H.
Qed.

Lemma Qltb_true (x y : Q) : Qltb x y = true <-> (x < y)%Q.
Proof.
  unfold Qltb. rewrite negb_true_iff. apply Qle_bool_false.
Qed.

Lemma Qltb_false (x y : Q) : Qltb x y = false <-> (y <= x)%Q.
Proof.
  unfold Qltb. rewrite negb_false_iff. apply Qle_bool_iff.
Qed.

Ltac case_Qle x y :=
  let E := fresh "E" in
  destruct (Qle_bool x y) eqn:E;
  [apply Qle_bool_iff in E | apply Qle_bool_false in E].

Lemma Math_min_le_l (a b : Q) : (Math.min a b <= a)%Q.
Proof. unfold Math.min. case_Qle a b; lra. Qed.

Lemma Math_min_le_r (a b : Q) : (Math.min a b <= b)%Q.
Proof. unfold Math.min. case_Qle a b; lra. Qed.

Lemma Math_min_mono (a b c d : Q) :
  (a <= c)%Q -> (b <= d)%Q -> (Math.min a b <= Math.min c d)%Q.
Proof. intros. unfold Math.min. case_Qle a b; case_Qle c d; lra. Qed.

Lemma Math_max_mono (a b c d : Q) :
  (a <= c)%Q -> (b <= d)%Q -> (Math.max a b <= Math.max c d)%Q.
Proof. intros. unfold Math.max. case_Qle a b; case_Qle c d; lra. Qed.

Lemma clamp_mono (x y lo hi : Q) :
  (x <= y)%Q -> (HELPERS.clamp x lo hi <= HELPERS.clamp y lo hi)%Q.
Proof.
  intro H. unfold HELPERS.clamp.
  apply Math_min_mono; [apply Math_max_mono|]; lra.
Qed.

Lemma clamp_le_hi (x lo hi : Q) : (HELPERS.clamp x lo hi <= hi)%Q.
Proof. unfold HELPERS.clamp. apply Math_min_le_r. Qed.

(** A value already inside the range is returned as it is. *)
Lemma clamp_inside (x lo hi : Q) :
  (lo < x)%Q -> (x <= hi)%Q -> HELPERS.clamp x lo hi = x.
Proof.
  intros Hlo Hhi. unfold HELPERS.clamp, Math.min, Math.max.
  case_Qle x lo; [lra|]. case_Qle x hi; [reflexivity | lra].
Qed.

(** ** Weather: day validation (C9) *)

Lemma weather_new_day (day : JsValue Z) (wv : option Q) (r : Q) :
  Weather.day (Weather.new day wv r) =
  if negb (typeofNumber day) || jsLtZ day 1 || jsGtZ day GAME_CONFIG.TOTAL_DAYS
  then JNum 1 else day.
Proof. reflexivity. Qed.

(** The days stored by a forecast: a day past [TOTAL_DAYS] is stored as 1. *)
Lemma forecastLoop_days (count i : nat) (startDay : Z) (random : nat -> Q) :
  1 <= startDay ->
  map Weather.day (Weather.forecastLoop count i startDay random) =
  map (fun k => if startDay + Z.of_nat k >? GAME_CONFIG.TOTAL_DAYS
                then JNum 1 else JNum (startDay + Z.of_nat k))
      (seq i count).
Proof.
  intro Hs. revert i. induction count as [|count IH]; intro i; [reflexivity|].
  cbn [Weather.forecastLoop map seq]. rewrite IH, weather_new_day. f_equal.
  cbn [typeofNumber negb orb jsLtZ jsGtZ].
  destruct (Z.ltb_spec (startDay + Z.of_nat i) 1); [lia|].
  rewrite Z.gtb_ltb. reflexivity.
Qed.

(** C9. A Weather constructed with a day that is not a number, is below 1 or
    is above TOTAL_DAYS stores day 1; forecast generation does pass such days:
    the 7-day forecast starting at day 5 asks for days 5..11 and its last
    entry is stored with day 1. *)
Theorem weather_out_of_range_day_becomes_1 :
  forall (day : JsValue Z) (weatherValue : option Q) (r : Q) (random : nat -> Q),
    typeofNumber day = false \/ jsLtZ day 1 = true
      \/ jsGtZ day GAME_CONFIG.TOTAL_DAYS = true ->
    Weather.day (Weather.new day weatherValue r) = JNum 1
    /\ map Weather.day (Weather.generateForecast (JNum 7) (JNum 5) random)
       = [JNum 5; JNum 6; JNum 7; JNum 8; JNum 9; JNum 10; JNum 1].
Proof.
  intros day wv r random H. split.
  - rewrite weather_new_day.
    destruct H as [H | [H | H]]; rewrite H; cbn;
      rewrite ?orb_true_r; reflexivity.
  - unfold Weather.generateForecast. cbn [Z.ltb Z.compare Pos.compare
      Pos.compare_cont].
    rewrite forecastLoop_days by lia. reflexivity.
Qed.

Lemma weather_out_of_range_day_becomes_1_witness :
  Weather.day (Weather.new (JNum 11) None (1 # 2)) = JNum 1
  /\ map Weather.day
       (Weather.generateForecast (JNum 7) (JNum 5) (fun _ => (1 # 2)%Q))
     = [JNum 5; JNum 6; JNum 7; JNum 8; JNum 9; JNum 10; JNum 1].
Proof.
  apply (weather_out_of_range_day_becomes_1 (JNum 11) None (1 # 2)
           (fun _ => (1 # 2)%Q)).
  right; right. reflexivity.
Defined.

(** ** Weather: demand as a function of the weather value (C7) *)

Lemma clamp_hundredths (n : Z) :
  10 <= n <= 100 ->
  HELPERS.clamp (n # 100) CONSTANTS.WEATHER_RANGES.MIN
                CONSTANTS.WEATHER_RANGES.MAX = n # 100.
Proof.
  intros [Hlo Hhi].
  unfold HELPERS.clamp, Math.min, Math.max, CONSTANTS.WEATHER_RANGES.MIN,
    CONSTANTS.WEATHER_RANGES.MAX, Qle_bool. cbn [Qnum Qden].
  destruct (Z.leb_spec (n * 100) (10 * 100)) as [H | H].
  - assert (n = 10) by lia. subst n. reflexivity.
  - cbn [Qnum Qden].
    destruct (Z.leb_spec (n * 100) (100 * 100)); [reflexivity | lia].
Qed.

Ltac split_leb :=
  repeat match goal with
         | |- context [Z.leb ?a ?b] =>
             destruct (Z.leb_spec a b); try (exfalso; lia); cbn [andb]
         end.

(** On two-decimal values the rule scan is the step function above: every
    such value falls in a rule, the fallback is not reached. *)
Lemma calculateDemandIndex_hundredths (n : Z) :
  10 <= n <= 100 ->
  Weather.calculateDemandIndex (JNum (n # 100)) = demandOfHundredths n.
Proof.
  intro Hn. unfold Weather.calculateDemandIndex.
  rewrite (clamp_hundredths n Hn).
  unfold GAME_CONFIG.WEATHER_DEMAND_RULES, Weather.findRule, Qgeb, Qle_bool,
    demandOfHundredths.
  cbn [Qnum Qden GAME_CONFIG.minWeather GAME_CONFIG.maxWeather
       GAME_CONFIG.demandMultiplier].
  split_leb; reflexivity.
Qed.

Lemma demandOfHundredths_antitone (n1 n2 : Z) :
  n1 <= n2 -> (demandOfHundredths n2 <= demandOfHundredths n1)%Q.
Proof.
  intro H. unfold demandOfHundredths.
  split_leb; unfold Qle; cbn; lia.
Qed.

(** Weather sampling only produces two-decimal values of the interval. *)
Lemma generateWeatherValue_hundredths (random : Q) :
  (0 <= random)%Q -> (random < 1)%Q ->
  exists n : Z, 10 <= n <= 100 /\ Weather._generateWeatherValue random = n # 100.
Proof.
  intros H0 H1.
  unfold Weather._generateWeatherValue, HELPERS.randomFloat, HELPERS.toFixed,
    CONSTANTS.WEATHER_RANGES.MIN, CONSTANTS.WEATHER_RANGES.MAX,
    CONSTANTS.WEATHER_RANGES.DECIMALS.
  replace (Qltb (100 # 100) (10 # 100)) with false by reflexivity.
  change (Z.to_pos (10 ^ 2)) with 100%positive.
  change (inject_Z (10 ^ 2)) with (100 # 1)%Q.
  set (x := (((random * ((100 # 100) - (10 # 100)) + (10 # 100)) * (100 # 1)
              + (1 # 2)))%Q).
  exists (Qfloor x). split; [|reflexivity].
  assert (Hlo : (inject_Z 10 <= x)%Q) by (subst x; unfold inject_Z; lra).
  assert (Hhi : (x < inject_Z 101)%Q) by (subst x; unfold inject_Z; lra).
  split.
  - change 10 with (Qfloor (inject_Z 10)). apply Qfloor_resp_le, Hlo.
  - assert (Hf : (inject_Z (Qfloor x) <= x)%Q) by apply Qfloor_le.
    assert (Hlt : (inject_Z (Qfloor x) < inject_Z 101)%Q)
      by (eapply Qle_lt_trans; eassumption).
    rewrite <- Zlt_Qlt in Hlt. lia.
Qed.

(** C7, counterexample.  Over the whole interval the mapping is not
    non-increasing: 0.95 lies in the rule [0.90, 0.99] (multiplier 0.9), 0.995
    lies between that rule and [1.00, 1.00], matches no rule and gets the
    neutral fallback 1.0. *)
Lemma calculateDemandIndex_rises_in_a_gap :
  (CONSTANTS.WEATHER_RANGES.MIN <= 95 # 100)%Q
  /\ (95 # 100 < 995 # 1000)%Q
  /\ (995 # 1000 <= CONSTANTS.WEATHER_RANGES.MAX)%Q
  /\ Weather.calculateDemandIndex (JNum (95 # 100)) = 9 # 10
  /\ Weather.calculateDemandIndex (JNum (995 # 1000)) = 1%Q
  /\ ~ (Weather.calculateDemandIndex (JNum (995 # 1000))
        <= Weather.calculateDemandIndex (JNum (95 # 100)))%Q.
Proof.
  split; [discriminate|]. split; [reflexivity|]. split; [discriminate|].
  split; [reflexivity|]. split; [reflexivity|].
  intro H. apply H. reflexivity.
Qed.

(** C7, amended.  On two-decimal weather values (the values weather sampling
    produces) of the interval [0.10, 1.00] the demand index is non-increasing
    in the weather value. *)
Theorem calculateDemandIndex_antitone_two_decimals :
  forall n1 n2 : Z,
    10 <= n1 -> n1 < n2 -> n2 <= 100 ->
    (Weather.calculateDemandIndex (JNum (n2 # 100))
     <= Weather.calculateDemandIndex (JNum (n1 # 100)))%Q.
Proof.
  intros n1 n2 H1 H12 H2.
  rewrite !calculateDemandIndex_hundredths by lia.
  apply demandOfHundredths_antitone. lia.
Qed.

Lemma calculateDemandIndex_antitone_two_decimals_witness :
  (Weather.calculateDemandIndex (JNum (80 # 100))
   <= Weather.calculateDemandIndex (JNum (79 # 100)))%Q.
Proof.
  apply (calculateDemandIndex_antitone_two_decimals 79 80); lia.
Defined.

(** ** Growth progress (C8) *)

Lemma getElapsedTime_mono (t1 t2 : Z) (start : option Z) :
  t1 <= t2 -> HELPERS.getElapsedTime t1 start <= HELPERS.getElapsedTime t2 start.
Proof.
  intro H. unfold HELPERS.getElapsedTime.
  destruct start as [s|]; [|lia]. destruct (s <? 0); lia.
Qed.

Lemma percentage_mono (c1 c2 t : Z) :
  c1 <= c2 -> t <> 0 -> c2 < t ->
  (HELPERS.clamp (inject_Z c1 / inject_Z t * 100) 0 100
   <= HELPERS.clamp (inject_Z c2 / inject_Z t * 100) 0 100)%Q.
Proof.
  intros H12 Ht H2.
  assert (Hc : (inject_Z c1 <= inject_Z c2)%Q) by (rewrite <- Zle_Qle; lia).
  assert (Hc2 : (inject_Z c2 < inject_Z t)%Q) by (rewrite <- Zlt_Qlt; lia).
  assert (Hinv : (inject_Z t * / inject_Z t == 1)%Q).
  { apply Qmult_inv_r. intro E. apply Ht. unfold Qeq in E. cbn in E. lia. }
  unfold Qdiv.
  set (i := (/ inject_Z t)%Q) in *.
  set (a := inject_Z c1) in *. set (b := inject_Z c2) in *.
  set (d := inject_Z t) in *.
  destruct (Z_lt_le_dec 0 t) as [Hpos | Hneg].
  - (* a positive duration: the quotient grows with the elapsed time *)
    apply clamp_mono.
    assert (0 < d)%Q
      by (subst d; change 0%Q with (inject_Z 0); rewrite <- Zlt_Qlt; lia).
    assert (0 <= i)%Q by (subst i; apply Qinv_le_0_compat; lra).
    nra.
  - (* a negative duration: both quotients exceed 1 and clamp to 100 *)
    assert (d < 0)%Q
      by (subst d; change 0%Q with (inject_Z 0); rewrite <- Zlt_Qlt; lia).
    assert (i < 0)%Q by nra.
    assert (100 <= a * i * 100)%Q by nra.
    assert (100 <= b * i * 100)%Q by nra.
    unfold HELPERS.clamp, Math.min, Math.max.
    repeat match goal with
           | |- context [Qle_bool ?x ?y] => case_Qle x y
           end; lra.
Qed.

Lemma calculatePercentage_mono (c1 c2 total : Z) :
  c1 <= c2 ->
  (HELPERS.calculatePercentage c1 total
   <= HELPERS.calculatePercentage c2 total)%Q.
Proof.
  intro H. unfold HELPERS.calculatePercentage.
  destruct (Z.eqb_spec total 0) as [E | E]; [lra|].
  rewrite !Z.geb_leb.
  destruct (Z.leb_spec total c1), (Z.leb_spec total c2); try lra; try lia.
  - apply clamp_le_hi.
  - apply percentage_mono; lia.
Qed.

Lemma calculatePercentage_complete (current total : Z) :
  0 < total -> total <= current ->
  HELPERS.calculatePercentage current total = 100%Q.
Proof.
  intros Hpos Hle. unfold HELPERS.calculatePercentage.
  destruct (Z.eqb_spec total 0); [lia|].
  rewrite Z.geb_leb. destruct (Z.leb_spec total current); [reflexivity | lia].
Qed.

Lemma animalFromConfig_duration_pos (a : Animal.t) :
  animalFromConfig a -> 0 < Animal.growthDuration a.
Proof.
  intros [animalDef [Hfind Hdur]]. rewrite Hdur.
  apply find_some in Hfind. destruct Hfind as [Hin _].
  cbn in Hin. repeat destruct Hin as [<- | Hin]; try reflexivity.
  contradiction.
Qed.

Lemma cropFromConfig_duration_pos (c : Crop.t) :
  cropFromConfig c -> 0 < Crop.growthDuration c.
Proof.
  intros [cropDef [Hfind Hdur]]. rewrite Hdur.
  apply find_some in Hfind. destruct Hfind as [Hin _].
  cbn in Hin. repeat destruct Hin as [<- | Hin]; try reflexivity.
  contradiction.
Qed.

(** The constructors build entities that are from the configuration. *)
Lemma Animal_new_fromConfig (type : string) (isPurchased : bool)
      (newId : string) (a : Animal.t) :
  Animal.new type isPurchased newId = Return a -> animalFromConfig a.
Proof.
  unfold Animal.new.
  destruct (find _ GAME_CONFIG.ANIMALS) as [animalDef|] eqn:Hfind; [|discriminate].
  intro H. injection H as <-. exists animalDef. split; [|reflexivity].
  cbn [Animal.type].
  destruct (find_some _ _ Hfind) as [_ Heq].
  apply String.eqb_eq in Heq. rewrite Heq. exact Hfind.
Qed.

Lemma Crop_new_fromConfig (type : string) (newId : string) (c : Crop.t) :
  Crop.new type newId = Return c -> cropFromConfig c.
Proof.
  unfold Crop.new.
  destruct (find _ GAME_CONFIG.CROPS) as [cropDef|] eqn:Hfind; [|discriminate].
  intro H. injection H as <-. exists cropDef. split; [|reflexivity].
  cbn [Crop.type].
  destruct (find_some _ _ Hfind) as [_ Heq].
  apply String.eqb_eq in Heq. rewrite Heq. exact Hfind.
Qed.

Lemma Animal_progress_growing (now : Z) (a : Animal.t) :
  Animal.status a = CONSTANTS.ANIMAL_STATUS.GROWING ->
  Animal.getGrowthProgress now a =
  Math.min 100 (HELPERS.calculatePercentage
                  (HELPERS.getElapsedTime now (Animal.placeTime a))
                  (Animal.growthDuration a)).
Proof. intro H. unfold Animal.getGrowthProgress. rewrite H. reflexivity. Qed.

Lemma Crop_progress_growing (now : Z) (c : Crop.t) :
  Crop.status c = CONSTANTS.CROP_STATUS.GROWING ->
  Crop.getGrowthProgress now c =
  Math.min 100 (HELPERS.calculatePercentage
                  (HELPERS.getElapsedTime now (Crop.plantTime c))
                  (Crop.growthDuration c)).
Proof. intro H. unfold Crop.getGrowthProgress. rewrite H. reflexivity. Qed.

(** C8. For a Growing animal and a Growing crop built from the configuration,
    the growth progress sampled at t1 < t2 does not decrease, never exceeds
    100, and is exactly 100 as soon as the elapsed time has reached the growth
    duration. *)
Theorem growth_progress_monotone_and_capped :
  forall (a : Animal.t) (c : Crop.t) (t1 t2 : Z),
    Animal.status a = CONSTANTS.ANIMAL_STATUS.GROWING ->
    Crop.status c = CONSTANTS.CROP_STATUS.GROWING ->
    animalFromConfig a -> cropFromConfig c ->
    t1 < t2 ->
    ((Animal.getGrowthProgress t1 a <= Animal.getGrowthProgress t2 a)%Q
     /\ (Animal.getGrowthProgress t2 a <= 100)%Q
     /\ (Animal.growthDuration a
           <= HELPERS.getElapsedTime t2 (Animal.placeTime a) ->
         Animal.getGrowthProgress t2 a = 100%Q))
    /\ ((Crop.getGrowthProgress t1 c <= Crop.getGrowthProgress t2 c)%Q
        /\ (Crop.getGrowthProgress t2 c <= 100)%Q
        /\ (Crop.growthDuration c
              <= HELPERS.getElapsedTime t2 (Crop.plantTime c) ->
            Crop.getGrowthProgress t2 c = 100%Q)).
Proof.
  intros a c t1 t2 Ha Hc Hcfga Hcfgc Ht.
  rewrite !Animal_progress_growing, !Crop_progress_growing by assumption.
  split; (split; [|split]).
  - apply Math_min_mono; [lra|].
    apply calculatePercentage_mono, getElapsedTime_mono. lia.
  - apply Math_min_le_l.
  - intro Hdone. rewrite calculatePercentage_complete;
      [reflexivity | apply animalFromConfig_duration_pos, Hcfga | exact Hdone].
  - apply Math_min_mono; [lra|].
    apply calculatePercentage_mono, getElapsedTime_mono. lia.
  - apply Math_min_le_l.
  - intro Hdone. rewrite calculatePercentage_complete;
      [reflexivity | apply cropFromConfig_duration_pos, Hcfgc | exact Hdone].
Qed.

Lemma sample_entities_built :
  Animal.new "chicken" true "animal_1" = Return youngChicken
  /\ Animal.place 1000 youngChicken = (true, placedChicken)
  /\ Crop.new "wheat" "crop_1" = Return wheatSeed
  /\ Crop.plant 1000 wheatSeed = (true, plantedWheat).
Proof. repeat split. Qed.

Lemma placedChicken_fromConfig : animalFromConfig placedChicken.
Proof.
  exists (GAME_CONFIG.mkAnimalDef "chicken" 40 3 75 (35 # 100) (75 # 100)).
  split; reflexivity.
Qed.

Lemma plantedWheat_fromConfig : cropFromConfig plantedWheat.
Proof.
  exists (GAME_CONFIG.mkCropDef "wheat" 10 2 18). split; reflexivity.
Qed.

Lemma growth_progress_monotone_and_capped_witness :
  (Animal.getGrowthProgress 61000 placedChicken
   <= Animal.getGrowthProgress 181000 placedChicken)%Q
  /\ Animal.getGrowthProgress 181000 placedChicken = 100%Q
  /\ (Crop.getGrowthProgress 61000 plantedWheat
      <= Crop.getGrowthProgress 181000 plantedWheat)%Q
  /\ Crop.getGrowthProgress 181000 plantedWheat = 100%Q.
Proof.
  destruct (growth_progress_monotone_and_capped
              placedChicken plantedWheat 61000 181000)
    as [[A1 [_ A3]] [C1 [_ C3]]].
  - reflexivity.
  - reflexivity.
  - exact placedChicken_fromConfig.
  - exact plantedWheat_fromConfig.
  - lia.
  - split; [exact A1|]. split; [apply A3; cbn; lia|].
    split; [exact C1|]. apply C3; cbn; lia.
Defined.

(** Once [isMature()] has answered true the progress is frozen at 100. *)
Lemma progress_frozen_once_mature (now later : Z) (a a' : Animal.t)
      (c c' : Crop.t) :
  Animal.isMature now a = (true, a') ->
  Crop.isMature now c = (true, c') ->
  Animal.getGrowthProgress later a' = 100%Q
  /\ Crop.getGrowthProgress later c' = 100%Q.
Proof.
  intros Ha Hc. split.
  - unfold Animal.isMature in Ha. unfold Animal.getGrowthProgress.
    destruct (Animal.status a) eqn:Es; cbn in Ha; try discriminate Ha.
    + destruct (_ >=? _); [|discriminate Ha]. injection Ha as <-. reflexivity.
    + injection Ha as <-. rewrite Es. reflexivity.
  - unfold Crop.isMature in Hc. unfold Crop.getGrowthProgress.
    destruct (Crop.status c) eqn:Es; cbn in Hc; try discriminate Hc.
    + destruct (_ >=? _); [|discriminate Hc]. injection Hc as <-. reflexivity.
    + injection Hc as <-. rewrite Es. reflexivity.
Qed.

(** ** Breeding (C5, C6, C10) *)

Module BreedingFacts.
Import CONSTANTS.ANIMAL_STATUS.

Lemma status_eqb_eq (s1 s2 : CONSTANTS.ANIMAL_STATUS.t) :
  eqb s1 s2 = true <-> s1 = s2.
Proof. destruct s1, s2; cbn; split; congruence. Qed.

(** The guard of [attemptBreeding]: an earlier attempt refuses. *)
Lemma refused_when_attempted now random1 random2 childId (a : Animal.t) :
  Animal.breedingAttempted a = true ->
  Animal.attemptBreeding now random1 random2 childId a
  = (Return breedingRefused, a).
Proof. intro H. unfold Animal.attemptBreeding. rewrite H. reflexivity. Qed.

(** The guard of [attemptBreeding]: a status other than GROWING refuses. *)
Lemma refused_when_not_growing now random1 random2 childId (a : Animal.t) :
  Animal.status a <> GROWING ->
  Animal.attemptBreeding now random1 random2 childId a
  = (Return breedingRefused, a).
Proof.
  intro H. unfold Animal.attemptBreeding.
  destruct (Animal.breedingAttempted a); [reflexivity|].
  destruct (eqb (Animal.status a) GROWING) eqn:E; [|reflexivity].
  apply status_eqb_eq in E. contradiction.
Qed.

(** Past the guard, the flag is set before anything else can happen. *)
Lemma attempt_latches now random1 random2 childId (a : Animal.t) :
  Animal.status a = GROWING -> Animal.breedingAttempted a = false ->
  Animal.breedingAttempted
    (snd (Animal.attemptBreeding now random1 random2 childId a)) = true.
Proof.
  intros Hs Hb. unfold Animal.attemptBreeding. rewrite Hb, Hs. cbn [eqb negb].
  destruct (HELPERS.randomBoolean _ random1); cbn [negb]; [|reflexivity].
  cbn [Animal.type Animal.with_hasOffspring Animal.with_breedingAttempted].
  destruct (Animal.new _ false childId); [|reflexivity].
  cbn [Animal.offspringSurvivalRate].
  destruct (HELPERS.randomBoolean _ random2); reflexivity.
Qed.

Lemma attempt_keeps_status now random1 random2 childId (a : Animal.t) :
  Animal.status (snd (Animal.attemptBreeding now random1 random2 childId a))
  = Animal.status a.
Proof.
  unfold Animal.attemptBreeding.
  destruct (Animal.breedingAttempted a); [reflexivity|].
  destruct (negb (eqb (Animal.status a) GROWING)); [reflexivity|].
  destruct (HELPERS.randomBoolean _ random1); cbn [negb]; [|reflexivity].
  cbn [Animal.type Animal.with_hasOffspring Animal.with_breedingAttempted].
  destruct (Animal.new _ false childId); [|reflexivity].
  cbn [Animal.offspringSurvivalRate].
  destruct (HELPERS.randomBoolean _ random2); reflexivity.
Qed.

(** No method of an Animal clears the flag. *)
Lemma call_keeps_attempted (call : AnimalCall) (a : Animal.t) :
  Animal.breedingAttempted a = true ->
  Animal.breedingAttempted (runAnimalCall call a) = true.
Proof.
  intro H. destruct call as [now | now | now random1 random2 childId]; cbn.
  - unfold Animal.place. destruct (negb _); exact H.
  - unfold Animal.isMature. destruct (negb _); [exact H|].
    destruct (_ >=? _); exact H.
  - rewrite refused_when_attempted by exact H. exact H.
Qed.

Lemma calls_keep_attempted (calls : list AnimalCall) (a : Animal.t) :
  Animal.breedingAttempted a = true ->
  Animal.breedingAttempted (runAnimalCalls calls a) = true.
Proof.
  unfold runAnimalCalls. revert a.
  induction calls as [|call calls IH]; intros a H; [exact H|].
  cbn [fold_left]. apply IH, call_keeps_attempted, H.
Qed.

(** The offspring constructor succeeds for a parent from the
    configuration. *)
Lemma child_constructed (a : Animal.t) (childId : string) :
  animalFromConfig a ->
  exists child, Animal.new (Animal.type a) false childId = Return child
                /\ Animal.status child = YOUNG.
Proof.
  intros [animalDef [Hfind _]]. unfold Animal.new. rewrite Hfind.
  eexists. split; reflexivity.
Qed.

(** [randomBoolean] with the extreme probabilities, for a draw of
    [Math.random()], which lies in [0, 1). *)
Lemma randomBoolean_certain (p random : Q) :
  (p == 1)%Q -> (random < 1)%Q -> HELPERS.randomBoolean p random = true.
Proof.
  intros Hp Hr. unfold HELPERS.randomBoolean.
  assert (E1 : Qltb p 0 = false) by (apply Qltb_false; lra).
  assert (E2 : Qltb 1 p = false) by (apply Qltb_false; lra).
  rewrite E1, E2. apply Qltb_true. lra.
Qed.

Lemma randomBoolean_impossible (p random : Q) :
  (p == 0)%Q -> (0 <= random)%Q -> HELPERS.randomBoolean p random = false.
Proof.
  intros Hp Hr. unfold HELPERS.randomBoolean.
  destruct (Qltb p 0 || Qltb 1 p); [reflexivity|].
  apply Qltb_false. lra.
Qed.

End BreedingFacts.

(** C5. Two calls of attemptBreeding() in a row: the second returns
    attempted:false, bred:false, survived:false, offspring:null and changes
    nothing.  A real attempt (one that passes the guard) leaves
    breedingAttempted true whatever the draws, no later method call clears it,
    and every later attemptBreeding() is refused. *)
Theorem attemptBreeding_one_shot :
  forall (a : Animal.t) (now1 : Z) (r1 r2 : Q) (id1 : string)
         (now2 : Z) (r3 r4 : Q) (id2 : string) (calls : list AnimalCall),
    let a1 := snd (Animal.attemptBreeding now1 r1 r2 id1 a) in
    Animal.attemptBreeding now2 r3 r4 id2 a1 = (Return breedingRefused, a1)
    /\ (Animal.status a = CONSTANTS.ANIMAL_STATUS.GROWING ->
        Animal.breedingAttempted a = false ->
        Animal.breedingAttempted a1 = true
        /\ Animal.breedingAttempted (runAnimalCalls calls a1) = true
        /\ Animal.attemptBreeding now2 r3 r4 id2 (runAnimalCalls calls a1)
           = (Return breedingRefused, runAnimalCalls calls a1)).
Proof.
  intros a now1 r1 r2 id1 now2 r3 r4 id2 calls a1.
  assert (Hlatch :
            Animal.status a = CONSTANTS.ANIMAL_STATUS.GROWING ->
            Animal.breedingAttempted a = false ->
            Animal.breedingAttempted a1 = true)
    by (intros; apply BreedingFacts.attempt_latches; assumption).
  split.
  - destruct (Animal.breedingAttempted a) eqn:Hb.
    + subst a1. rewrite (BreedingFacts.refused_when_attempted _ _ _ _ a Hb).
      apply BreedingFacts.refused_when_attempted, Hb.
    + destruct (CONSTANTS.ANIMAL_STATUS.eqb
                  (Animal.status a) CONSTANTS.ANIMAL_STATUS.GROWING) eqn:Hs.
      * apply BreedingFacts.status_eqb_eq in Hs.
        apply BreedingFacts.refused_when_attempted, Hlatch; [exact Hs | reflexivity].
      * assert (Hne : Animal.status a <> CONSTANTS.ANIMAL_STATUS.GROWING).
        { intro E. apply BreedingFacts.status_eqb_eq in E. congruence. }
        subst a1. rewrite (BreedingFacts.refused_when_not_growing _ _ _ _ a Hne).
        apply BreedingFacts.refused_when_not_growing, Hne.
  - intros Hs Hb. specialize (Hlatch Hs Hb).
    pose proof (BreedingFacts.calls_keep_attempted calls a1 Hlatch) as Hkeep.
    split; [exact Hlatch|]. split; [exact Hkeep|].
    apply BreedingFacts.refused_when_attempted, Hkeep.
Qed.

Lemma attemptBreeding_one_shot_witness :
  let a1 := snd (Animal.attemptBreeding 2000 (1 # 2) (1 # 2) "animal_2"
                                        placedChicken) in
  Animal.attemptBreeding 3000 0 0 "animal_3" a1 = (Return breedingRefused, a1)
  /\ Animal.breedingAttempted a1 = true
  /\ Animal.breedingAttempted
       (runAnimalCalls [CallIsMature 200000;
                        CallAttemptBreeding 200001 0 0 "animal_4"] a1) = true.
Proof.
  destruct (attemptBreeding_one_shot
              placedChicken 2000 (1 # 2) (1 # 2) "animal_2"
              3000 0 0 "animal_3"
              [CallIsMature 200000; CallAttemptBreeding 200001 0 0 "animal_4"])
    as [H2 H].
  destruct H as [H3 [H4 _]]; [reflexivity | reflexivity |].
  split; [exact H2|]. split; [exact H3 | exact H4].
Defined.

(** What [attemptBreeding] does when the breeding check succeeds and the
    survival check fails. *)
Lemma attemptBreeding_bred_not_survived
      (a : Animal.t) (now : Z) (random1 random2 : Q) (childId : string) :
  Animal.status a = CONSTANTS.ANIMAL_STATUS.GROWING ->
  Animal.breedingAttempted a = false ->
  animalFromConfig a ->
  HELPERS.randomBoolean (Animal.breedingChance a) random1 = true ->
  HELPERS.randomBoolean (Animal.offspringSurvivalRate a) random2 = false ->
  Animal.attemptBreeding now random1 random2 childId a
  = (Return (Animal.Result.mk true true false None),
     Animal.with_hasOffspring true (Animal.with_breedingAttempted true a)).
Proof.
  intros Hs Hb Hcfg H1 H2.
  destruct (BreedingFacts.child_constructed a childId Hcfg) as [child [Hnew _]].
  unfold Animal.attemptBreeding. rewrite Hb, Hs.
  cbn [CONSTANTS.ANIMAL_STATUS.eqb negb Animal.breedingChance
       Animal.with_breedingAttempted].
  rewrite H1.
  cbn [negb Animal.type Animal.with_hasOffspring Animal.with_breedingAttempted
       Animal.offspringSurvivalRate].
  rewrite Hnew, H2. reflexivity.
Qed.

(** The growth tick's breeding step adds nothing to the farm unless the
    result carries a surviving offspring. *)
Lemma tick_without_survivor
      (g : GameState.t) (index : nat) (a a' : Animal.t)
      (now : Z) (random1 random2 : Q) (childId : string)
      (result : Animal.Result.r) :
  nth_error (GameState.animals (GameState.inventory g)) index = Some a ->
  Animal.attemptBreeding now random1 random2 childId a = (Return result, a') ->
  Animal.Result.offspring result = None ->
  TimerManager._attemptAnimalBreeding now random1 random2 childId index g
  = (Return tt,
     GameState.with_inventory
       (GameState.with_animals
          (Array.setAt index a' (GameState.animals (GameState.inventory g)))
          (GameState.inventory g)) g).
Proof.
  intros Hnth Hcall Hnone. unfold TimerManager._attemptAnimalBreeding.
  rewrite Hnth, Hcall, Hnone.
  destruct (Animal.Result.attempted result); [|reflexivity].
  destruct (_ && _); reflexivity.
Qed.

Lemma setAt_length {A : Type} (i : nat) (x : A) (arr : list A) :
  List.length (Array.setAt i x arr) = List.length arr.
Proof.
  revert i. induction arr as [|y arr IH]; intro i; [reflexivity|].
  destruct i; cbn; [reflexivity | now rewrite IH].
Qed.

(** C6. When the breeding check succeeds and the survival check fails,
    attemptBreeding() returns attempted:true, bred:true, survived:false,
    offspring:null, and the parent's offspring list is what it was; the growth
    tick then adds no animal to the farm and counts no birth.  With
    breedingChance 1.0 and offspringSurvivalRate 0.0 this is the outcome of
    every real attempt. *)
Theorem attemptBreeding_offspring_not_surviving :
  forall (a : Animal.t) (now : Z) (random1 random2 : Q) (childId : string)
         (g : GameState.t) (index : nat),
    Animal.status a = CONSTANTS.ANIMAL_STATUS.GROWING ->
    Animal.breedingAttempted a = false ->
    animalFromConfig a ->
    (HELPERS.randomBoolean (Animal.breedingChance a) random1 = true
     /\ HELPERS.randomBoolean (Animal.offspringSurvivalRate a) random2 = false)
    \/ ((Animal.breedingChance a == 1)%Q
        /\ (Animal.offspringSurvivalRate a == 0)%Q
        /\ (0 <= random1)%Q /\ (random1 < 1)%Q
        /\ (0 <= random2)%Q /\ (random2 < 1)%Q) ->
    let '(result, a') := Animal.attemptBreeding now random1 random2 childId a in
    let g' := snd (TimerManager._attemptAnimalBreeding
                     now random1 random2 childId index g) in
    result = Return (Animal.Result.mk true true false None)
    /\ Animal.offspring a' = Animal.offspring a
    /\ (nth_error (GameState.animals (GameState.inventory g)) index = Some a ->
        List.length (GameState.animals (GameState.inventory g'))
        = List.length (GameState.animals (GameState.inventory g))
        /\ GameState.youngAnimals (GameState.inventory g')
           = GameState.youngAnimals (GameState.inventory g)
        /\ GameState.statistics g' = GameState.statistics g).
Proof.
  intros a now random1 random2 childId g index Hs Hb Hcfg Hdraws.
  assert (H : HELPERS.randomBoolean (Animal.breedingChance a) random1 = true
              /\ HELPERS.randomBoolean (Animal.offspringSurvivalRate a) random2
                 = false).
  { destruct Hdraws as [H | [Hc [Hr [_ [H1 [H2 _]]]]]]; [exact H|].
    split.
    - apply BreedingFacts.randomBoolean_certain; assumption.
    - apply BreedingFacts.randomBoolean_impossible; assumption. }
  destruct H as [H1 H2].
  pose proof (attemptBreeding_bred_not_survived
                a now random1 random2 childId Hs Hb Hcfg H1 H2) as Hcall.
  rewrite Hcall.
  split; [reflexivity|]. split; [reflexivity|].
  intro Hnth.
  rewrite (tick_without_survivor g index a _ now random1 random2 childId _
             Hnth Hcall eq_refl).
  cbn [snd].
  split; [apply setAt_length|]. split; reflexivity.
Qed.

Lemma attemptBreeding_offspring_not_surviving_witness :
  Animal.attemptBreeding 2000 (1 # 2) (1 # 2) "animal_2" certainBreeder
  = (Return (Animal.Result.mk true true false None),
     Animal.with_hasOffspring true
       (Animal.with_breedingAttempted true certainBreeder))
  /\ List.length
       (GameState.animals
          (GameState.inventory
             (snd (TimerManager._attemptAnimalBreeding
                     2000 (1 # 2) (1 # 2) "animal_2" 0 farmWithBreeder))))
     = 1%nat.
Proof.
  pose proof (attemptBreeding_offspring_not_surviving
                certainBreeder 2000 (1 # 2) (1 # 2) "animal_2"
                farmWithBreeder 0) as H.
  destruct (Animal.attemptBreeding 2000 (1 # 2) (1 # 2) "animal_2"
                                   certainBreeder) as [result a'] eqn:E.
  destruct H as [Hres [_ Htick]].
  - reflexivity.
  - reflexivity.
  - exists (GAME_CONFIG.mkAnimalDef "chicken" 40 3 75 (35 # 100) (75 # 100)).
    split; reflexivity.
  - right. repeat split; discriminate.
  - split.
    + rewrite Hres. injection E as _ <-. reflexivity.
    + destruct Htick as [Hlen _]; [reflexivity | exact Hlen].
Defined.

(** [canBreed] refuses below 50 percent. *)
Lemma canBreed_gate (now : Z) (a : Animal.t) :
  (Animal.getGrowthProgress now a < 50)%Q -> Animal.canBreed now a = false.
Proof.
  intro H. unfold Animal.canBreed.
  destruct (negb _); [reflexivity|].
  destruct (Animal.breedingAttempted a); [reflexivity|].
  unfold Qgeb. apply Qle_bool_false, H.
Qed.

(** C10. For a Growing animal that has not attempted breeding,
    attemptBreeding() performs a real attempt at any time: it returns
    attempted:true and leaves breedingAttempted true for good.  Only
    breedingAttempted and the status are checked; below 50 percent progress
    canBreed() is false and the attempt is made all the same. *)
Theorem attemptBreeding_ignores_progress_gate :
  forall (a : Animal.t) (now : Z) (random1 random2 : Q) (childId : string)
         (calls : list AnimalCall),
    Animal.status a = CONSTANTS.ANIMAL_STATUS.GROWING ->
    Animal.breedingAttempted a = false ->
    animalFromConfig a ->
    exists (result : Animal.Result.r) (a' : Animal.t),
      Animal.attemptBreeding now random1 random2 childId a = (Return result, a')
      /\ Animal.Result.attempted result = true
      /\ Animal.breedingAttempted a' = true
      /\ Animal.breedingAttempted (runAnimalCalls calls a') = true
      /\ ((Animal.getGrowthProgress now a < 50)%Q ->
          Animal.canBreed now a = false).
Proof.
  intros a now random1 random2 childId calls Hs Hb Hcfg.
  pose proof (BreedingFacts.attempt_latches now random1 random2 childId a Hs Hb)
    as Hlatch.
  destruct (BreedingFacts.child_constructed a childId Hcfg) as [child [Hnew _]].
  assert (Hret : exists result a',
             Animal.attemptBreeding now random1 random2 childId a
             = (Return result, a')
             /\ Animal.Result.attempted result = true).
  { unfold Animal.attemptBreeding. rewrite Hb, Hs.
    cbn [CONSTANTS.ANIMAL_STATUS.eqb negb Animal.breedingChance
         Animal.with_breedingAttempted].
    destruct (HELPERS.randomBoolean _ random1); cbn [negb].
    - cbn [Animal.type Animal.with_hasOffspring Animal.with_breedingAttempted
           Animal.offspringSurvivalRate].
      rewrite Hnew.
      destruct (HELPERS.randomBoolean _ random2); cbn [negb];
        eexists; eexists; split; reflexivity.
    - eexists; eexists; split; reflexivity. }
  destruct Hret as [result [a' [Hcall Hatt]]].
  exists result, a'. rewrite Hcall in Hlatch. cbn [snd] in Hlatch.
  split; [exact Hcall|]. split; [exact Hatt|]. split; [exact Hlatch|].
  split; [apply BreedingFacts.calls_keep_attempted, Hlatch|].
  apply canBreed_gate.
Qed.

Lemma attemptBreeding_ignores_progress_gate_witness :
  Animal.canBreed 1000 placedChicken = false
  /\ exists (result : Animal.Result.r) (a' : Animal.t),
       Animal.attemptBreeding 1000 (1 # 2) (1 # 2) "animal_2" placedChicken
       = (Return result, a')
       /\ Animal.Result.attempted result = true
       /\ Animal.breedingAttempted a' = true.
Proof.
  destruct (attemptBreeding_ignores_progress_gate
              placedChicken 1000 (1 # 2) (1 # 2) "animal_2" [])
    as [result [a' [Hcall [Hatt [Hflag [_ Hgate]]]]]].
  - reflexivity.
  - reflexivity.
  - exact placedChicken_fromConfig.
  - split; [apply Hgate; reflexivity|].
    exists result, a'. split; [exact Hcall|]. split; assumption.
Defined.

(** ** The Ledger: money (C4) *)

Module LedgerFacts.
Import GameState.

(** [_checkMilestones] only touches the milestones. *)
Lemma checkMilestones_frame (g : t) :
  currentMoney (_checkMilestones g) = currentMoney g
  /\ gameStatus (_checkMilestones g) = gameStatus g
  /\ goalMoney (_checkMilestones g) = goalMoney g
  /\ statistics (_checkMilestones g) = statistics g.
Proof.
  unfold _checkMilestones. generalize GAME_CONFIG.MILESTONES as ms.
  intro ms. revert g. induction ms as [|m ms IH]; intro g.
  - repeat split.
  - cbn [fold_left].
    destruct (existsb (Z.eqb m) (milestonesReached g)); [apply IH|].
    destruct (currentMoney g >=? m); [|apply IH].
    destruct (IH (_reachMilestone m g)) as [H1 [H2 [H3 H4]]].
    rewrite H1, H2, H3, H4. repeat split.
Qed.

(** [_checkWinCondition] only touches the status, and only while playing. *)
Lemma checkWinCondition_money (g : t) :
  currentMoney (_checkWinCondition g) = currentMoney g.
Proof.
  unfold _checkWinCondition.
  destruct (negb _); [reflexivity|]. destruct (_ >=? _); reflexivity.
Qed.


(** The balance after a credit and after a debit that is accepted. *)
Lemma addMoney_valid (x : Z) (g : t) :
  0 <= x ->
  fst (addMoney (JNum x) g) = true
  /\ currentMoney (snd (addMoney (JNum x) g)) = currentMoney g + x.
Proof.
  intro Hx. unfold addMoney. cbn [HELPERS.isValidNumber negb orb jsLtZ].
  destruct (Z.ltb_spec x 0); [lia|]. cbn [fst snd]. split; [reflexivity|].
  rewrite checkWinCondition_money.
  match goal with
  | |- currentMoney (_checkMilestones ?G) = _ =>
      destruct (checkMilestones_frame G) as [Hmoney _]
  end.
  rewrite Hmoney. destruct (x >? _); reflexivity.
Qed.



(** The balance is never negative: it starts at 50, a credit adds a
    non-negative amount and a debit beyond the balance is refused. *)
Lemma new_money_nonneg (random : nat -> Q) : 0 <= currentMoney (new random).
Proof. cbn. unfold GAME_CONFIG.STARTING_MONEY. lia. Qed.

Lemma addMoney_money_nonneg (amount : JsValue Z) (g : t) :
  0 <= currentMoney g -> 0 <= currentMoney (snd (addMoney amount g)).
Proof.
  intro H. destruct amount as [x| | | |]; try exact H.
  destruct (Z.ltb_spec x 0) as [Hneg | Hpos].
  - unfold addMoney. cbn [HELPERS.isValidNumber negb orb jsLtZ].
    destruct (Z.ltb_spec x 0); [exact H | lia].
  - destruct (addMoney_valid x g Hpos) as [_ E]. rewrite E. lia.
Qed.

Lemma deductMoney_money_nonneg (amount : JsValue Z) (g : t) :
  0 <= currentMoney g -> 0 <= currentMoney (snd (deductMoney amount g)).
Proof.
  intro H. destruct amount as [x| | | |]; try exact H.
  unfold deductMoney. cbn [HELPERS.isValidNumber negb orb jsLtZ].
  destruct (x <? 0); [exact H|].
  destruct (Z.ltb_spec (currentMoney g) x); [exact H|]. cbn. lia.
Qed.

Lemma call_money_nonneg (call : LedgerCall) (g : t) :
  0 <= currentMoney g -> 0 <= currentMoney (runLedgerCall call g).
Proof.
  intro H. destruct call; cbn [runLedgerCall].
  - apply addMoney_money_nonneg, H.
  - apply deductMoney_money_nonneg, H.
  - unfold advanceDay. destruct (negb _); [exact H|].
    unfold _updateWeatherForecast. cbn [weatherForecast with_weatherForecast].
    destruct (Array.lastElement _); [|exact H]. cbn [snd].
    unfold _checkLoseCondition. destruct (negb _); [exact H|].
    destruct (_ && _); exact H.
  - exact H.
  - unfold plantCrop. destruct (Array.findIndex _ _) as [[i c]|]; exact H.
  - unfold harvestCrop. destruct (Array.findIndex _ _) as [[i c]|]; [|exact H].
    destruct (Crop.isMature now c) as [[|] c']; exact H.
  - unfold sellCrop. destruct (Array.findIndex _ _) as [[i c]|]; exact H.
  - exact H.
  - unfold placeAnimal. destruct (Array.findIndex _ _) as [[i a]|]; exact H.
  - unfold sellAnimal. destruct (Array.findIndex _ _) as [[i a]|]; [|exact H].
    destruct (Animal.isMature now a) as [[|] a']; exact H.
  - exact H.
Qed.

(** Every Ledger reached from a new game has a non-negative balance. *)
Lemma reachable_money_nonneg (calls : list LedgerCall) (random : nat -> Q) :
  0 <= currentMoney (runLedgerCalls calls (new random)).
Proof.
  unfold runLedgerCalls.
  generalize (new_money_nonneg random). generalize (new random) as g.
  induction calls as [|call calls IH]; intros g H; [exact H|].
  cbn [fold_left]. apply IH, call_money_nonneg, H.
Qed.

End LedgerFacts.



(** ** The Ledger after the game is over (C1) *)

Module TerminalFacts.
Import GameState.











End TerminalFacts.




(** ** Capacity (C3) *)

Module CapacityFacts.
Import GameState.

Lemma push_length {A : Type} (x : A) (arr : list A) :
  List.length (Array.push x arr) = S (List.length arr).
Proof. unfold Array.push. rewrite length_app. cbn. lia. Qed.

Lemma plantCrop_not_found now cropId (g : t) :
  Array.findIndex (fun s => String.eqb (Crop.id s) cropId)
                  (seeds (inventory g)) = None ->
  plantCrop now cropId g = (false, g).
Proof. intro H. unfold plantCrop. rewrite H. reflexivity. Qed.

Lemma plantCrop_found now cropId (g : t) (seedIndex : nat) (crop : Crop.t) :
  Array.findIndex (fun s => String.eqb (Crop.id s) cropId)
                  (seeds (inventory g)) = Some (seedIndex, crop) ->
  fst (plantCrop now cropId g) = true
  /\ List.length (crops (inventory (snd (plantCrop now cropId g))))
     = S (List.length (crops (inventory g))).
Proof.
  intro H. unfold plantCrop. rewrite H. cbn. split; [reflexivity|].
  apply push_length.
Qed.

Lemma placeAnimal_not_found now animalId (g : t) :
  Array.findIndex (fun a => String.eqb (Animal.id a) animalId)
                  (youngAnimals (inventory g)) = None ->
  placeAnimal now animalId g = (false, g).
Proof. intro H. unfold placeAnimal. rewrite H. reflexivity. Qed.

Lemma placeAnimal_found now animalId (g : t) (animalIndex : nat)
      (animal : Animal.t) :
  Array.findIndex (fun a => String.eqb (Animal.id a) animalId)
                  (youngAnimals (inventory g)) = Some (animalIndex, animal) ->
  fst (placeAnimal now animalId g) = true
  /\ List.length (animals (inventory (snd (placeAnimal now animalId g))))
     = S (List.length (animals (inventory g))).
Proof.
  intro H. unfold placeAnimal. rewrite H. cbn. split; [reflexivity|].
  apply push_length.
Qed.

End CapacityFacts.

(** C3, counterexample.  With all ten crop slots taken (canPlantMoreCrops()
    is false) and the seed crop_11 in stock, plantCrop("crop_11") returns true
    and the farm holds eleven crops. *)
Lemma plantCrop_exceeds_capacity :
  List.length (GameState.crops (GameState.inventory fullFarm))
  = CONSTANTS.VALIDATION.MAX_CROP_SLOTS
  /\ GameState.canPlantMoreCrops fullFarm = false
  /\ fst (GameState.plantCrop 2000 "crop_11" fullFarm) = true
  /\ List.length
       (GameState.crops
          (GameState.inventory
             (snd (GameState.plantCrop 2000 "crop_11" fullFarm))))
     = 11%nat.
Proof. vm_compute. repeat split. Qed.

(** C3, amended.  Capacity is answered by the queries: canPlantMoreCrops()
    and canPlaceMoreAnimals() are false exactly when the collection holds
    MAX_CROP_SLOTS, respectively MAX_ANIMAL_SLOTS, entries or more.
    plantCrop(id) and placeAnimal(id) do not consult it: they return false
    without mutating state when the id is not in the seed, respectively young
    animal, stock, and otherwise return true and add the entity to the target
    collection. *)
Theorem capacity_is_checked_by_the_queries_only :
  forall (g : GameState.t) (now : Z) (entityId : string),
    (GameState.canPlantMoreCrops g = false
     <-> (CONSTANTS.VALIDATION.MAX_CROP_SLOTS
          <= List.length (GameState.crops (GameState.inventory g)))%nat)
    /\ (GameState.canPlaceMoreAnimals g = false
        <-> (CONSTANTS.VALIDATION.MAX_ANIMAL_SLOTS
             <= List.length (GameState.animals (GameState.inventory g)))%nat)
    /\ match Array.findIndex (fun s => String.eqb (Crop.id s) entityId)
                             (GameState.seeds (GameState.inventory g)) with
       | None => GameState.plantCrop now entityId g = (false, g)
       | Some _ =>
           fst (GameState.plantCrop now entityId g) = true
           /\ List.length
                (GameState.crops
                   (GameState.inventory
                      (snd (GameState.plantCrop now entityId g))))
              = S (List.length (GameState.crops (GameState.inventory g)))
       end
    /\ match Array.findIndex (fun a => String.eqb (Animal.id a) entityId)
                             (GameState.youngAnimals (GameState.inventory g))
       with
       | None => GameState.placeAnimal now entityId g = (false, g)
       | Some _ =>
           fst (GameState.placeAnimal now entityId g) = true
           /\ List.length
                (GameState.animals
                   (GameState.inventory
                      (snd (GameState.placeAnimal now entityId g))))
              = S (List.length (GameState.animals (GameState.inventory g)))
       end.
Proof.
  intros g now entityId.
  split; [unfold GameState.canPlantMoreCrops; apply Nat.ltb_ge|].
  split; [unfold GameState.canPlaceMoreAnimals; apply Nat.ltb_ge|].
  split.
  - destruct (Array.findIndex _ (GameState.seeds _)) as [[i c]|] eqn:E.
    + exact (CapacityFacts.plantCrop_found now entityId g i c E).
    + exact (CapacityFacts.plantCrop_not_found now entityId g E).
  - destruct (Array.findIndex _ (GameState.youngAnimals _)) as [[i a]|] eqn:E.
    + exact (CapacityFacts.placeAnimal_found now entityId g i a E).
    + exact (CapacityFacts.placeAnimal_not_found now entityId g E).
Qed.

Lemma capacity_is_checked_by_the_queries_only_witness :
  GameState.canPlantMoreCrops fullFarm = false
  /\ fst (GameState.plantCrop 2000 "crop_11" fullFarm) = true
  /\ GameState.plantCrop 2000 "crop_12" fullFarm = (false, fullFarm).
Proof.
  destruct (capacity_is_checked_by_the_queries_only fullFarm 2000 "crop_11")
    as [[_ Hquery] [_ [Hplant _]]].
  destruct (capacity_is_checked_by_the_queries_only fullFarm 2000 "crop_12")
    as [_ [_ [Hmissing _]]].
  split; [apply Hquery; vm_compute; lia|].
  split; [exact (proj1 Hplant) | exact Hmissing].
Defined.

(** ** The forecast window (C2) *)

(** The run of a new game through its day advances, whatever the weather
    draws: the outcome of each call, the day reached and the days held by the
    forecast window.  The window is [day .. day+6] up to day 4; from day 5 on
    the appended entry is asked for a day past TOTAL_DAYS and is stored as
    day 1, the next advance filters it out, and the window shrinks by one
    entry a day until the tenth advance finds it empty and throws. *)
Lemma forecast_window_trace (random draws : nat -> Q) :
  map (fun n =>
         let run := advanceDays n draws (GameState.new random) in
         (fst run, GameState.currentDay (snd run),
          map Weather.day (GameState.weatherForecast (snd run))))
      (seq 0 11)
  = [ (Return tt, 1, map JNum [1; 2; 3; 4; 5; 6; 7]);
      (Return tt, 2, map JNum [2; 3; 4; 5; 6; 7; 8]);
      (Return tt, 3, map JNum [3; 4; 5; 6; 7; 8; 9]);
      (Return tt, 4, map JNum [4; 5; 6; 7; 8; 9; 10]);
      (Return tt, 5, map JNum [5; 6; 7; 8; 9; 10; 1]);
      (Return tt, 6, map JNum [6; 7; 8; 9; 10; 1]);
      (Return tt, 7, map JNum [7; 8; 9; 10; 1]);
      (Return tt, 8, map JNum [8; 9; 10; 1]);
      (Return tt, 9, map JNum [9; 10; 1]);
      (Return tt, 10, map JNum [10; 1]);
      (Throw "TypeError: cannot read properties of undefined", 11, []) ].
Proof. reflexivity. Qed.

(** C2, the code at the failing input.  After five advanceDay() calls on a new
    game, whatever the weather draws, the game is still Playing on day 6 and
    the forecast window holds six entries, for days 6, 7, 8, 9, 10 and 1: its
    length is no longer the forecast horizon. *)
Theorem forecast_window_shrinks_after_five_days :
  forall (random draws : nat -> Q),
    let run := advanceDays 5 draws (GameState.new random) in
    fst run = Return tt
    /\ GameState.gameStatus (snd run) = CONSTANTS.PLAYING
    /\ GameState.currentDay (snd run) = 6
    /\ map Weather.day (GameState.weatherForecast (snd run))
       = map JNum [6; 7; 8; 9; 10; 1]
    /\ Z.of_nat (List.length (GameState.weatherForecast (snd run))) = 6
    /\ Z.of_nat (List.length (GameState.weatherForecast (snd run)))
       <> GAME_CONFIG.WEATHER_FORECAST_DAYS.
Proof.
  intros random draws run.
  assert (Hlen : Z.of_nat (List.length (GameState.weatherForecast (snd run)))
                 = 6) by reflexivity.
  split; [reflexivity|]. split; [reflexivity|]. split; [reflexivity|].
  split; [reflexivity|]. split; [exact Hlen|].
  rewrite Hlen. discriminate.
Qed.

(** With the window gone the tenth advance throws before the lose condition
    is checked: the day counter is 11 and the status is still Playing. *)
Lemma tenth_advance_throws (random draws : nat -> Q) :
  let run := advanceDays 10 draws (GameState.new random) in
  fst run = Throw "TypeError: cannot read properties of undefined"
  /\ GameState.currentDay (snd run) = 11
  /\ GameState.currentMoney (snd run) < GameState.goalMoney (snd run)
  /\ GameState.gameStatus (snd run) = CONSTANTS.PLAYING.
Proof.
  intro run.
  split; [reflexivity|]. split; [reflexivity|]. split; reflexivity.
Qed.

(** ** Scenarios *)

(** A weather value on a range boundary resolves to the rule that holds it:
    0.80 belongs to [0.80, 0.89], 0.79 to [0.70, 0.79]. *)
Example demand_at_range_boundary :
  Weather.calculateDemandIndex (JNum (80 # 100)) = 10 # 10
  /\ Weather.calculateDemandIndex (JNum (79 # 100)) = 12 # 10
  /\ Weather.calculateDemandIndex (JNum (100 # 100)) = 8 # 10.
Proof. repeat split. Qed.

(** Balance 50, goal 5000, day 1: pay 10 for a wheat seed, plant it at time
    1000, harvest it once its two minutes have passed, sell it for 18. *)
Example wheat_round_trip :
  let g0 := GameState.new (fun _ => (1 # 2)%Q) in
  let g1 := GameState.addSeed wheatSeed
              (snd (GameState.deductMoney (JNum 10) g0)) in
  let g2 := snd (GameState.plantCrop 1000 "crop_1" g1) in
  let early := GameState.harvestCrop 60000 "crop_1" g2 in
  let g3 := snd (GameState.harvestCrop 121000 "crop_1" g2) in
  let sold := GameState.sellCrop "crop_1" g3 in
  let g4 := snd (GameState.addMoney (JNum 18) (snd sold)) in
  GameState.currentMoney g1 = 40
  /\ early = (false, g2)
  /\ option_map Crop.status (fst sold) = Some CONSTANTS.CROP_STATUS.HARVESTED
  /\ GameState.currentMoney g4 = 58
  /\ GameState.totalCropsSold (GameState.statistics g4) = 1
  /\ GameState.gameStatus g4 = CONSTANTS.PLAYING.
Proof. vm_compute. repeat split. Qed.

(** A chicken that always breeds and always keeps its offspring, past half of
    its growth: the offspring comes back Growing, placed at the time of the
    call, and is the one element of the parent's offspring list. *)
Example breeding_with_survivor :
  let parent :=
    Animal.mk "animal_1" "chicken" 40 75 3 1 1 180000
              CONSTANTS.ANIMAL_STATUS.GROWING (Some 1000) true false [] false in
  let '(result, parent') :=
    Animal.attemptBreeding 100000 (1 # 2) (1 # 2) "animal_2" parent in
  Animal.canBreed 100000 parent = true
  /\ match result with
     | Return r =>
         Animal.Result.survived r = true
         /\ option_map Animal.status (Animal.Result.offspring r)
            = Some CONSTANTS.ANIMAL_STATUS.GROWING
         /\ option_map Animal.placeTime (Animal.Result.offspring r)
            = Some (Some 100000)
         /\ option_map Animal.isPurchased (Animal.Result.offspring r)
            = Some false
         /\ Animal.offspring parent'
            = match Animal.Result.offspring r with
              | Some child => [child]
              | None => []
              end
     | Throw _ => False
     end.
Proof. vm_compute. repeat split. Qed.

(** ** Helpers: bounds and round trips *)









(** ** Weather: sampled values, JSON, forecast queries *)

(** The rule that holds a two-decimal value of the interval. *)
Lemma findRule_hundredths (n : Z) :
  10 <= n <= 100 ->
  exists rule,
    Weather.findRule GAME_CONFIG.WEATHER_DEMAND_RULES (n # 100) = Some rule
    /\ In rule GAME_CONFIG.WEATHER_DEMAND_RULES
    /\ GAME_CONFIG.demandMultiplier rule = demandOfHundredths n.
Proof.
  intro Hn.
  unfold GAME_CONFIG.WEATHER_DEMAND_RULES, Weather.findRule, Qgeb, Qle_bool,
    demandOfHundredths.
  cbn [Qnum Qden GAME_CONFIG.minWeather GAME_CONFIG.maxWeather].
  split_leb; eexists; (split; [reflexivity|]); (split; [|reflexivity]);
    cbn; tauto.
Qed.

Lemma demandOfHundredths_range (n : Z) :
  (8 # 10 <= demandOfHundredths n)%Q /\ (demandOfHundredths n <= 20 # 10)%Q.
Proof.
  unfold demandOfHundredths. split_leb; split; discriminate.
Qed.

Lemma rules_never_unknown (rule : GAME_CONFIG.WeatherRule) :
  In rule GAME_CONFIG.WEATHER_DEMAND_RULES ->
  GAME_CONFIG.marketCondition rule <> "Unknown"%string.
Proof.
  cbn. intro H. repeat destruct H as [<- | H]; try discriminate. contradiction.
Qed.

(** X3. A Weather constructed without an explicit value
    has a two-decimal value in [0.10, 1.00] that falls in a rule of the
    table: its demand index and market condition are those of that rule, the
    demand index lies between 0.8 and 2.0 and the market condition is never
    the fallback 'Unknown'. *)
Theorem sampled_weather_is_in_the_table :
  forall (day : JsValue Z) (random : Q),
    (0 <= random)%Q -> (random < 1)%Q ->
    let w := Weather.new day None random in
    exists (n : Z) (rule : GAME_CONFIG.WeatherRule),
      10 <= n <= 100
      /\ Weather.weatherValue w = n # 100
      /\ In rule GAME_CONFIG.WEATHER_DEMAND_RULES
      /\ (GAME_CONFIG.minWeather rule <= Weather.weatherValue w)%Q
      /\ (Weather.weatherValue w <= GAME_CONFIG.maxWeather rule)%Q
      /\ Weather.demandIndex w = GAME_CONFIG.demandMultiplier rule
      /\ Weather.marketCondition w = GAME_CONFIG.marketCondition rule
      /\ (8 # 10 <= Weather.demandIndex w)%Q
      /\ (Weather.demandIndex w <= 20 # 10)%Q
      /\ Weather.marketCondition w <> "Unknown"%string.
Proof.
  intros day random H0 H1 w.
  destruct (generateWeatherValue_hundredths random H0 H1) as [n [Hn Hv]].
  destruct (findRule_hundredths n Hn) as [rule [Hfind [Hin Hmult]]].
  assert (Hrange : (GAME_CONFIG.minWeather rule <= n # 100)%Q
                   /\ (n # 100 <= GAME_CONFIG.maxWeather rule)%Q).
  { revert Hfind. generalize GAME_CONFIG.WEATHER_DEMAND_RULES as rules.
    induction rules as [|r rules IH]; cbn [Weather.findRule]; [discriminate|].
    destruct (Qgeb (n # 100) (GAME_CONFIG.minWeather r)) eqn:E1;
      [destruct (Qle_bool (n # 100) (GAME_CONFIG.maxWeather r)) eqn:E2|];
      cbn [andb]; try exact IH.
    intro H. injection H as <-. unfold Qgeb in E1.
    apply Qle_bool_iff in E1, E2. split; assumption. }
  exists n, rule. subst w. unfold Weather.new.
  cbn [Weather.weatherValue Weather.demandIndex Weather.marketCondition].
  rewrite Hv. rewrite calculateDemandIndex_hundredths by exact Hn.
  unfold Weather._getMarketCondition. rewrite Hfind.
  destruct (demandOfHundredths_range n) as [Hlo Hhi].
  split; [exact Hn|]. split; [reflexivity|]. split; [exact Hin|].
  split; [apply Hrange|]. split; [apply Hrange|].
  split; [symmetry; exact Hmult|]. split; [reflexivity|].
  split; [exact Hlo|]. split; [exact Hhi|].
  apply rules_never_unknown, Hin.
Qed.

Lemma sampled_weather_is_in_the_table_witness :
  exists (n : Z) (rule : GAME_CONFIG.WeatherRule),
    10 <= n <= 100
    /\ Weather.weatherValue (Weather.new (JNum 3) None (1 # 2)) = n # 100
    /\ Weather.marketCondition (Weather.new (JNum 3) None (1 # 2))
       = GAME_CONFIG.marketCondition rule.
Proof.
  destruct (sampled_weather_is_in_the_table (JNum 3) (1 # 2))
    as [n [rule [Hn [Hv [_ [_ [_ [_ [Hc _]]]]]]]]];
    [discriminate | reflexivity |].
  exists n, rule. split; [exact Hn|]. split; [exact Hv | exact Hc].
Defined.

(** Clamping to the weather range is idempotent. *)
Lemma weather_clamp_idempotent (v : Q) :
  let c := HELPERS.clamp v CONSTANTS.WEATHER_RANGES.MIN
                         CONSTANTS.WEATHER_RANGES.MAX in
  HELPERS.clamp c CONSTANTS.WEATHER_RANGES.MIN CONSTANTS.WEATHER_RANGES.MAX = c.
Proof.
  cbv zeta. unfold HELPERS.clamp, Math.min, Math.max.
  case_Qle v CONSTANTS.WEATHER_RANGES.MIN.
  - reflexivity.
  - case_Qle v CONSTANTS.WEATHER_RANGES.MAX.
    + case_Qle v CONSTANTS.WEATHER_RANGES.MIN; [lra|].
      case_Qle v CONSTANTS.WEATHER_RANGES.MAX; [reflexivity | lra].
    + reflexivity.
Qed.

(** The day stored by the constructor is a day of the game, unless the
    argument was NaN. *)
Lemma constructed_day (day : JsValue Z) (wv : option Q) (random : Q) :
  day <> JNaN ->
  exists d, Weather.day (Weather.new day wv random) = JNum d
            /\ 1 <= d <= GAME_CONFIG.TOTAL_DAYS.
Proof.
  intro Hday. rewrite weather_new_day. unfold GAME_CONFIG.TOTAL_DAYS.
  destruct day as [d| | | |]; cbn [typeofNumber negb orb jsLtZ jsGtZ];
    try (exists 1; split; [reflexivity | lia]); [|congruence].
  destruct (Z.ltb_spec d 1); cbn [orb];
    [exists 1; split; [reflexivity | lia]|].
  destruct (Z.ltb_spec 10 d);
    [exists 1; split; [reflexivity | lia]|].
  exists d. split; [reflexivity | lia].
Qed.

(** X4. Weather.fromJSON(w.toJSON()) rebuilds a constructed
    Weather: day, weather value, demand index and market condition, without
    drawing a new value.  (A NaN day is not restored: the constructor keeps
    it, fromJSON replaces it by 1.) *)
Theorem weather_json_round_trip :
  forall (day : JsValue Z) (weatherValue : option Q) (random random' : Q),
    (0 <= random)%Q -> (random < 1)%Q ->
    day <> JNaN ->
    let w := Weather.new day weatherValue random in
    Weather.fromJSON (Some (Weather.toJSON w)) random' = w.
Proof.
  intros day wv random random' H0 H1 Hday w.
  destruct (constructed_day day wv random Hday) as [d [Hd Hrange]].
  fold w in Hd. unfold GAME_CONFIG.TOTAL_DAYS in Hrange.
  assert (Hv : HELPERS.clamp (Weather.weatherValue w)
                             CONSTANTS.WEATHER_RANGES.MIN
                             CONSTANTS.WEATHER_RANGES.MAX
               = Weather.weatherValue w).
  { subst w. unfold Weather.new. cbn [Weather.weatherValue].
    destruct wv as [v|]; [apply weather_clamp_idempotent|].
    destruct (generateWeatherValue_hundredths random H0 H1) as [n [Hn Hv]].
    rewrite Hv. apply clamp_hundredths, Hn. }
  unfold Weather.fromJSON, Weather.toJSON.
  cbn [Weather.j_day Weather.j_weatherValue]. rewrite Hd.
  assert (Hor : Weather.dayOr1 (JNum d) = JNum d)
    by (destruct d; try reflexivity; lia).
  rewrite Hor. unfold Weather.new at 1. rewrite Hv.
  cbn [typeofNumber negb orb jsLtZ jsGtZ]. unfold GAME_CONFIG.TOTAL_DAYS.
  destruct (Z.ltb_spec d 1); [lia|]. destruct (Z.ltb_spec 10 d); [lia|].
  cbn [orb]. rewrite <- Hd.
  subst w. unfold Weather.new. reflexivity.
Qed.

Lemma weather_json_round_trip_witness :
  let w := Weather.new (JNum 3) None (1 # 2) in
  Weather.fromJSON (Some (Weather.toJSON w)) (9 # 10) = w.
Proof.
  apply (weather_json_round_trip (JNum 3) None (1 # 2) (9 # 10));
    [discriminate | reflexivity | discriminate].
Defined.

(** The scan of [getWorstWeatherForSelling]: the running minimum. *)
Lemma worst_scan (forecast : list Weather.t) (start : Weather.t) :
  let worst :=
    fold_left
      (fun worstWeather weather =>
         if Qltb (Weather.weatherValue weather)
                 (Weather.weatherValue worstWeather)
         then weather else worstWeather)
      forecast start in
  (worst = start \/ In worst forecast)
  /\ (Weather.weatherValue worst <= Weather.weatherValue start)%Q
  /\ (forall w, In w forecast ->
        (Weather.weatherValue worst <= Weather.weatherValue w)%Q).
Proof.
  revert start. induction forecast as [|x rest IH]; intro start; cbn [fold_left].
  - split; [left; reflexivity|]. split; [lra|]. intros w [].
  - destruct (Qltb (Weather.weatherValue x) (Weather.weatherValue start)) eqn:E.
    + apply Qltb_true in E. destruct (IH x) as [Hin [Hle Hmin]].
      split; [right; destruct Hin as [-> | Hin];
              [left; reflexivity | right; exact Hin]|].
      split; [lra|].
      intros w [<- | Hw]; [exact Hle | apply Hmin, Hw].
    + apply Qltb_false in E. destruct (IH start) as [Hin [Hle Hmin]].
      split; [destruct Hin as [-> | Hin];
              [left; reflexivity | right; right; exact Hin]|].
      split; [exact Hle|].
      intros w [<- | Hw]; [lra | apply Hmin, Hw].
Qed.

Lemma best_scan (forecast : list Weather.t) (start : Weather.t) :
  let best :=
    fold_left
      (fun bestWeather weather =>
         if Qltb (Weather.weatherValue bestWeather)
                 (Weather.weatherValue weather)
         then weather else bestWeather)
      forecast start in
  (best = start \/ In best forecast)
  /\ (Weather.weatherValue start <= Weather.weatherValue best)%Q
  /\ (forall w, In w forecast ->
        (Weather.weatherValue w <= Weather.weatherValue best)%Q).
Proof.
  revert start. induction forecast as [|x rest IH]; intro start; cbn [fold_left].
  - split; [left; reflexivity|]. split; [lra|]. intros w [].
  - destruct (Qltb (Weather.weatherValue start) (Weather.weatherValue x)) eqn:E.
    + apply Qltb_true in E. destruct (IH x) as [Hin [Hle Hmax]].
      split; [right; destruct Hin as [-> | Hin];
              [left; reflexivity | right; exact Hin]|].
      split; [lra|].
      intros w [<- | Hw]; [exact Hle | apply Hmax, Hw].
    + apply Qltb_false in E. destruct (IH start) as [Hin [Hle Hmax]].
      split; [destruct Hin as [-> | Hin];
              [left; reflexivity | right; right; exact Hin]|].
      split; [exact Hle|].
      intros w [<- | Hw]; [lra | apply Hmax, Hw].
Qed.

(** X5. getWorstWeatherForSelling and getBestWeatherForSelling
    return null exactly on an empty forecast, and otherwise entries of the
    forecast whose weather value is the lowest, respectively the highest, of
    all entries. *)
Theorem forecast_extremes :
  forall forecast : list Weather.t,
    match Weather.getWorstWeatherForSelling forecast,
          Weather.getBestWeatherForSelling forecast with
    | Some worst, Some best =>
        In worst forecast /\ In best forecast
        /\ (forall w, In w forecast ->
              (Weather.weatherValue worst <= Weather.weatherValue w)%Q
              /\ (Weather.weatherValue w <= Weather.weatherValue best)%Q)
    | None, None => forecast = []
    | _, _ => False
    end.
Proof.
  intros [|first rest]; [reflexivity|].
  unfold Weather.getWorstWeatherForSelling, Weather.getBestWeatherForSelling.
  destruct (worst_scan (first :: rest) first) as [Hw [_ Hmin]].
  destruct (best_scan (first :: rest) first) as [Hb [_ Hmax]].
  split; [destruct Hw as [-> | Hw]; [left; reflexivity | exact Hw]|].
  split; [destruct Hb as [-> | Hb]; [left; reflexivity | exact Hb]|].
  intros w Hin. split; [apply Hmin, Hin | apply Hmax, Hin].
Qed.

(** X6. In a forecast of two-decimal weather values of the
    interval, the entry returned by getWorstWeatherForSelling has the highest
    demand index of the forecast: it is the best day to sell. *)
Theorem worst_weather_pays_best :
  forall (forecast : list Weather.t) (worst : Weather.t),
    Forall (fun w => exists n, 10 <= n <= 100
                               /\ Weather.weatherValue w = n # 100
                               /\ Weather.demandIndex w = demandOfHundredths n)
           forecast ->
    Weather.getWorstWeatherForSelling forecast = Some worst ->
    forall w, In w forecast ->
              (Weather.demandIndex w <= Weather.demandIndex worst)%Q.
Proof.
  intros forecast worst Hall Hworst w Hin.
  destruct forecast as [|first rest]; [destruct Hin|].
  unfold Weather.getWorstWeatherForSelling in Hworst.
  pose proof (worst_scan (first :: rest) first) as Hscan. cbv zeta in Hscan.
  match type of Hscan with
  | context [fold_left ?f ?l ?a] =>
      assert (E : fold_left f l a = worst)
        by (injection Hworst as H; exact H)
  end.
  rewrite E in Hscan.
  destruct Hscan as [Hw [_ Hmin]].
  assert (Hwin : In worst (first :: rest))
    by (destruct Hw as [-> | Hw]; [left; reflexivity | exact Hw]).
  rewrite Forall_forall in Hall.
  destruct (Hall w Hin) as [n [Hn [Hv Hd]]].
  destruct (Hall worst Hwin) as [m [Hm [Hv' Hd']]].
  pose proof (Hmin w Hin) as Hle. rewrite Hv, Hv' in Hle.
  rewrite Hd, Hd'. apply demandOfHundredths_antitone.
  unfold Qle in Hle. cbn in Hle. lia.
Qed.




Lemma forecast_extremes_witness :
  let forecast := [Weather.new (JNum 1) (Some (55 # 100)) 0;
                   Weather.new (JNum 2) (Some (25 # 100)) 0;
                   Weather.new (JNum 3) (Some (90 # 100)) 0] in
  exists worst best,
    Weather.getWorstWeatherForSelling forecast = Some worst
    /\ Weather.getBestWeatherForSelling forecast = Some best
    /\ In worst forecast /\ In best forecast
    /\ Weather.day worst = JNum 2 /\ Weather.day best = JNum 3.
Proof.
  intro forecast.
  pose proof (forecast_extremes forecast) as H.
  destruct (Weather.getWorstWeatherForSelling forecast) as [worst|] eqn:Ew;
    [|discriminate Ew].
  destruct (Weather.getBestWeatherForSelling forecast) as [best|] eqn:Eb;
    [|discriminate Eb].
  destruct H as [Hw [Hb _]].
  exists worst, best. injection Ew as <-. injection Eb as <-.
  repeat split; assumption.
Defined.

Lemma worst_weather_pays_best_witness :
  let forecast := [Weather.new (JNum 1) None (1 # 2);
                   Weather.new (JNum 2) None (1 # 10);
                   Weather.new (JNum 3) None (9 # 10)] in
  Forall (fun w =>
            (Weather.demandIndex w
             <= Weather.demandIndex (Weather.new (JNum 2%Z) None (1 # 10)))%Q)
         forecast.
Proof.
  intro forecast. apply Forall_forall.
  apply (worst_weather_pays_best forecast (Weather.new (JNum 2) None (1 # 10))).
  - repeat constructor.
    + exists 55. repeat split; discriminate.
    + exists 19. repeat split; discriminate.
    + exists 91. repeat split; discriminate.
  - reflexivity.
Defined.


(** ** Crops and animals: prices *)

Lemma price_floor_mono (base : Z) (d1 d2 : Q) :
  0 <= base -> (d1 <= d2)%Q ->
  Qfloor (inject_Z base * d1) <= Qfloor (inject_Z base * d2).
Proof.
  intros Hb Hd. apply Qfloor_resp_le.
  assert (0 <= inject_Z base)%Q
    by (change 0%Q with (inject_Z 0); rewrite <- Zle_Qle; exact Hb).
  nra.
Qed.




(** ** Crops and animals: the life cycle *)

Module CropLife.
Import CONSTANTS.CROP_STATUS.

Lemma crop_new_consistent type newId (c : Crop.t) :
  Crop.new type newId = Return c -> cropConsistent c /\ Crop.status c = SEED.
Proof.
  unfold Crop.new. destruct (find _ _); [|discriminate].
  intro H. injection H as <-. unfold cropConsistent. cbn.
  repeat split; congruence.
Qed.

Lemma crop_call_step (call : CropCall) (c : Crop.t) :
  cropConsistent c ->
  cropConsistent (runCropCall call c)
  /\ cropStage (Crop.status c) <= cropStage (Crop.status (runCropCall call c))
  /\ (Crop.plantTime c <> None ->
      Crop.plantTime (runCropCall call c) = Crop.plantTime c)
  /\ (Crop.harvestTime c <> None ->
      Crop.harvestTime (runCropCall call c) = Crop.harvestTime c)
  /\ Crop.id (runCropCall call c) = Crop.id c
  /\ Crop.growthDuration (runCropCall call c) = Crop.growthDuration c.
Proof.
  intros [Hseed Hharv]. unfold cropConsistent.
  destruct call as [now | now | now]; cbn [runCropCall];
    unfold Crop.plant, Crop.isMature, Crop.harvest;
    destruct (Crop.status c) eqn:Es; cbn [eqb negb snd];
    try (destruct (_ >=? _)); cbn [snd Crop.status Crop.plantTime
      Crop.harvestTime Crop.id Crop.growthDuration Crop.with_status
      Crop.with_plantTime Crop.with_harvestTime cropStage];
    rewrite ?Es; cbn [cropStage];
    repeat split; intros; try congruence; try lia;
    try (apply Hseed; assumption); try (apply Hharv; assumption);
    try (exfalso; apply Hseed in H; congruence);
    try (exfalso; apply Hharv in H; congruence).
  all: try (destruct Hseed as [Hs1 Hs2]; destruct Hharv as [Hh1 Hh2];
            try (exfalso; apply H; apply Hs1; reflexivity);
            try (exfalso; specialize (Hs2 H); congruence);
            try (exfalso; specialize (Hh2 H); congruence)).
Qed.

Lemma crop_calls_step (calls : list CropCall) (c : Crop.t) :
  cropConsistent c ->
  cropConsistent (runCropCalls calls c)
  /\ cropStage (Crop.status c)
     <= cropStage (Crop.status (runCropCalls calls c))
  /\ (Crop.plantTime c <> None ->
      Crop.plantTime (runCropCalls calls c) = Crop.plantTime c)
  /\ (Crop.harvestTime c <> None ->
      Crop.harvestTime (runCropCalls calls c) = Crop.harvestTime c)
  /\ Crop.id (runCropCalls calls c) = Crop.id c
  /\ Crop.growthDuration (runCropCalls calls c) = Crop.growthDuration c.
Proof.
  unfold runCropCalls. revert c.
  induction calls as [|call calls IH]; intros c Hc; cbn [fold_left].
  - split; [exact Hc|]. split; [lia|]. repeat split.
  - destruct (crop_call_step call c Hc) as [H1 [H2 [H3 [H4 [H5 H6]]]]].
    destruct (IH _ H1) as [I1 [I2 [I3 [I4 [I5 I6]]]]].
    split; [exact I1|]. split; [lia|].
    split; [intro H; rewrite I3; [apply H3, H | rewrite H3; assumption]|].
    split; [intro H; rewrite I4; [apply H4, H | rewrite H4; assumption]|].
    split; congruence.
Qed.

End CropLife.

(** X9. A crop built by the constructor and driven by any calls of
    plant(), isMature() and harvest(): its status never moves back, its plant
    time and its harvest time are stamped once and never change afterwards,
    it is a seed exactly while it has no plant time and harvested exactly once
    it has a harvest time, and its identifier and growth duration never
    change. *)
Theorem crop_life_moves_forward :
  forall (type newId : string) (c : Crop.t) (calls later : list CropCall),
    Crop.new type newId = Return c ->
    let c1 := runCropCalls calls c in
    let c2 := runCropCalls later c1 in
    cropStage (Crop.status c1) <= cropStage (Crop.status c2)
    /\ (Crop.plantTime c1 <> None -> Crop.plantTime c2 = Crop.plantTime c1)
    /\ (Crop.harvestTime c1 <> None ->
        Crop.harvestTime c2 = Crop.harvestTime c1)
    /\ (Crop.status c1 = CONSTANTS.CROP_STATUS.SEED
        <-> Crop.plantTime c1 = None)
    /\ (Crop.status c1 = CONSTANTS.CROP_STATUS.HARVESTED
        <-> Crop.harvestTime c1 <> None)
    /\ Crop.id c2 = newId
    /\ Crop.growthDuration c2 = Crop.growthDuration c.
Proof.
  intros type newId c calls later Hnew c1 c2.
  destruct (CropLife.crop_new_consistent type newId c Hnew) as [Hc _].
  destruct (CropLife.crop_calls_step calls c Hc) as [H1 [_ [_ [_ [Hid1 Hd1]]]]].
  fold c1 in H1, Hid1, Hd1.
  destruct (CropLife.crop_calls_step later c1 H1) as [_ [H2 [H3 [H4 [Hid2 Hd2]]]]].
  fold c2 in H2, H3, H4, Hid2, Hd2.
  split; [exact H2|]. split; [exact H3|]. split; [exact H4|].
  split; [apply H1|]. split; [apply H1|].
  split; [|congruence].
  rewrite Hid2, Hid1. unfold Crop.new in Hnew.
  destruct (find _ _); [|discriminate]. injection Hnew as <-. reflexivity.
Qed.

Lemma crop_life_moves_forward_witness :
  let c1 := runCropCalls [CallPlant 1000; CallCropIsMature 200000] wheatSeed in
  let c2 := runCropCalls [CallPlant 300000; CallHarvest 300001;
                          CallCropIsMature 300002] c1 in
  Crop.plantTime c2 = Some 1000
  /\ cropStage (Crop.status c1) <= cropStage (Crop.status c2)
  /\ Crop.id c2 = "crop_1"%string.
Proof.
  intros c1 c2.
  destruct (crop_life_moves_forward
              "wheat" "crop_1" wheatSeed
              [CallPlant 1000; CallCropIsMature 200000]
              [CallPlant 300000; CallHarvest 300001; CallCropIsMature 300002])
    as [H1 [H2 [_ [_ [_ [H3 _]]]]]]; [reflexivity|].
  split; [apply H2; discriminate|]. split; [exact H1 | exact H3].
Defined.

Module AnimalLife.
Import CONSTANTS.ANIMAL_STATUS.

(** The animal left by [attemptBreeding]: unchanged when the call is refused,
    and otherwise flagged, possibly marked as having bred, possibly with one
    more offspring. *)
Lemma attemptBreeding_cases now random1 random2 childId (a : Animal.t) :
  let a' := snd (Animal.attemptBreeding now random1 random2 childId a) in
  a' = a
  \/ (Animal.status a = GROWING /\ Animal.breedingAttempted a = false
      /\ (a' = Animal.with_breedingAttempted true a
          \/ a' = Animal.with_hasOffspring true
                    (Animal.with_breedingAttempted true a)
          \/ exists child,
               a' = Animal.with_offspring (Animal.offspring a ++ [child])
                      (Animal.with_hasOffspring true
                         (Animal.with_breedingAttempted true a)))).
Proof.
  cbv zeta. unfold Animal.attemptBreeding.
  destruct (Animal.breedingAttempted a) eqn:Eb; [left; reflexivity|].
  destruct (eqb (Animal.status a) GROWING) eqn:Es; cbn [negb];
    [|left; reflexivity].
  apply BreedingFacts.status_eqb_eq in Es. right.
  split; [exact Es|]. split; [reflexivity|].
  destruct (HELPERS.randomBoolean _ random1); cbn [negb snd];
    [|left; reflexivity].
  destruct (Animal.new _ false childId) as [child|]; cbn [snd];
    [|right; left; reflexivity].
  destruct (HELPERS.randomBoolean _ random2); cbn [negb snd].
  - right; right. eexists. reflexivity.
  - right; left. reflexivity.
Qed.

Lemma animal_new_consistent type isPurchased newId (a : Animal.t) :
  Animal.new type isPurchased newId = Return a -> animalConsistent a.
Proof.
  unfold Animal.new. destruct (find _ _); [|discriminate].
  intro H. injection H as <-. unfold animalConsistent. cbn.
  repeat split; try congruence; lia.
Qed.

Lemma animal_call_step (call : AnimalCall) (a : Animal.t) :
  animalConsistent a ->
  animalConsistent (runAnimalCall call a)
  /\ animalStage (Animal.status a)
     <= animalStage (Animal.status (runAnimalCall call a))
  /\ (Animal.placeTime a <> None ->
      Animal.placeTime (runAnimalCall call a) = Animal.placeTime a)
  /\ Animal.id (runAnimalCall call a) = Animal.id a
  /\ Animal.isPurchased (runAnimalCall call a) = Animal.isPurchased a.
Proof.
  intros [Hyoung [Hnb [Hatt [Hhas Hlen]]]].
  destruct call as [now | now | now random1 random2 childId];
    cbn [runAnimalCall].
  - unfold Animal.place, animalConsistent.
    destruct (Animal.status a) eqn:Es; cbn [eqb negb snd];
      cbn [Animal.status Animal.placeTime Animal.id Animal.isPurchased
           Animal.breedingAttempted Animal.hasOffspring Animal.offspring
           Animal.with_status Animal.with_placeTime animalStage];
      rewrite ?Es; cbn [animalStage].
    + repeat split; intros; try congruence; try lia; try (apply Hatt; assumption);
        try (apply Hhas; assumption).
      exfalso. apply H. apply Hyoung. reflexivity.
    + repeat split; intros; try congruence; try lia;
        try (apply Hyoung; assumption); try (apply Hatt; assumption);
        try (apply Hhas; assumption).
    + repeat split; intros; try congruence; try lia;
        try (apply Hyoung; assumption); try (apply Hatt; assumption);
        try (apply Hhas; assumption).
    + congruence.
  - unfold Animal.isMature, animalConsistent.
    destruct (Animal.status a) eqn:Es; cbn [eqb negb snd];
      try (destruct (_ >=? _)); cbn [snd Animal.status Animal.placeTime
        Animal.id Animal.isPurchased Animal.breedingAttempted
        Animal.hasOffspring Animal.offspring Animal.with_status animalStage];
      rewrite ?Es; cbn [animalStage];
      try congruence;
      repeat split; intros; try congruence; try lia;
        try (apply Hyoung; assumption); try (apply Hatt; assumption);
        try (apply Hhas; assumption).
    exfalso. apply Hyoung in H. congruence.
  - destruct (attemptBreeding_cases now random1 random2 childId a)
      as [E | [Hs [Hb [E | [E | [child E]]]]]]; cbv zeta in E; rewrite E.
    + unfold animalConsistent.
      repeat split; try tauto; try lia; apply Hyoung || apply Hatt || idtac.
      all: try (intro; apply Hyoung; assumption).
      all: try (intro Hf; apply Hatt, Hf).
    + destruct (Hatt Hb) as [Hh Ho]. unfold animalConsistent.
      cbn [Animal.status Animal.placeTime Animal.id Animal.isPurchased
           Animal.breedingAttempted Animal.hasOffspring Animal.offspring
           Animal.with_breedingAttempted].
      repeat split; intros; try congruence; try lia;
        try (apply Hyoung; assumption).
    + destruct (Hatt Hb) as [Hh Ho]. unfold animalConsistent.
      cbn [Animal.status Animal.placeTime Animal.id Animal.isPurchased
           Animal.breedingAttempted Animal.hasOffspring Animal.offspring
           Animal.with_breedingAttempted Animal.with_hasOffspring].
      repeat split; intros; try congruence; try lia;
        try (apply Hyoung; assumption).
    + destruct (Hatt Hb) as [Hh Ho]. unfold animalConsistent.
      cbn [Animal.status Animal.placeTime Animal.id Animal.isPurchased
           Animal.breedingAttempted Animal.hasOffspring Animal.offspring
           Animal.with_breedingAttempted Animal.with_hasOffspring
           Animal.with_offspring].
      rewrite Ho. cbn [app List.length].
      repeat split; intros; try congruence; try lia;
        try (apply Hyoung; assumption).
Qed.

Lemma animal_calls_step (calls : list AnimalCall) (a : Animal.t) :
  animalConsistent a ->
  animalConsistent (runAnimalCalls calls a)
  /\ animalStage (Animal.status a)
     <= animalStage (Animal.status (runAnimalCalls calls a))
  /\ (Animal.placeTime a <> None ->
      Animal.placeTime (runAnimalCalls calls a) = Animal.placeTime a)
  /\ Animal.id (runAnimalCalls calls a) = Animal.id a
  /\ Animal.isPurchased (runAnimalCalls calls a) = Animal.isPurchased a.
Proof.
  unfold runAnimalCalls. revert a.
  induction calls as [|call calls IH]; intros a Ha; cbn [fold_left].
  - split; [exact Ha|]. split; [lia|]. repeat split.
  - destruct (animal_call_step call a Ha) as [H1 [H2 [H3 [H4 H5]]]].
    destruct (IH _ H1) as [I1 [I2 [I3 [I4 I5]]]].
    split; [exact I1|]. split; [lia|].
    split; [intro H; rewrite I3; [apply H3, H | rewrite H3; assumption]|].
    split; congruence.
Qed.

End AnimalLife.

(** X10. An animal built by the constructor and driven by any
    calls of place(), isMature() and attemptBreeding(): its status never moves
    back and is never BREEDING, its place time is stamped once and never
    changes afterwards, it is young exactly while it has no place time, it
    has at most one direct offspring, and none unless hasOffspring and
    breedingAttempted are set. *)
Theorem animal_life_moves_forward :
  forall (type : string) (isPurchased : bool) (newId : string) (a : Animal.t)
         (calls later : list AnimalCall),
    Animal.new type isPurchased newId = Return a ->
    let a1 := runAnimalCalls calls a in
    let a2 := runAnimalCalls later a1 in
    animalStage (Animal.status a1) <= animalStage (Animal.status a2)
    /\ (Animal.placeTime a1 <> None ->
        Animal.placeTime a2 = Animal.placeTime a1)
    /\ (Animal.status a1 = CONSTANTS.ANIMAL_STATUS.YOUNG
        <-> Animal.placeTime a1 = None)
    /\ Animal.status a1 <> CONSTANTS.ANIMAL_STATUS.BREEDING
    /\ (List.length (Animal.offspring a1) <= 1)%nat
    /\ (Animal.offspring a1 <> [] ->
        Animal.hasOffspring a1 = true /\ Animal.breedingAttempted a1 = true)
    /\ Animal.id a2 = newId
    /\ Animal.isPurchased a2 = isPurchased.
Proof.
  intros type isPurchased newId a calls later Hnew a1 a2.
  pose proof (AnimalLife.animal_new_consistent type isPurchased newId a Hnew) as Ha.
  destruct (AnimalLife.animal_calls_step calls a Ha) as [H1 [_ [_ [Hid1 Hp1]]]].
  fold a1 in H1, Hid1, Hp1.
  destruct (AnimalLife.animal_calls_step later a1 H1) as [_ [H2 [H3 [Hid2 Hp2]]]].
  fold a2 in H2, H3, Hid2, Hp2.
  destruct H1 as [Hyoung [Hnb [Hatt [Hhas Hlen]]]].
  split; [exact H2|]. split; [exact H3|]. split; [exact Hyoung|].
  split; [exact Hnb|]. split; [exact Hlen|].
  assert (Hfields : Animal.id a = newId /\ Animal.isPurchased a = isPurchased).
  { unfold Animal.new in Hnew. destruct (find _ _); [|discriminate].
    injection Hnew as <-. split; reflexivity. }
  split; [|split; [rewrite Hid2, Hid1; apply Hfields
                  | rewrite Hp2, Hp1; apply Hfields]].
  intro Hne. split.
  - destruct (Animal.hasOffspring a1) eqn:E; [reflexivity|].
    exfalso. apply Hne, Hhas. reflexivity.
  - destruct (Animal.breedingAttempted a1) eqn:E; [reflexivity|].
    exfalso. apply Hne, Hatt. reflexivity.
Qed.

Lemma animal_life_moves_forward_witness :
  let a1 := runAnimalCalls
              [CallPlace 1000; CallAttemptBreeding 100000 0 0 "animal_2"]
              youngChicken in
  let a2 := runAnimalCalls
              [CallPlace 150000; CallAttemptBreeding 150001 0 0 "animal_3";
               CallIsMature 200000] a1 in
  Animal.placeTime a2 = Some 1000
  /\ (List.length (Animal.offspring a1) <= 1)%nat
  /\ Animal.id a2 = "animal_1"%string.
Proof.
  intros a1 a2.
  destruct (animal_life_moves_forward
              "chicken" true "animal_1" youngChicken
              [CallPlace 1000; CallAttemptBreeding 100000 0 0 "animal_2"]
              [CallPlace 150000; CallAttemptBreeding 150001 0 0 "animal_3";
               CallIsMature 200000])
    as [_ [H2 [_ [_ [H5 [_ [H7 _]]]]]]]; [reflexivity|].
  split; [apply H2; discriminate|]. split; [exact H5 | exact H7].
Defined.

(** ** Crops and animals: the three growth queries agree *)

Lemma percentage_below_100 (elapsed duration : Z) :
  0 < duration -> elapsed < duration ->
  (Math.min 100 (HELPERS.calculatePercentage elapsed duration) < 100)%Q.
Proof.
  intros Hd He. unfold HELPERS.calculatePercentage.
  destruct (Z.eqb_spec duration 0); [lia|].
  rewrite Z.geb_leb. destruct (Z.leb_spec duration elapsed); [lia|].
  assert (Hq : (inject_Z elapsed / inject_Z duration * 100 < 100)%Q).
  { assert (Hdq : (0 < inject_Z duration)%Q)
      by (change 0%Q with (inject_Z 0); rewrite <- Zlt_Qlt; exact Hd).
    assert (Heq : (inject_Z elapsed < inject_Z duration)%Q)
      by (rewrite <- Zlt_Qlt; exact He).
    assert (H1 : (inject_Z elapsed / inject_Z duration < 1)%Q)
      by (apply Qlt_shift_div_r; [exact Hdq | lra]).
    lra. }
  set (p := (inject_Z elapsed / inject_Z duration * 100)%Q) in *.
  unfold HELPERS.clamp, Math.min, Math.max.
  case_Qle p 0%Q.
  - case_Qle 0%Q 100%Q; [case_Qle 100%Q 0%Q | case_Qle 100%Q 100%Q]; lra.
  - case_Qle p 100%Q; [case_Qle 100%Q p | case_Qle 100%Q 100%Q]; lra.
Qed.

Lemma growth_queries (now : Z) (start : option Z) (duration : Z) :
  0 < duration ->
  let elapsed := HELPERS.getElapsedTime now start in
  ((elapsed >=? duration) = true
   <-> HELPERS.getRemainingTime now start duration = 0)
  /\ ((elapsed >=? duration) = true
      <-> (Math.min 100 (HELPERS.calculatePercentage elapsed duration)
           == 100)%Q).
Proof.
  intros Hd elapsed. unfold HELPERS.getRemainingTime. fold elapsed.
  rewrite Z.geb_leb, Z.leb_le. split; [lia|]. split.
  - intro H. rewrite calculatePercentage_complete by assumption. reflexivity.
  - intro H. destruct (Z_le_gt_dec duration elapsed) as [Hle | Hgt]; [exact Hle|].
    pose proof (percentage_below_100 elapsed duration Hd ltac:(lia)). lra.
Qed.

(** X11. For a Growing crop and a Growing animal built from the
    configuration, at any time, the three growth queries agree: isMature()
    answers true exactly when getRemainingTime() is 0, and exactly when
    getGrowthProgress() is 100. *)
Theorem growth_queries_agree :
  forall (c : Crop.t) (a : Animal.t) (now : Z),
    Crop.status c = CONSTANTS.CROP_STATUS.GROWING ->
    Animal.status a = CONSTANTS.ANIMAL_STATUS.GROWING ->
    cropFromConfig c -> animalFromConfig a ->
    ((fst (Crop.isMature now c) = true <-> Crop.getRemainingTime now c = 0)
     /\ (fst (Crop.isMature now c) = true
         <-> (Crop.getGrowthProgress now c == 100)%Q))
    /\ ((fst (Animal.isMature now a) = true
         <-> Animal.getRemainingTime now a = 0)
        /\ (fst (Animal.isMature now a) = true
            <-> (Animal.getGrowthProgress now a == 100)%Q)).
Proof.
  intros c a now Hc Ha Hcfgc Hcfga.
  pose proof (growth_queries now (Crop.plantTime c) (Crop.growthDuration c)
                (cropFromConfig_duration_pos c Hcfgc)) as Qc.
  pose proof (growth_queries now (Animal.placeTime a) (Animal.growthDuration a)
                (animalFromConfig_duration_pos a Hcfga)) as Qa.
  cbv zeta in Qc, Qa.
  rewrite Crop_progress_growing, Animal_progress_growing by assumption.
  unfold Crop.isMature, Crop.getRemainingTime, Animal.isMature,
    Animal.getRemainingTime.
  rewrite Hc, Ha.
  cbn [CONSTANTS.CROP_STATUS.eqb CONSTANTS.ANIMAL_STATUS.eqb negb].
  split.
  - destruct (_ >=? Crop.growthDuration c); exact Qc.
  - destruct (_ >=? Animal.growthDuration a); exact Qa.
Qed.

Lemma growth_queries_agree_witness :
  fst (Crop.isMature 121000 plantedWheat) = true
  /\ Crop.getRemainingTime 121000 plantedWheat = 0
  /\ (Animal.getGrowthProgress 181000 placedChicken == 100)%Q.
Proof.
  destruct (growth_queries_agree plantedWheat placedChicken 121000)
    as [[Hc _] _]; try reflexivity;
    [exact plantedWheat_fromConfig | exact placedChicken_fromConfig |].
  destruct (growth_queries_agree plantedWheat placedChicken 181000)
    as [_ [_ Ha]]; try reflexivity;
    [exact plantedWheat_fromConfig | exact placedChicken_fromConfig |].
  split; [reflexivity|]. split; [apply Hc; reflexivity | apply Ha; reflexivity].
Defined.

(** ** Breeding: the offspring that survives *)

(** X12. When both the breeding check and the survival check
    succeed on a Growing animal from the configuration that has not yet
    attempted breeding, attemptBreeding() returns attempted, bred and
    survived all true with an offspring of the parent's type that is not
    purchased, is already Growing with the time of the call as its place time,
    has not attempted breeding itself, and has been appended to the parent's
    offspring list. *)
Theorem surviving_offspring_is_placed :
  forall (a : Animal.t) (now : Z) (random1 random2 : Q) (childId : string),
    Animal.status a = CONSTANTS.ANIMAL_STATUS.GROWING ->
    Animal.breedingAttempted a = false ->
    animalMatchesConfig a ->
    HELPERS.randomBoolean (Animal.breedingChance a) random1 = true ->
    HELPERS.randomBoolean (Animal.offspringSurvivalRate a) random2 = true ->
    exists child a',
      Animal.attemptBreeding now random1 random2 childId a
      = (Return (Animal.Result.mk true true true (Some child)), a')
      /\ Animal.offspring a' = Animal.offspring a ++ [child]
      /\ Animal.hasOffspring a' = true
      /\ Animal.breedingAttempted a' = true
      /\ Animal.id child = childId
      /\ Animal.type child = Animal.type a
      /\ Animal.status child = CONSTANTS.ANIMAL_STATUS.GROWING
      /\ Animal.placeTime child = Some now
      /\ Animal.isPurchased child = false
      /\ Animal.breedingAttempted child = false
      /\ Animal.offspring child = []
      /\ Animal.growthDuration child = Animal.growthDuration a
      /\ animalMatchesConfig child.
Proof.
  intros a now random1 random2 childId Hs Hb Hcfg H1 H2.
  destruct Hcfg as [def [Hfind [Htype [Hcost [Hprice [Htime [Hchance [Hsurv Hdur]]]]]]]].
  assert (Hnew : Animal.new (Animal.type a) false childId
                 = Return (Animal.mk childId
                             (GAME_CONFIG.animal_id def)
                             (GAME_CONFIG.purchaseCost def)
                             (GAME_CONFIG.animal_baseSellPrice def)
                             (GAME_CONFIG.animal_growthTime def)
                             (GAME_CONFIG.breedingChance def)
                             (GAME_CONFIG.offspringSurvivalRate def)
                             (HELPERS.minutesToMilliseconds
                                (GAME_CONFIG.animal_growthTime def))
                             CONSTANTS.ANIMAL_STATUS.YOUNG None false false []
                             false)).
  { unfold Animal.new. unfold Animal.getAnimalDefinition in Hfind.
    rewrite Hfind. reflexivity. }
  unfold Animal.attemptBreeding. rewrite Hb, Hs.
  cbn [CONSTANTS.ANIMAL_STATUS.eqb negb Animal.breedingChance
       Animal.with_breedingAttempted].
  rewrite H1.
  cbn [negb Animal.type Animal.with_hasOffspring Animal.with_breedingAttempted
       Animal.offspringSurvivalRate].
  rewrite Hnew, H2. cbn [negb].
  eexists. eexists. split; [reflexivity|].
  cbn -[find]. repeat split; try congruence.
  exists def. cbn -[find]. unfold Animal.getAnimalDefinition in *.
  rewrite <- Htype, Hfind. repeat split; congruence.
Qed.

Lemma surviving_offspring_is_placed_witness :
  exists child a',
    Animal.attemptBreeding 100000 (1 # 10) (1 # 10) "animal_2" placedChicken
    = (Return (Animal.Result.mk true true true (Some child)), a')
    /\ Animal.status child = CONSTANTS.ANIMAL_STATUS.GROWING
    /\ Animal.placeTime child = Some 100000.
Proof.
  destruct (surviving_offspring_is_placed
              placedChicken 100000 (1 # 10) (1 # 10) "animal_2")
    as [child [a' [H1 [_ [_ [_ [_ [_ [H2 [H3 _]]]]]]]]]];
    try reflexivity.
  - exists (GAME_CONFIG.mkAnimalDef "chicken" 40 3 75 (35 # 100) (75 # 100)).
    repeat split.
  - exists child, a'. split; [exact H1|]. split; assumption.
Defined.

(** ** Offspring trees *)

(** Induction over an animal and the animals below it. *)
Lemma animal_tree_ind (P : Animal.t -> Prop) :
  (forall a, Forall P (Animal.offspring a) -> P a) -> forall a, P a.
Proof.
  intro step. fix IH 1. intros [i ty pc bp gt bc sr gd st pt ip ho o ba].
  apply step. cbn [Animal.offspring].
  refine ((fix go (l : list Animal.t) : Forall P l :=
             match l with
             | [] => Forall_nil P
             | x :: rest => Forall_cons x (IH x) (go rest)
             end) o).
Qed.

Lemma flatten_length (children : list Animal.t) (acc : list Animal.t) :
  Forall (fun child => Animal.getTotalOffspringCount child
                       = List.length (Animal.getAllOffspring child)) children ->
  fold_left (fun count child => (count + Animal.getTotalOffspringCount child)%nat)
            children (List.length acc)
  = List.length
      (fold_left (fun all child => all ++ Animal.getAllOffspring child)
                 children acc).
Proof.
  intro H. revert acc. induction H as [|child rest Hchild _ IH]; intro acc.
  - reflexivity.
  - cbn [fold_left]. rewrite <- IH, length_app, Hchild. reflexivity.
Qed.

(** X13. getTotalOffspringCount() is the length of
    getAllOffspring(): both walk the whole tree of offspring below an animal,
    and an animal without offspring counts 0. *)
Theorem offspring_count_is_flat_length :
  forall a : Animal.t,
    Animal.getTotalOffspringCount a = List.length (Animal.getAllOffspring a)
    /\ (Animal.offspring a = [] ->
        Animal.getTotalOffspringCount a = 0%nat
        /\ Animal.getAllOffspring a = [])
    /\ (List.length (Animal.offspring a)
        <= Animal.getTotalOffspringCount a)%nat.
Proof.
  intro a.
  assert (Hmain : Animal.getTotalOffspringCount a
                  = List.length (Animal.getAllOffspring a)).
  { induction a as [a IH] using animal_tree_ind.
    destruct a as [i ty pc bp gt bc sr gd st pt ip ho o ba].
    cbn [Animal.offspring] in IH.
    cbn [Animal.getTotalOffspringCount Animal.getAllOffspring].
    apply flatten_length, IH. }
  split; [exact Hmain|]. split.
  - destruct a as [i ty pc bp gt bc sr gd st pt ip ho o ba].
    cbn [Animal.offspring]. intros ->. split; reflexivity.
  - destruct a as [i ty pc bp gt bc sr gd st pt ip ho o ba].
    cbn [Animal.offspring Animal.getTotalOffspringCount]. clear Hmain.
    generalize (List.length o) as n.
    induction o as [|x rest IHo]; intro n; cbn [fold_left]; [lia|].
    specialize (IHo (n + Animal.getTotalOffspringCount x)%nat). lia.
Qed.

Lemma offspring_count_is_flat_length_witness :
  let parent :=
    snd (Animal.attemptBreeding 100000 (1 # 10) (1 # 10) "animal_2"
                                placedChicken) in
  Animal.getTotalOffspringCount parent = 1%nat
  /\ List.length (Animal.getAllOffspring parent) = 1%nat
  /\ Animal.getTotalOffspringCount placedChicken = 0%nat.
Proof.
  intro parent.
  destruct (offspring_count_is_flat_length parent) as [H1 _].
  destruct (offspring_count_is_flat_length placedChicken) as [_ [H2 _]].
  split; [reflexivity|]. split; [rewrite <- H1; reflexivity|].
  apply H2. reflexivity.
Defined.

(** ** Saving and restoring crops and animals *)

Lemma truthyNumber_kept (v : option Z) : v <> Some 0 -> truthyNumber v = v.
Proof. destruct v as [[| |]|]; try reflexivity. congruence. Qed.

Lemma stringOr_kept (text fallback : string) :
  text <> EmptyString -> stringOr (Some text) fallback = text.
Proof. destruct text; [congruence | reflexivity]. Qed.

Lemma Crop_new_matches (c : Crop.t) (newId : string) :
  cropMatchesConfig c ->
  Crop.type c <> EmptyString
  /\ Crop.new (Crop.type c) newId
     = Return (Crop.mk newId (Crop.type c) (Crop.seedCost c)
                       (Crop.baseSellPrice c) (Crop.growthTime c)
                       (Crop.growthDuration c) CONSTANTS.CROP_STATUS.SEED
                       None None).
Proof.
  intros [def [Hfind [Htype [Hcost [Hprice [Htime Hdur]]]]]].
  unfold Crop.getCropDefinition in Hfind. split.
  - rewrite Htype. apply find_some in Hfind. destruct Hfind as [Hin _].
    cbn in Hin. repeat destruct Hin as [<- | Hin]; try discriminate.
    contradiction.
  - unfold Crop.new. rewrite Hfind. congruence.
Qed.

Lemma Animal_new_matches (a : Animal.t) (purchased : bool) (newId : string) :
  animalMatchesConfig a ->
  Animal.type a <> EmptyString
  /\ Animal.new (Animal.type a) purchased newId
     = Return (Animal.mk newId (Animal.type a) (Animal.purchaseCost a)
                         (Animal.baseSellPrice a) (Animal.growthTime a)
                         (Animal.breedingChance a)
                         (Animal.offspringSurvivalRate a)
                         (Animal.growthDuration a)
                         CONSTANTS.ANIMAL_STATUS.YOUNG None purchased false []
                         false).
Proof.
  intros [def [Hfind [Htype [Hcost [Hprice [Htime [Hchance [Hsurv Hdur]]]]]]]].
  unfold Animal.getAnimalDefinition in Hfind. split.
  - rewrite Htype. apply find_some in Hfind. destruct Hfind as [Hin _].
    cbn in Hin. repeat destruct Hin as [<- | Hin]; try discriminate.
    contradiction.
  - unfold Animal.new. rewrite Hfind. congruence.
Qed.

(** X14. Crop.fromJSON(crop.toJSON()) gives the crop back when the
    crop's configuration fields are those of its type, its identifier is not
    empty and neither time stamp is 0.  A plant time of 0 is not restored: the
    crop comes back with its status but without plant time.  A json that is
    not an object, or that has no type, or whose type is not in the
    configuration, throws. *)
Theorem crop_json_round_trip :
  forall (c : Crop.t) (newId : string),
    cropMatchesConfig c ->
    Crop.id c <> EmptyString ->
    Crop.harvestTime c <> Some 0 ->
    (Crop.plantTime c <> Some 0 ->
     Crop.fromJSON (Some (Crop.toJSON c)) newId = Return c)
    /\ (Crop.plantTime c = Some 0 ->
        Crop.fromJSON (Some (Crop.toJSON c)) newId
        = Return (Crop.with_plantTime None c))
    /\ Crop.fromJSON None newId = Throw "Invalid crop JSON data"
    /\ (forall json, Crop.j_type json = None ->
                     Crop.fromJSON (Some json) newId
                     = Throw "Invalid crop JSON data")
    /\ (forall json type,
          Crop.j_type json = Some type ->
          Crop.getCropDefinition type = None ->
          exists e, Crop.fromJSON (Some json) newId = Throw e).
Proof.
  intros c newId Hcfg Hid Hharvest.
  destruct (Crop_new_matches c newId Hcfg) as [Htype Hnew].
  assert (Hshape : Crop.fromJSON (Some (Crop.toJSON c)) newId
                   = Return (Crop.with_plantTime
                               (truthyNumber (Crop.plantTime c)) c)).
  { unfold Crop.fromJSON, Crop.toJSON.
    cbn [Crop.j_type Crop.j_id Crop.j_status Crop.j_plantTime
         Crop.j_harvestTime].
    destruct (Crop.type c) as [|ch rest] eqn:Et; [congruence|].
    rewrite Hnew. cbn [Crop.id Crop.type Crop.seedCost Crop.baseSellPrice
      Crop.growthTime Crop.growthDuration].
    rewrite stringOr_kept by exact Hid.
    rewrite (truthyNumber_kept (Crop.harvestTime c)) by exact Hharvest.
    unfold Crop.with_plantTime. rewrite Et. reflexivity. }
  split; [|split; [|split; [|split]]].
  - intro Hplant. rewrite Hshape, truthyNumber_kept by exact Hplant.
    destruct c. reflexivity.
  - intro Hplant. rewrite Hshape, Hplant. reflexivity.
  - reflexivity.
  - intros json Hnone. unfold Crop.fromJSON. rewrite Hnone. reflexivity.
  - intros json type Hsome Hmissing. unfold Crop.fromJSON. rewrite Hsome.
    destruct type as [|ch rest]; [eexists; reflexivity|].
    unfold Crop.new. unfold Crop.getCropDefinition in Hmissing.
    rewrite Hmissing. eexists. reflexivity.
Qed.

Lemma plantedWheat_matches : cropMatchesConfig plantedWheat.
Proof.
  exists (GAME_CONFIG.mkCropDef "wheat" 10 2 18). repeat split.
Qed.

Lemma crop_json_round_trip_witness :
  Crop.fromJSON (Some (Crop.toJSON plantedWheat)) "crop_9"
  = Return plantedWheat.
Proof.
  destruct (crop_json_round_trip plantedWheat "crop_9") as [H _];
    try discriminate; [exact plantedWheat_matches|].
  apply H. discriminate.
Defined.

(** X15. Animal.fromJSON(animal.toJSON()) gives the animal back
    without its offspring, which are saved as identifiers only, when the
    animal's configuration fields are those of its type, its identifier is
    not empty and its place time is not 0; so an animal without offspring
    comes back as it was. *)
Theorem animal_json_round_trip :
  forall (a : Animal.t) (newId : string),
    animalMatchesConfig a ->
    Animal.id a <> EmptyString ->
    Animal.placeTime a <> Some 0 ->
    Animal.fromJSON (Some (Animal.toJSON a)) newId
    = Return (Animal.with_offspring [] a)
    /\ (Animal.offspring a = [] ->
        Animal.fromJSON (Some (Animal.toJSON a)) newId = Return a)
    /\ Animal.j_offspringIds (Animal.toJSON a)
       = map Animal.id (Animal.offspring a).
Proof.
  intros a newId Hcfg Hid Hplace.
  destruct (Animal_new_matches a (Animal.isPurchased a) newId Hcfg)
    as [Htype Hnew].
  assert (Hshape : Animal.fromJSON (Some (Animal.toJSON a)) newId
                   = Return (Animal.with_offspring [] a)).
  { unfold Animal.fromJSON, Animal.toJSON.
    cbn [Animal.j_type Animal.j_id Animal.j_status Animal.j_placeTime
         Animal.j_isPurchased Animal.j_hasOffspring
         Animal.j_breedingAttempted].
    destruct (Animal.type a) as [|ch rest] eqn:Et; [congruence|].
    replace (match Animal.isPurchased a with
             | true => true
             | false => false
             end) with (Animal.isPurchased a)
      by (destruct (Animal.isPurchased a); reflexivity).
    rewrite Hnew.
    cbn [Animal.id Animal.type Animal.purchaseCost Animal.baseSellPrice
         Animal.growthTime Animal.breedingChance Animal.offspringSurvivalRate
         Animal.growthDuration Animal.isPurchased Animal.offspring].
    rewrite stringOr_kept by exact Hid.
    rewrite truthyNumber_kept by exact Hplace.
    unfold Animal.with_offspring. rewrite Et. reflexivity. }
  split; [exact Hshape|]. split; [|reflexivity].
  intro Hnone. rewrite Hshape. destruct a. cbn in Hnone. subst.
  reflexivity.
Qed.

Lemma placedChicken_matches : animalMatchesConfig placedChicken.
Proof.
  exists (GAME_CONFIG.mkAnimalDef "chicken" 40 3 75 (35 # 100) (75 # 100)).
  repeat split.
Qed.

Lemma animal_json_round_trip_witness :
  Animal.fromJSON (Some (Animal.toJSON placedChicken)) "animal_9"
  = Return placedChicken.
Proof.
  destruct (animal_json_round_trip placedChicken "animal_9") as [_ [H _]];
    try discriminate; [exact placedChicken_matches|].
  apply H. reflexivity.
Defined.

(** ** The Ledger: what every reachable state satisfies *)

Module ReachFacts.
Import GameState.

Ltac fields :=
  cbn -[Z.add Z.sub Z.max Z.of_nat List.length] in *;
  unfold GAME_CONFIG.STARTING_MONEY, GAME_CONFIG.GOAL_MONEY in *.

Ltac break_scrutinee :=
  repeat match goal with
         | |- context [Array.lastElement ?l] => destruct (Array.lastElement l)
         | |- context [match ?x with _ => _ end] => destruct x eqn:?
         end.

(** [_checkMilestones] and [_checkWinCondition] each change one field. *)
Lemma checkMilestones_only (g : t) :
  _checkMilestones g
  = with_milestonesReached (milestonesReached (_checkMilestones g)) g.
Proof.
  unfold _checkMilestones. generalize GAME_CONFIG.MILESTONES as ms.
  intro ms. revert g. induction ms as [|m ms IH]; intro g; cbn [fold_left].
  - destruct g. reflexivity.
  - destruct (existsb (Z.eqb m) (milestonesReached g)); [apply IH|].
    destruct (currentMoney g >=? m); [|apply IH].
    rewrite IH at 1. destruct g. reflexivity.
Qed.

Lemma checkWinCondition_only (g : t) :
  _checkWinCondition g = with_gameStatus (gameStatus (_checkWinCondition g)) g.
Proof.
  unfold _checkWinCondition. destruct (negb _); [destruct g; reflexivity|].
  destruct (_ >=? _); destruct g; reflexivity.
Qed.

(** The Ledger after an accepted credit: balance, earnings and best sale are
    updated, milestones and status are re-examined, nothing else moves. *)
Lemma addMoney_fields (x : Z) (g : t) :
  0 <= x ->
  let g' := snd (addMoney (JNum x) g) in
  g' = with_gameStatus (gameStatus g')
         (with_milestonesReached (milestonesReached g')
            (with_statistics
               (with_bestSingleSale
                  (Z.max x (bestSingleSale (statistics g)))
                  (with_totalMoneyEarned
                     (totalMoneyEarned (statistics g) + x) (statistics g)))
               (with_currentMoney (currentMoney g + x) g))).
Proof.
  intros Hx g'.
  assert (E : exists s ms,
             g' = with_gameStatus s
                    (with_milestonesReached ms
                       (with_statistics
                          (with_bestSingleSale
                             (Z.max x (bestSingleSale (statistics g)))
                             (with_totalMoneyEarned
                                (totalMoneyEarned (statistics g) + x)
                                (statistics g)))
                          (with_currentMoney (currentMoney g + x) g)))).
  { subst g'. unfold addMoney.
    cbn [HELPERS.isValidNumber negb orb jsLtZ].
    destruct (Z.ltb_spec x 0); [lia|]. cbn [snd].
    rewrite checkWinCondition_only, checkMilestones_only.
    eexists. eexists. f_equal. f_equal.
    destruct g as [m d goal st f inv stats ms]. destruct stats.
    cbn. destruct (Z.gtb_spec x bestSingleSale0); cbn.
    - rewrite Z.max_l by lia. reflexivity.
    - rewrite Z.max_r by lia. reflexivity. }
  destruct E as (s & ms & E). rewrite E. destruct g. reflexivity.
Qed.

(** The Ledger after [advanceDay()], also when it threw: day, forecast and
    status are the only fields that may differ. *)
Lemma advanceDay_fields (random : Q) (g : t) :
  let g' := snd (advanceDay random g) in
  g' = with_gameStatus (gameStatus g')
         (with_weatherForecast (weatherForecast g')
            (with_currentDay (currentDay g') g)).
Proof.
  unfold advanceDay, _updateWeatherForecast, _checkLoseCondition, _setGameLost.
  cbv zeta. break_scrutinee; cbn [snd]; destruct g; reflexivity.
Qed.

(** A refused credit or debit leaves the Ledger as it was. *)
Lemma addMoney_refused (amount : JsValue Z) (g : t) :
  fst (addMoney amount g) = false -> snd (addMoney amount g) = g.
Proof.
  unfold addMoney. destruct amount as [x| | | |]; try reflexivity.
  destruct (negb _ || _); [reflexivity | discriminate].
Qed.

Lemma deductMoney_refused (amount : JsValue Z) (g : t) :
  fst (deductMoney amount g) = false -> snd (deductMoney amount g) = g.
Proof.
  unfold deductMoney. destruct amount as [x| | | |]; try reflexivity.
  destruct (negb _ || _); [reflexivity|].
  destruct (_ <? _); [reflexivity | discriminate].
Qed.

Lemma findIndex_some {A : Type} (p : A -> bool) (arr : list A) (i : nat) (x : A) :
  Array.findIndex p arr = Some (i, x) ->
  nth_error arr i = Some x /\ p x = true /\ (i < List.length arr)%nat.
Proof.
  revert i. induction arr as [|y rest IH]; intro i; cbn [Array.findIndex];
    [discriminate|].
  destruct (p y) eqn:Ep.
  - intro H. injection H as <- <-. cbn. repeat split; [exact Ep | lia].
  - destruct (Array.findIndex p rest) as [[j z]|]; [|discriminate].
    intro H. injection H as <- <-.
    destruct (IH j eq_refl) as [H1 [H2 H3]]. cbn. repeat split; try assumption.
    lia.
Qed.

Lemma splice1_length {A : Type} (i : nat) (arr : list A) :
  (i < List.length arr)%nat ->
  List.length (Array.splice1 i arr) = (List.length arr - 1)%nat.
Proof.
  intro H. unfold Array.splice1.
  rewrite length_app, length_firstn, length_skipn. lia.
Qed.


(** The fields of the Ledger after an accepted debit. *)
Lemma deductMoney_fields (x : Z) (g : t) :
  fst (deductMoney (JNum x) g) = true ->
  let g' := snd (deductMoney (JNum x) g) in
  0 <= x <= currentMoney g
  /\ g' = with_statistics
            (with_totalMoneySpent (totalMoneySpent (statistics g) + x)
                                  (statistics g))
            (with_currentMoney (currentMoney g - x) g).
Proof.
  unfold deductMoney. cbn [HELPERS.isValidNumber negb orb jsLtZ].
  destruct (Z.ltb_spec x 0); [discriminate|].
  destruct (Z.ltb_spec (currentMoney g) x); [discriminate|].
  intros _. cbn [snd]. split; [lia|]. destruct g. reflexivity.
Qed.

(** Every call other than [addMoney()] and [deductMoney()] leaves balance,
    goal, money statistics and milestones as they were. *)
Lemma call_money_frame (call : LedgerCall) (g : t) :
  (forall amount, call <> CallAddMoney amount) ->
  (forall amount, call <> CallDeductMoney amount) ->
  let g' := runLedgerCall call g in
  currentMoney g' = currentMoney g
  /\ goalMoney g' = goalMoney g
  /\ totalMoneyEarned (statistics g') = totalMoneyEarned (statistics g)
  /\ totalMoneySpent (statistics g') = totalMoneySpent (statistics g)
  /\ bestSingleSale (statistics g') = bestSingleSale (statistics g)
  /\ milestonesReached g' = milestonesReached g.
Proof.
  intros Ha Hd.
  destruct call; try (exfalso; eapply Ha; reflexivity);
    try (exfalso; eapply Hd; reflexivity);
    unfold runLedgerCall, advanceDay, _updateWeatherForecast,
      _checkLoseCondition, _setGameLost, addSeed, plantCrop, harvestCrop,
      sellCrop, addYoungAnimal, placeAnimal, sellAnimal, addOffspringToFarm;
    cbv zeta; break_scrutinee; cbn [snd];
    destruct g as [m d goal st f inv stats ms]; destruct stats;
    repeat split; reflexivity.
Qed.


Lemma addMoney_negative (x : Z) (g : t) :
  x < 0 -> addMoney (JNum x) g = (false, g).
Proof.
  intro H. unfold addMoney. cbn [HELPERS.isValidNumber negb orb jsLtZ].
  destruct (Z.ltb_spec x 0); [reflexivity | lia].
Qed.

Lemma call_books (call : LedgerCall) (g : t) :
  booksBalance g -> booksBalance (runLedgerCall call g).
Proof.
  unfold booksBalance. intros (Hm & Hpos & Hs & Hb & Hg).
  destruct call as [amount|amount| | | | | | | | |].
  3-11: match goal with
       | |- context [runLedgerCall ?c ?g0] =>
           destruct (call_money_frame c g0) as (E1 & E2 & E3 & E4 & E5 & _);
           try discriminate; rewrite E1, E2, E3, E4, E5
       end; repeat split; assumption || lia.
  - cbn [runLedgerCall].
    destruct amount as [x| | | |];
      try (cbn [addMoney snd]; repeat split; assumption || lia).
    destruct (Z.lt_ge_cases x 0) as [Hx|Hx].
    + rewrite addMoney_negative by exact Hx. cbn [snd].
      repeat split; assumption || lia.
    + rewrite (addMoney_fields x g Hx).
      generalize (gameStatus (snd (addMoney (JNum x) g))) as s'.
      generalize (milestonesReached (snd (addMoney (JNum x) g))) as ms'.
      intros ms' s'.
      destruct g as [m d goal st f inv stats ms]; destruct stats.
      fields. repeat split; lia.
  - cbn [runLedgerCall].
    destruct (fst (deductMoney amount g)) eqn:E.
    + destruct amount as [x| | | |]; try discriminate.
      destruct (deductMoney_fields x g E) as [Hx ->].
      destruct g as [m d goal st f inv stats ms]; destruct stats.
      fields. repeat split; lia.
    + rewrite deductMoney_refused by exact E. repeat split; assumption || lia.
Qed.

(** An invariant of every call that holds of a new game holds of every
    reachable state. *)
Lemma reachable_ind (P : t -> Prop) :
  (forall random, P (new random)) ->
  (forall call g, P g -> P (runLedgerCall call g)) ->
  forall calls random, P (runLedgerCalls calls (new random)).
Proof.
  intros Hnew Hstep calls random. unfold runLedgerCalls.
  generalize (Hnew random). generalize (new random) as g.
  induction calls as [|call calls IH]; intros g H; [exact H|].
  cbn [fold_left]. apply IH, Hstep, H.
Qed.

End ReachFacts.

Module StockFacts.
Import GameState.
Import ReachFacts.

Ltac lengths :=
  unfold Array.push in *;
  repeat match goal with
         | H : Array.findIndex _ _ = Some _ |- _ =>
             apply findIndex_some in H; destruct H as (_ & _ & H)
         end;
  rewrite ?splice1_length by (rewrite ?setAt_length; assumption);
  rewrite ?length_app, ?setAt_length in *; cbn [List.length] in *;
  try lia.

Ltac open_ledger g :=
  destruct g as [m d goal st f inv stats ms]; destruct stats; destruct inv;
  fields.

Lemma call_stock (call : LedgerCall) (g : t) :
  stockBalance g -> stockBalance (runLedgerCall call g).
Proof.
  unfold stockBalance, cropsHeld, animalsHeld. intros (Hc & Ha & Hb).
  destruct call as [amount|amount| | | | | | | | |]; cbn [runLedgerCall].
  - destruct amount as [x| | | |]; try (cbn [addMoney snd]; tauto).
    destruct (Z.lt_ge_cases x 0) as [Hx|Hx].
    + rewrite addMoney_negative by exact Hx. cbn [snd]. tauto.
    + rewrite (addMoney_fields x g Hx).
      generalize (gameStatus (snd (addMoney (JNum x) g))) as s'.
      generalize (milestonesReached (snd (addMoney (JNum x) g))) as ms'.
      intros ms' s'. open_ledger g. tauto.
  - destruct (fst (deductMoney amount g)) eqn:E.
    + destruct amount as [x| | | |]; try discriminate.
      destruct (deductMoney_fields x g E) as [Hx ->].
      open_ledger g. tauto.
    + rewrite deductMoney_refused by exact E. tauto.
  - rewrite (advanceDay_fields random g).
    generalize (gameStatus (snd (advanceDay random g))) as s'.
    generalize (weatherForecast (snd (advanceDay random g))) as f'.
    generalize (currentDay (snd (advanceDay random g))) as d'.
    intros d' f' s'. open_ledger g. tauto.
  - unfold addSeed. open_ledger g. repeat split; lengths.
  - unfold plantCrop.
    destruct (Array.findIndex _ _) as [[i c]|] eqn:E; cbn [snd]; [|tauto].
    open_ledger g. repeat split; lengths.
  - unfold harvestCrop.
    destruct (Array.findIndex _ _) as [[i c]|] eqn:E; cbn [snd]; [|tauto].
    destruct (Crop.isMature now c) as [[] c']; cbn [negb snd];
      open_ledger g; repeat split; lengths.
  - unfold sellCrop.
    destruct (Array.findIndex _ _) as [[i c]|] eqn:E; cbn [snd]; [|tauto].
    open_ledger g. repeat split; lengths.
  - unfold addYoungAnimal. open_ledger g. repeat split; lengths.
  - unfold placeAnimal.
    destruct (Array.findIndex _ _) as [[i c]|] eqn:E; cbn [snd]; [|tauto].
    open_ledger g. repeat split; lengths.
  - unfold sellAnimal.
    destruct (Array.findIndex _ _) as [[i c]|] eqn:E; cbn [snd]; [|tauto].
    destruct (Animal.isMature now c) as [[] c']; cbn [negb snd];
      open_ledger g; repeat split; lengths.
  - unfold addOffspringToFarm. open_ledger g. repeat split; lengths.
Qed.
End StockFacts.

Module MilestoneFacts.
Import GameState.
Import ReachFacts.

(** [_checkMilestones] over any table: the balance is not touched, recorded
    amounts stay recorded, every amount of the table at or under the balance
    ends up recorded, and nothing else is added. *)
Lemma checkMilestones_fold (table : list Z) (g : t) :
  let g' := fold_left
              (fun g amount =>
                 if existsb (Z.eqb amount) (milestonesReached g) then g
                 else if currentMoney g >=? amount
                      then _reachMilestone amount g
                      else g)
              table g in
  currentMoney g' = currentMoney g
  /\ (forall m, In m (milestonesReached g) -> In m (milestonesReached g'))
  /\ (forall m, In m table -> m <= currentMoney g ->
                In m (milestonesReached g'))
  /\ (forall m, In m (milestonesReached g') ->
                In m (milestonesReached g)
                \/ (In m table /\ m <= currentMoney g)).
Proof.
  revert g. induction table as [|a table IH]; intro g; cbn [fold_left].
  - repeat split; auto. intros m [].
  - set (g1 := if existsb (Z.eqb a) (milestonesReached g) then g
               else if currentMoney g >=? a then _reachMilestone a g else g).
    assert (H1 : currentMoney g1 = currentMoney g
                 /\ (forall m, In m (milestonesReached g) ->
                               In m (milestonesReached g1))
                 /\ (a <= currentMoney g -> In a (milestonesReached g1))
                 /\ (forall m, In m (milestonesReached g1) ->
                               In m (milestonesReached g)
                               \/ (m = a /\ m <= currentMoney g))).
    { subst g1. destruct (existsb _ _) eqn:Ex.
      - repeat split; auto.
        apply existsb_exists in Ex. destruct Ex as (y & Hy & Hya).
        apply Z.eqb_eq in Hya. subst y. intros _. exact Hy.
      - destruct (Z.geb_spec (currentMoney g) a).
        + destruct g as [m0 d goal st f inv stats ms].
          unfold _reachMilestone, Array.push. cbn. repeat split.
          * intros m Hm. apply in_or_app. left. exact Hm.
          * intros _. apply in_or_app. right. left. reflexivity.
          * intros m Hm. apply in_app_or in Hm. destruct Hm as [Hm|[<-|[]]].
            -- left. exact Hm.
            -- right. cbn in *. split; [reflexivity | lia].
        + repeat split; auto. lia. }
    destruct H1 as (M1 & K1 & A1 & C1).
    destruct (IH g1) as (M2 & K2 & A2 & C2). rewrite M1 in *.
    split; [exact M2|]. split; [auto|]. split.
    + intros m [<-|Hm] Hle; [apply K2, A1, Hle | apply A2; assumption].
    + intros m Hm. destruct (C2 m Hm) as [H|[H Hle]].
      * destruct (C1 m H) as [H'|[-> Hle]]; [left; exact H'|].
        right. split; [left; reflexivity | exact Hle].
      * right. split; [right; exact H | exact Hle].
Qed.

(** With the configured table, which is ascending, what is recorded stays a
    prefix of the table. *)
Lemma checkMilestones_prefix (g : t) (k : nat) :
  milestonesReached g = firstn k GAME_CONFIG.MILESTONES ->
  exists k', milestonesReached (_checkMilestones g)
             = firstn k' GAME_CONFIG.MILESTONES.
Proof.
  intro H. destruct g as [m d goal st f inv stats ms]. cbn in H. subst ms.
  unfold _checkMilestones, GAME_CONFIG.MILESTONES, _reachMilestone, Array.push.
  destruct k as [|[|[|[|[|k]]]]]; cbn -[Z.geb]; rewrite ?firstn_nil;
    repeat (match goal with
            | |- context [?a >=? ?b] => destruct (Z.geb_spec a b)
            end; try lia; cbn -[Z.geb]).
  all: first [ now (exists 0%nat) | now (exists 1%nat) | now (exists 2%nat)
             | now (exists 3%nat) | now (exists 4%nat) | now (exists 5%nat) ].
Qed.


(** What an accepted credit does to balance, earnings and milestones. *)
Lemma addMoney_milestones (x : Z) (g : t) :
  0 <= x ->
  let g' := snd (addMoney (JNum x) g) in
  currentMoney g' = currentMoney g + x
  /\ totalMoneyEarned (statistics g')
     = totalMoneyEarned (statistics g) + x
  /\ exists g0, currentMoney g0 = currentMoney g + x
                /\ milestonesReached g0 = milestonesReached g
                /\ milestonesReached g' = milestonesReached (_checkMilestones g0).
Proof.
  intros Hx g'. split; [|split].
  - subst g'. rewrite (addMoney_fields x g Hx). destruct g. reflexivity.
  - subst g'. rewrite (addMoney_fields x g Hx).
    destruct g as [m d goal st f inv stats ms]. destruct stats. reflexivity.
  - subst g'. unfold addMoney. cbn [HELPERS.isValidNumber negb orb jsLtZ].
    destruct (Z.ltb_spec x 0); [lia|]. cbn [snd]. cbv zeta.
    match goal with
    | |- context [_checkWinCondition (_checkMilestones ?h)] => exists h
    end.
    split; [|split].
    + destruct g as [m d goal st f inv stats ms]. destruct stats.
      cbn -[Z.add Z.gtb]. destruct (_ >? _); reflexivity.
    + destruct g as [m d goal st f inv stats ms]. destruct stats.
      cbn -[Z.add Z.gtb]. destruct (_ >? _); reflexivity.
    + rewrite checkWinCondition_only. destruct (_checkMilestones _).
      reflexivity.
Qed.

Lemma call_milestones (call : LedgerCall) (g : t) :
  booksBalance g /\ milestonesInOrder g ->
  booksBalance (runLedgerCall call g)
  /\ milestonesInOrder (runLedgerCall call g).
Proof.
  intros [Hb Hm]. split; [apply call_books, Hb|].
  destruct Hb as (Bm & Bpos & Bs & Bb & Bg).
  destruct Hm as ([k Hk] & Hin & Hle).
  unfold milestonesInOrder.
  destruct call as [amount|amount| | | | | | | | |].
  3-11: match goal with
       | |- context [runLedgerCall ?c ?g0] =>
           destruct (call_money_frame c g0) as (E1 & _ & E3 & _ & _ & E6);
           try discriminate; rewrite E1, E3, E6
       end; (split; [exists k; exact Hk | split; assumption]).
  - cbn [runLedgerCall].
    destruct amount as [x| | | |];
      try (cbn [addMoney snd]; split; [exists k; exact Hk | split; assumption]).
    destruct (Z.lt_ge_cases x 0) as [Hx|Hx].
    + rewrite addMoney_negative by exact Hx. cbn [snd].
      split; [exists k; exact Hk | split; assumption].
    + destruct (addMoney_milestones x g Hx) as (E1 & E2 & g0 & M0 & K0 & E3).
      rewrite E1, E2, E3.
      destruct (checkMilestones_fold GAME_CONFIG.MILESTONES g0)
        as (_ & _ & A & C).
      fold (_checkMilestones g0) in A, C. rewrite M0 in A, C. rewrite K0 in C.
      split; [|split].
      * apply (checkMilestones_prefix g0 k). rewrite K0. exact Hk.
      * exact A.
      * intros m Hm. destruct (C m Hm) as [H|[_ H]]; [apply Hle in H|]; lia.
  - cbn [runLedgerCall].
    destruct (fst (deductMoney amount g)) eqn:E.
    + destruct amount as [x| | | |]; try discriminate.
      destruct (deductMoney_fields x g E) as [Hx ->].
      destruct g as [m d goal st f inv stats ms]; destruct stats.
      fields. split; [exists k; exact Hk|]. split; [|exact Hle].
      intros m' Hm' Hle'. apply Hin; [exact Hm' | lia].
    + rewrite deductMoney_refused by exact E.
      split; [exists k; exact Hk | split; assumption].
Qed.

End MilestoneFacts.

Module CalendarFacts.
Import GameState.
Import ReachFacts.

Lemma filter_map_days (p : JsValue Z -> bool) (f : list Weather.t) :
  map Weather.day (filter (fun w => p (Weather.day w)) f)
  = filter p (map Weather.day f).
Proof.
  induction f as [|w f IH]; [reflexivity|]. cbn [filter map].
  destruct (p (Weather.day w)); cbn [map]; now rewrite IH.
Qed.

Lemma lastElement_map {A B : Type} (h : A -> B) (l : list A) :
  Array.lastElement (map h l) = option_map h (Array.lastElement l).
Proof.
  induction l as [|x [|y l] IH]; [reflexivity | reflexivity |].
  exact IH.
Qed.

(** The days of the forecast after [_updateWeatherForecast()], on days alone. *)
Lemma updateWeatherForecast_days (random : Q) (g : t) :
  let run := _updateWeatherForecast random g in
  match stepDays (currentDay g) (map Weather.day (weatherForecast g)) with
  | Some days => fst run = Return tt
                 /\ map Weather.day (weatherForecast (snd run)) = days
  | None => fst run <> Return tt /\ weatherForecast (snd run) = []
  end
  /\ snd run = with_weatherForecast (weatherForecast (snd run)) g.
Proof.
  unfold _updateWeatherForecast, stepDays. cbv zeta.
  destruct g as [m d goal st f inv stats ms].
  cbn [weatherForecast with_weatherForecast currentDay].
  rewrite <- (filter_map_days (fun x => jsGeZ x d)), lastElement_map.
  destruct (Array.lastElement (filter _ f)) as [lastWeather|] eqn:E;
    cbn [option_map fst snd weatherForecast with_weatherForecast].
  - split; [|reflexivity]. split; [reflexivity|].
    unfold Array.push. rewrite map_app. reflexivity.
  - split; [|reflexivity]. split; [discriminate|].
    destruct (filter _ f) as [|w l]; [reflexivity|].
    exfalso. clear -E. revert w E.
    induction l as [|y l IH]; intros w E; [discriminate|]. exact (IH y E).
Qed.

(** One step of the window: up to day 9 the next window follows, from day
    10 on nothing is left to extend. *)
Lemma stepDays_window (d : Z) :
  1 <= d ->
  stepDays (d + 1) (windowDays d)
  = if d <? 10 then Some (windowDays (d + 1)) else None.
Proof.
  intro H. destruct (Z.ltb_spec d 10) as [Hd|Hd].
  - assert (C : d = 1 \/ d = 2 \/ d = 3 \/ d = 4 \/ d = 5 \/ d = 6 \/ d = 7
                \/ d = 8 \/ d = 9) by lia.
    repeat (destruct C as [->|C]; [reflexivity|]). subst d. reflexivity.
  - destruct (Z.eq_dec d 10) as [->|Hne]; [reflexivity|].
    unfold windowDays.
    destruct (Z.leb_spec d 4); [lia|]. destruct (Z.leb_spec d 10); [lia|].
    reflexivity.
Qed.

Lemma windowDays_late (d : Z) : 10 < d -> windowDays d = [].
Proof.
  intro H. unfold windowDays.
  destruct (Z.leb_spec d 4); [lia|]. destruct (Z.leb_spec d 10); [lia|].
  reflexivity.
Qed.

Lemma windowDays_head (d : Z) :
  1 <= d <= 10 -> exists rest, windowDays d = JNum d :: rest.
Proof.
  intro H.
  assert (C : d = 1 \/ d = 2 \/ d = 3 \/ d = 4 \/ d = 5 \/ d = 6 \/ d = 7
              \/ d = 8 \/ d = 9 \/ d = 10) by lia.
  repeat (destruct C as [->|C]; [eexists; reflexivity|]).
  subst d. eexists; reflexivity.
Qed.

Lemma advanceDay_window (random : Q) (g : t) :
  forecastInStep g -> forecastInStep (snd (advanceDay random g)).
Proof.
  intros (Hd & Hf & Hs). unfold advanceDay.
  destruct (gameStatus_eqb (gameStatus g) CONSTANTS.PLAYING) eqn:Est;
    cbn [negb]; [|cbn [snd]; repeat split; assumption].
  cbv zeta.
  pose proof (updateWeatherForecast_days random
                (with_currentDay (currentDay g + 1) g)) as [U Uonly].
  cbv zeta in U, Uonly.
  replace (currentDay (with_currentDay (currentDay g + 1) g))
    with (currentDay g + 1) in U by (destruct g; reflexivity).
  replace (weatherForecast (with_currentDay (currentDay g + 1) g))
    with (weatherForecast g) in U by (destruct g; reflexivity).
  rewrite Hf, (stepDays_window _ Hd) in U.
  destruct (_updateWeatherForecast random _) as [c g1].
  cbn [fst snd] in U, Uonly.
  destruct (Z.ltb_spec (currentDay g) 10) as [Hlt|Hge].
  - destruct U as [-> U]. cbn [snd].
    unfold _checkLoseCondition, _setGameLost.
    assert (Hday : currentDay g1 = currentDay g + 1)
      by (rewrite Uonly; destruct g; reflexivity).
    assert (Hst : gameStatus g1 = gameStatus g)
      by (rewrite Uonly; destruct g; reflexivity).
    destruct (negb _); [unfold forecastInStep; rewrite Hday, Hst;
                        repeat split; [lia | exact U | exact Hs]|].
    destruct (Z.gtb_spec (currentDay g1) GAME_CONFIG.TOTAL_DAYS) as [Hgt|Hle];
      [unfold GAME_CONFIG.TOTAL_DAYS in Hgt; lia|].
    cbn [andb]. unfold forecastInStep. rewrite Hday, Hst.
    repeat split; [lia | exact U | exact Hs].
  - destruct U as [Hc U]. destruct c as [[]|e]; [contradiction|]. cbn [snd].
    assert (Hday : currentDay g1 = currentDay g + 1)
      by (rewrite Uonly; destruct g; reflexivity).
    assert (Hst : gameStatus g1 = gameStatus g)
      by (rewrite Uonly; destruct g; reflexivity).
    unfold forecastInStep. rewrite Hday, Hst, U, windowDays_late by lia.
    repeat split; [lia | exact Hs].
Qed.


(** No call but [advanceDay()] touches day or forecast, and none of them can
    set a status other than WON. *)
Lemma call_calendar_frame (call : LedgerCall) (g : t) :
  (forall random, call <> CallAdvanceDay random) ->
  let g' := runLedgerCall call g in
  currentDay g' = currentDay g
  /\ weatherForecast g' = weatherForecast g
  /\ (gameStatus g' = gameStatus g \/ gameStatus g' = CONSTANTS.WON).
Proof.
  intros Hd.
  destruct call as [amount|amount| | | | | | | | |];
    try (exfalso; eapply Hd; reflexivity).
  - cbn [runLedgerCall].
    destruct amount as [x| | | |]; try (cbn [addMoney snd]; tauto).
    destruct (Z.lt_ge_cases x 0) as [Hx|Hx].
    + rewrite addMoney_negative by exact Hx. cbn [snd]. tauto.
    + unfold addMoney. cbn [HELPERS.isValidNumber negb orb jsLtZ].
      destruct (Z.ltb_spec x 0); [lia|]. cbn [snd]. cbv zeta.
      unfold _checkWinCondition, _setGameWon.
      rewrite checkMilestones_only.
      match goal with
      | |- context [milestonesReached (_checkMilestones ?h)] =>
          generalize (milestonesReached (_checkMilestones h)) as ms'
      end.
      intro ms'. destruct g as [m d goal st f inv stats ms]; destruct stats.
      cbn -[Z.add Z.gtb Z.geb]. destruct (_ >? _); cbn -[Z.add Z.geb];
        destruct (negb _); cbn -[Z.add Z.geb]; try tauto;
        destruct (_ >=? _); cbn; tauto.
  - cbn [runLedgerCall]. unfold deductMoney.
    break_scrutinee; cbn [snd]; destruct g as [m d goal st f inv stats ms];
      destruct stats; cbn; tauto.
  - unfold runLedgerCall, addSeed. destruct g as [m d goal st f inv stats ms];
      destruct stats; cbn; tauto.
  - unfold runLedgerCall, plantCrop. break_scrutinee; cbn [snd];
      destruct g as [m d goal st f inv stats ms]; cbn; tauto.
  - unfold runLedgerCall, harvestCrop. break_scrutinee; cbn [snd];
      destruct g as [m d goal st f inv stats ms]; cbn; tauto.
  - unfold runLedgerCall, sellCrop. break_scrutinee; cbn [snd];
      destruct g as [m d goal st f inv stats ms]; destruct stats; cbn; tauto.
  - unfold runLedgerCall, addYoungAnimal.
    destruct g as [m d goal st f inv stats ms]; destruct stats; cbn; tauto.
  - unfold runLedgerCall, placeAnimal. break_scrutinee; cbn [snd];
      destruct g as [m d goal st f inv stats ms]; cbn; tauto.
  - unfold runLedgerCall, sellAnimal. break_scrutinee; cbn [snd];
      destruct g as [m d goal st f inv stats ms]; destruct stats; cbn; tauto.
  - unfold runLedgerCall, addOffspringToFarm.
    destruct g as [m d goal st f inv stats ms]; destruct stats; cbn; tauto.
Qed.

Lemma call_forecast (call : LedgerCall) (g : t) :
  forecastInStep g -> forecastInStep (runLedgerCall call g).
Proof.
  intro H. destruct call as [| |random| | | | | | | |];
    try (destruct H as (Hd & Hf & Hs);
         match goal with
         | |- forecastInStep (runLedgerCall ?c g) =>
             destruct (call_calendar_frame c g) as (E1 & E2 & [E3|E3]);
             [discriminate | |];
             unfold forecastInStep; rewrite E1, E2, E3;
             repeat split; try assumption; discriminate
         end).
  apply advanceDay_window, H.
Qed.

Lemma new_forecast (random : nat -> Q) : forecastInStep (new random).
Proof.
  unfold forecastInStep, new. cbn [currentDay weatherForecast gameStatus].
  split; [lia|]. split; [|discriminate].
  unfold Weather.generateForecast, GAME_CONFIG.WEATHER_FORECAST_DAYS.
  cbn [Z.ltb Z.compare Pos.compare Pos.compare_cont].
  rewrite forecastLoop_days by lia. reflexivity.
Qed.

End CalendarFacts.

Lemma new_books (random : nat -> Q) : booksBalance (GameState.new random).
Proof. unfold booksBalance. cbn. repeat split; lia || discriminate. Qed.

Lemma new_stock (random : nat -> Q) : stockBalance (GameState.new random).
Proof. unfold stockBalance. repeat split. Qed.

Lemma new_milestones (random : nat -> Q) :
  milestonesInOrder (GameState.new random).
Proof.
  unfold milestonesInOrder. cbn [GameState.new GameState.milestonesReached
    GameState.currentMoney]. split; [exists 0%nat; reflexivity|].
  split; [|intros m []].
  unfold GAME_CONFIG.MILESTONES, GAME_CONFIG.STARTING_MONEY.
  intros m Hm Hle. cbn [In] in Hm. lia.
Qed.


(** X17. After any calls following the constructor, the crops held
    (seeds, planted and harvested) number totalCropsPurchased minus
    totalCropsSold, the animals held (young and on the farm) number
    totalAnimalsPurchased plus totalOffspringBorn minus totalAnimalsSold, and
    successfulBreedings equals totalOffspringBorn: planting, harvesting and
    placing move an item between lists and never lose or duplicate one. *)
Theorem reachable_stock_balance :
  forall (calls : list LedgerCall) (random : nat -> Q),
    let g := runLedgerCalls calls (GameState.new random) in
    cropsHeld g
    = GameState.totalCropsPurchased (GameState.statistics g)
      - GameState.totalCropsSold (GameState.statistics g)
    /\ animalsHeld g
       = GameState.totalAnimalsPurchased (GameState.statistics g)
         + GameState.totalOffspringBorn (GameState.statistics g)
         - GameState.totalAnimalsSold (GameState.statistics g)
    /\ GameState.successfulBreedings (GameState.statistics g)
       = GameState.totalOffspringBorn (GameState.statistics g).
Proof.
  intros calls random.
  exact (ReachFacts.reachable_ind stockBalance new_stock
           StockFacts.call_stock calls random).
Qed.

(** X18. After any calls following the constructor,
    milestonesReached is a prefix of the configured MILESTONES (so in table
    order and without repetition), contains every milestone at or under the
    current balance, and contains none above the starting money plus
    totalMoneyEarned. *)
Theorem reachable_milestones_in_order :
  forall (calls : list LedgerCall) (random : nat -> Q),
    let g := runLedgerCalls calls (GameState.new random) in
    (exists k, GameState.milestonesReached g
               = firstn k GAME_CONFIG.MILESTONES)
    /\ (forall m, In m GAME_CONFIG.MILESTONES ->
                  m <= GameState.currentMoney g ->
                  In m (GameState.milestonesReached g))
    /\ (forall m, In m (GameState.milestonesReached g) ->
                  m <= GAME_CONFIG.STARTING_MONEY
                       + GameState.totalMoneyEarned (GameState.statistics g)).
Proof.
  intros calls random.
  exact (proj2 (ReachFacts.reachable_ind
                  (fun g => booksBalance g /\ milestonesInOrder g)
                  (fun r => conj (new_books r) (new_milestones r))
                  MilestoneFacts.call_milestones calls random)).
Qed.

(** X19. After any calls following the constructor, the days
    stored in weatherForecast are determined by currentDay alone: the seven
    days from currentDay up to day 4; from day 5 to day 10 the days
    currentDay..10 followed by one entry stored as day 1; nothing after day
    10.  Hence getCurrentWeather() is null exactly after day 10, and the
    status is never LOST: the advanceDay() that leaves day 10 throws before
    the lose condition is examined. *)
Theorem reachable_forecast_window :
  forall (calls : list LedgerCall) (random : nat -> Q),
    let g := runLedgerCalls calls (GameState.new random) in
    1 <= GameState.currentDay g
    /\ map Weather.day (GameState.weatherForecast g)
       = windowDays (GameState.currentDay g)
    /\ (GameState.getCurrentWeather g = None
        <-> GAME_CONFIG.TOTAL_DAYS < GameState.currentDay g)
    /\ GameState.gameStatus g <> CONSTANTS.LOST.
Proof.
  intros calls random g.
  destruct (ReachFacts.reachable_ind forecastInStep CalendarFacts.new_forecast
              CalendarFacts.call_forecast calls random) as (Hd & Hf & Hs).
  fold g in Hd, Hf, Hs. split; [exact Hd|]. split; [exact Hf|].
  split; [|exact Hs].
  unfold GameState.getCurrentWeather, GAME_CONFIG.TOTAL_DAYS.
  destruct (Z.le_gt_cases (GameState.currentDay g) 10) as [Hle|Hgt].
  - destruct (CalendarFacts.windowDays_head (GameState.currentDay g))
      as [rest Hw]; [lia|].
    rewrite Hw in Hf.
    destruct (GameState.weatherForecast g) as [|w f]; [discriminate|].
    cbn [map] in Hf. injection Hf as Hday _.
    cbn [find]. rewrite Hday. cbn [jsEqZ]. rewrite Z.eqb_refl.
    split; [discriminate | lia].
  - rewrite CalendarFacts.windowDays_late in Hf by lia.
    destruct (GameState.weatherForecast g); [|discriminate].
    split; [intros _; lia | reflexivity].
Qed.

(** X20. An accepted addMoney(x) on a Playing Ledger sets the
    status to WON exactly when the new balance reaches goalMoney, and leaves
    it PLAYING otherwise; on a Ledger that is not Playing it credits the
    money and leaves the status as it is. *)
Theorem addMoney_detects_the_win :
  forall (g : GameState.t) (x : Z),
    0 <= x ->
    let '(credited, g') := GameState.addMoney (JNum x) g in
    credited = true
    /\ GameState.currentMoney g' = GameState.currentMoney g + x
    /\ GameState.gameStatus g'
       = match GameState.gameStatus g with
         | CONSTANTS.PLAYING =>
             if GameState.currentMoney g + x >=? GameState.goalMoney g
             then CONSTANTS.WON else CONSTANTS.PLAYING
         | other => other
         end.
Proof.
  intros g x Hx.
  destruct (LedgerFacts.addMoney_valid x g Hx) as [Hc Hm].
  pose proof (ReachFacts.addMoney_fields x g Hx) as Hf. cbv zeta in Hf.
  assert (Hs : GameState.gameStatus (snd (GameState.addMoney (JNum x) g))
               = match GameState.gameStatus g with
                 | CONSTANTS.PLAYING =>
                     if GameState.currentMoney g + x >=? GameState.goalMoney g
                     then CONSTANTS.WON else CONSTANTS.PLAYING
                 | other => other
                 end).
  { clear Hc Hm Hf. unfold GameState.addMoney.
    cbn [HELPERS.isValidNumber negb orb jsLtZ].
    destruct (Z.ltb_spec x 0); [lia|]. cbn [snd]. cbv zeta.
    unfold GameState._checkWinCondition, GameState._setGameWon.
    rewrite ReachFacts.checkMilestones_only.
    match goal with
    | |- context [GameState.milestonesReached (GameState._checkMilestones ?h)] =>
        generalize (GameState.milestonesReached (GameState._checkMilestones h))
          as ms'
    end.
    intro ms'. destruct g as [m d goal st f inv stats ms]; destruct stats.
    cbn -[Z.add Z.gtb Z.geb].
    destruct (_ >? _); cbn -[Z.add Z.geb]; destruct st; cbn -[Z.add Z.geb];
      try reflexivity; destruct (_ >=? _); reflexivity. }
  destruct (GameState.addMoney (JNum x) g) as [credited g'].
  cbn [fst snd] in *. split; [exact Hc|]. split; [lia | exact Hs].
Qed.

Lemma addMoney_detects_the_win_witness :
  let g := GameState.new (fun _ => (1 # 2)%Q) in
  GameState.gameStatus (snd (GameState.addMoney (JNum 4950) g)) = CONSTANTS.WON
  /\ GameState.gameStatus (snd (GameState.addMoney (JNum 4949) g))
     = CONSTANTS.PLAYING.
Proof.
  intro g.
  pose proof (addMoney_detects_the_win g 4950 ltac:(lia)) as H1.
  pose proof (addMoney_detects_the_win g 4949 ltac:(lia)) as H2.
  destruct (GameState.addMoney (JNum 4950) g) as [c1 g1].
  destruct (GameState.addMoney (JNum 4949) g) as [c2 g2].
  split; [exact (proj2 (proj2 H1)) | exact (proj2 (proj2 H2))].
Defined.

(** ** The shops: purchases *)

Module ShopFacts.
Import GameState.

Lemma getCropDefinition_found (cropType : string) (cropDef : GAME_CONFIG.CropDef) :
  Crop.getCropDefinition cropType = Some cropDef ->
  In cropDef GAME_CONFIG.CROPS /\ GAME_CONFIG.crop_id cropDef = cropType.
Proof.
  unfold Crop.getCropDefinition. intro H.
  destruct (find_some _ _ H) as [Hin Heq].
  split; [exact Hin|]. apply String.eqb_eq, Heq.
Qed.

Lemma getAnimalDefinition_found (animalType : string)
      (animalDef : GAME_CONFIG.AnimalDef) :
  Animal.getAnimalDefinition animalType = Some animalDef ->
  In animalDef GAME_CONFIG.ANIMALS
  /\ GAME_CONFIG.animal_id animalDef = animalType.
Proof.
  unfold Animal.getAnimalDefinition. intro H.
  destruct (find_some _ _ H) as [Hin Heq].
  split; [exact Hin|]. apply String.eqb_eq, Heq.
Qed.

(** The configured prices are positive. *)
Lemma crop_prices_positive (cropDef : GAME_CONFIG.CropDef) :
  In cropDef GAME_CONFIG.CROPS ->
  0 < GAME_CONFIG.seedCost cropDef
  /\ 0 < GAME_CONFIG.crop_baseSellPrice cropDef.
Proof.
  unfold GAME_CONFIG.CROPS. cbn [In]. intro H.
  repeat destruct H as [<-|H]; try contradiction; cbn; lia.
Qed.

Lemma animal_prices_positive (animalDef : GAME_CONFIG.AnimalDef) :
  In animalDef GAME_CONFIG.ANIMALS ->
  0 < GAME_CONFIG.purchaseCost animalDef
  /\ 0 < GAME_CONFIG.animal_baseSellPrice animalDef.
Proof.
  unfold GAME_CONFIG.ANIMALS. cbn [In]. intro H.
  repeat destruct H as [<-|H]; try contradiction; cbn; lia.
Qed.

Lemma deductMoney_affordable_state (x : Z) (g : t) :
  0 <= x -> canAfford (JNum x) g = true ->
  deductMoney (JNum x) g
  = (true,
     with_statistics
       (with_totalMoneySpent (totalMoneySpent (statistics g) + x)
                             (statistics g))
       (with_currentMoney (currentMoney g - x) g)).
Proof.
  intros Hx Hc. unfold canAfford in Hc. unfold deductMoney.
  cbn [HELPERS.isValidNumber negb orb jsLtZ].
  destruct (Z.ltb_spec x 0); [lia|].
  destruct (Z.ltb_spec (currentMoney g) x); [lia|].
  destruct g. reflexivity.
Qed.

End ShopFacts.

(** X21. buySeed(type) succeeds exactly when canBuySeed(type)
    says canBuy, and buyAnimal(type) exactly when canBuyAnimal(type) does.  A
    purchase that succeeds returns the item the constructor builds for the
    type (a seed, a purchased young animal), takes the configured cost, which
    the balance covers, from the balance and adds it to totalMoneySpent,
    appends the item to the seeds or to the young animals and counts one more
    purchase.  Otherwise the purchase fails with the reason the can-buy query
    gives and leaves the Ledger as it was; neither method throws or reports
    a failed purchase. *)
Theorem purchases_all_or_nothing :
  forall (itemType newId : string) (g : GameState.t),
    (let run := ShopManager.buySeed itemType newId g in
      match ShopManager.canBuySeed itemType g with
      | ShopManager.CanBuyYes =>
          exists cropDef crop,
            Crop.getCropDefinition itemType = Some cropDef
            /\ Crop.new itemType newId = Return crop
            /\ fst run = Return (ShopManager.Purchased crop)
            /\ 0 < GAME_CONFIG.seedCost cropDef <= GameState.currentMoney g
            /\ GameState.currentMoney (snd run)
               = GameState.currentMoney g - GAME_CONFIG.seedCost cropDef
            /\ GameState.totalMoneySpent (GameState.statistics (snd run))
               = GameState.totalMoneySpent (GameState.statistics g)
                 + GAME_CONFIG.seedCost cropDef
            /\ GameState.seeds (GameState.inventory (snd run))
               = GameState.seeds (GameState.inventory g) ++ [crop]
            /\ GameState.totalCropsPurchased (GameState.statistics (snd run))
               = GameState.totalCropsPurchased (GameState.statistics g) + 1
            /\ snd run
               = GameState.addSeed crop
                   (snd (GameState.deductMoney
                           (JNum (GAME_CONFIG.seedCost cropDef)) g))
      | ShopManager.CanBuyGameOver =>
          run = (Return ShopManager.PurchaseGameOver, g)
      | ShopManager.CanBuyInvalidType =>
          run = (Return ShopManager.PurchaseInvalidItem, g)
      | ShopManager.CanBuyNotEnoughMoney =>
          run = (Return ShopManager.PurchaseNotEnoughMoney, g)
      end)
    /\ (let run := ShopManager.buyAnimal itemType newId g in
      match ShopManager.canBuyAnimal itemType g with
      | ShopManager.CanBuyYes =>
          exists animalDef animal,
            Animal.getAnimalDefinition itemType = Some animalDef
            /\ Animal.new itemType true newId = Return animal
            /\ fst run = Return (ShopManager.Purchased animal)
            /\ 0 < GAME_CONFIG.purchaseCost animalDef
                 <= GameState.currentMoney g
            /\ GameState.currentMoney (snd run)
               = GameState.currentMoney g - GAME_CONFIG.purchaseCost animalDef
            /\ GameState.totalMoneySpent (GameState.statistics (snd run))
               = GameState.totalMoneySpent (GameState.statistics g)
                 + GAME_CONFIG.purchaseCost animalDef
            /\ GameState.youngAnimals (GameState.inventory (snd run))
               = GameState.youngAnimals (GameState.inventory g) ++ [animal]
            /\ GameState.totalAnimalsPurchased (GameState.statistics (snd run))
               = GameState.totalAnimalsPurchased (GameState.statistics g) + 1
            /\ snd run
               = GameState.addYoungAnimal animal
                   (snd (GameState.deductMoney
                           (JNum (GAME_CONFIG.purchaseCost animalDef)) g))
      | ShopManager.CanBuyGameOver =>
          run = (Return ShopManager.PurchaseGameOver, g)
      | ShopManager.CanBuyInvalidType =>
          run = (Return ShopManager.PurchaseInvalidItem, g)
      | ShopManager.CanBuyNotEnoughMoney =>
          run = (Return ShopManager.PurchaseNotEnoughMoney, g)
      end).
Proof.
  intros itemType newId g. split.
  - revert itemType newId g.
    intros cropType newId g run. subst run.
    unfold ShopManager.canBuySeed, ShopManager.buySeed.
    destruct (GameState.isGameOver g); [reflexivity|].
    destruct (Crop.getCropDefinition cropType) as [cropDef|] eqn:Edef;
      [|reflexivity].
    destruct (GameState.canAfford _ g) eqn:Eafford; cbn [negb]; [|reflexivity].
    destruct (ShopFacts.getCropDefinition_found _ _ Edef) as [Hin Hid].
    destruct (ShopFacts.crop_prices_positive _ Hin) as [Hcost _].
    rewrite ShopFacts.deductMoney_affordable_state by (lia || exact Eafford).
    cbn [negb snd].
    unfold Crop.new. unfold Crop.getCropDefinition in Edef. rewrite Edef.
    eexists. eexists. split; [reflexivity|]. split; [reflexivity|].
    cbn [fst snd]. split; [reflexivity|].
    split; [unfold GameState.canAfford in Eafford; lia|].
    rewrite ShopFacts.deductMoney_affordable_state by (lia || exact Eafford).
    destruct g as [m d goal st f inv stats ms]; destruct stats; destruct inv.
    repeat split.
  - revert itemType newId g.
    intros animalType newId g run. subst run.
    unfold ShopManager.canBuyAnimal, ShopManager.buyAnimal.
    destruct (GameState.isGameOver g); [reflexivity|].
    destruct (Animal.getAnimalDefinition animalType) as [animalDef|] eqn:Edef;
      [|reflexivity].
    destruct (GameState.canAfford _ g) eqn:Eafford; cbn [negb]; [|reflexivity].
    destruct (ShopFacts.getAnimalDefinition_found _ _ Edef) as [Hin Hid].
    destruct (ShopFacts.animal_prices_positive _ Hin) as [Hcost _].
    rewrite ShopFacts.deductMoney_affordable_state by (lia || exact Eafford).
    cbn [negb snd].
    unfold Animal.new. unfold Animal.getAnimalDefinition in Edef. rewrite Edef.
    eexists. eexists. split; [reflexivity|]. split; [reflexivity|].
    cbn [fst snd]. split; [reflexivity|].
    split; [unfold GameState.canAfford in Eafford; lia|].
    rewrite ShopFacts.deductMoney_affordable_state by (lia || exact Eafford).
    destruct g as [m d goal st f inv stats ms]; destruct stats; destruct inv.
    repeat split.
Qed.


(** ** The shops: sales *)

Module SaleFacts.
Import GameState.

Lemma findIndex_find {A : Type} (p : A -> bool) (arr : list A) :
  find p arr = option_map snd (Array.findIndex p arr).
Proof.
  induction arr as [|x arr IH]; [reflexivity|].
  cbn [find Array.findIndex]. destruct (p x); [reflexivity|].
  rewrite IH. destruct (Array.findIndex p arr) as [[i y]|]; reflexivity.
Qed.

Lemma sanitized_price_nonneg (base : Z) (demandIndex : JsValue Q) :
  0 <= base ->
  0 <= Qfloor (inject_Z base
               * match demandIndex with
                 | JNum d => if Qle_bool d 0 then 1 else d
                 | _ => 1
                 end).
Proof.
  intro Hb.
  set (d := match demandIndex with
            | JNum d => if Qle_bool d 0 then 1%Q else d
            | _ => 1%Q
            end).
  assert (Hd : (0 <= d)%Q).
  { subst d. destruct demandIndex as [x| | | |]; try discriminate.
    destruct (Qle_bool x 0) eqn:E; [discriminate|].
    destruct (Qlt_le_dec 0 x) as [H|H]; [apply Qlt_le_weak, H|].
    apply Qle_bool_iff in H. congruence. }
  pose proof (price_floor_mono base 0 d Hb Hd) as H.
  replace (Qfloor (inject_Z base * 0)) with 0 in H; [exact H|].
  symmetry. transitivity (Qfloor 0); [|reflexivity].
  apply Qfloor_comp, Qmult_0_r.
Qed.

(** The Ledger after the two steps of a sale: the counter is bumped, then
    the price is credited when it is not negative. *)
Lemma credit_after_sale (price : Z) (g : t) :
  0 <= price ->
  let g' := snd (addMoney (JNum price) g) in
  currentMoney g' = currentMoney g + price
  /\ totalMoneyEarned (statistics g')
     = totalMoneyEarned (statistics g) + price
  /\ inventory g' = inventory g
  /\ totalCropsSold (statistics g') = totalCropsSold (statistics g)
  /\ totalAnimalsSold (statistics g') = totalAnimalsSold (statistics g)
  /\ currentDay g' = currentDay g
  /\ weatherForecast g' = weatherForecast g.
Proof.
  intros Hp g'. subst g'. rewrite (ReachFacts.addMoney_fields price g Hp).
  generalize (gameStatus (snd (addMoney (JNum price) g))) as s'.
  generalize (milestonesReached (snd (addMoney (JNum price) g))) as ms'.
  intros ms' s'.
  destruct g as [m d goal st f inv stats ms]; destruct stats.
  repeat split.
Qed.

End SaleFacts.


Module FarmFacts.
Import GameState.

Lemma isMature_false (now : Z) (a a' : Animal.t) :
  Animal.isMature now a = (false, a') -> a' = a.
Proof.
  unfold Animal.isMature. destruct (negb _).
  - intro H. injection H as _ <-. reflexivity.
  - destruct (_ >=? _); intro H; [discriminate|].
    injection H as <-. reflexivity.
Qed.

Lemma isMature_true (now : Z) (a a' : Animal.t) :
  Animal.isMature now a = (true, a') ->
  a' = Animal.with_status CONSTANTS.ANIMAL_STATUS.MATURE a
  /\ Animal.status a' = CONSTANTS.ANIMAL_STATUS.MATURE
  /\ forall now', Animal.isMature now' a' = (true, a').
Proof.
  unfold Animal.isMature.
  destruct (Animal.status a) eqn:Es; cbn [CONSTANTS.ANIMAL_STATUS.eqb negb];
    try discriminate.
  - destruct (_ >=? _); [|discriminate]. intro H. injection H as <-.
    destruct a. cbn in *. repeat split.
  - intro H. injection H as <-. destruct a. cbn in *. subst.
    repeat split.
Qed.

Lemma setAt_same {A : Type} (i : nat) (x : A) (arr : list A) :
  nth_error arr i = Some x -> Array.setAt i x arr = arr.
Proof.
  revert i. induction arr as [|y arr IH]; intros [|i] H;
    try discriminate; cbn in *.
  - congruence.
  - now rewrite IH.
Qed.

Lemma splice1_setAt {A : Type} (i : nat) (x : A) (arr : list A) :
  Array.splice1 i (Array.setAt i x arr) = Array.splice1 i arr.
Proof.
  unfold Array.splice1. revert i.
  induction arr as [|y arr IH]; intros [|i]; try reflexivity.
  cbn [Array.setAt firstn skipn app]. f_equal. apply IH.
Qed.

Lemma setAt_setAt {A : Type} (i : nat) (x y : A) (arr : list A) :
  Array.setAt i y (Array.setAt i x arr) = Array.setAt i y arr.
Proof.
  revert i. induction arr as [|z arr IH]; intros [|i]; try reflexivity.
  cbn [Array.setAt]. f_equal. apply IH.
Qed.

(** Replacing the found element by one that still satisfies the test does
    not move the hit. *)
Lemma findIndex_setAt {A : Type} (p : A -> bool) (arr : list A)
      (i : nat) (x y : A) :
  Array.findIndex p arr = Some (i, x) -> p y = true ->
  Array.findIndex p (Array.setAt i y arr) = Some (i, y).
Proof.
  revert i. induction arr as [|z arr IH]; intros i H Hy; [discriminate|].
  cbn [Array.findIndex] in H. destruct (p z) eqn:Ez.
  - injection H as <- <-. cbn [Array.setAt Array.findIndex]. now rewrite Hy.
  - destruct (Array.findIndex p arr) as [[j w]|] eqn:E; [|discriminate].
    injection H as <- <-. cbn [Array.setAt Array.findIndex]. rewrite Ez.
    now rewrite (IH j eq_refl Hy).
Qed.

End FarmFacts.

(** X23. A successful sellAnimal(animalId) happens only while the game
    is not over; it sells the first animal on the farm with that id, which
    its isMature() found or made Mature, at the price calculateSellPrice
    gives for the demand index of today's weather, removes exactly that
    entry from the farm, counts one more sold animal and, the price being
    non-negative, credits it to the balance and to totalMoneyEarned.  When
    today's weather is missing the sale fails after isMature() has written
    the Mature status into the animal; every other failure leaves the Ledger
    as it was, and the outcome 'Failed to sell animal' does not occur. *)
Theorem sellAnimal_effect :
  forall (now now' : Z) (animalId : string) (g : GameState.t),
    let run := ShopManager.sellAnimal now now' animalId g in
    match fst run with
    | ShopManager.Sold sellPrice profit animal =>
        GameState.isGameOver g = false
        /\ exists animalIndex before currentWeather,
             Array.findIndex (fun a => String.eqb (Animal.id a) animalId)
               (GameState.animals (GameState.inventory g))
             = Some (animalIndex, before)
             /\ Animal.isMature now before = (true, animal)
             /\ Animal.status animal = CONSTANTS.ANIMAL_STATUS.MATURE
             /\ GameState.getCurrentWeather g = Some currentWeather
             /\ sellPrice
                = Animal.calculateSellPrice
                    (JNum (Weather.demandIndex currentWeather)) animal
             /\ profit
                = sellPrice - (if Animal.isPurchased animal
                               then Animal.purchaseCost animal else 0)
             /\ GameState.animals (GameState.inventory (snd run))
                = Array.splice1 animalIndex
                    (GameState.animals (GameState.inventory g))
             /\ GameState.totalAnimalsSold (GameState.statistics (snd run))
                = GameState.totalAnimalsSold (GameState.statistics g) + 1
             /\ (0 <= Animal.baseSellPrice animal ->
                 0 <= sellPrice
                 /\ GameState.currentMoney (snd run)
                    = GameState.currentMoney g + sellPrice
                 /\ GameState.totalMoneyEarned (GameState.statistics (snd run))
                    = GameState.totalMoneyEarned (GameState.statistics g)
                      + sellPrice)
    | ShopManager.SaleFailed => False
    | ShopManager.SaleNoWeather =>
        exists animalIndex before,
          Array.findIndex (fun a => String.eqb (Animal.id a) animalId)
            (GameState.animals (GameState.inventory g))
          = Some (animalIndex, before)
          /\ snd run
             = GameState.with_inventory
                 (GameState.with_animals
                    (Array.setAt animalIndex
                       (Animal.with_status CONSTANTS.ANIMAL_STATUS.MATURE
                                           before)
                       (GameState.animals (GameState.inventory g)))
                    (GameState.inventory g)) g
    | _ => snd run = g
    end.
Proof.
  intros now now' animalId g run. subst run. unfold ShopManager.sellAnimal.
  destruct (GameState.isGameOver g) eqn:Eover; [reflexivity|].
  destruct (Array.findIndex _ _) as [[i before]|] eqn:Efind; [|reflexivity].
  destruct (ReachFacts.findIndex_some _ _ _ _ Efind) as (Hnth & Hid & Hlt).
  destruct (Animal.isMature now before) as [mature animal] eqn:Emature.
  destruct mature; cbn [negb].
  2:{ apply FarmFacts.isMature_false in Emature. subst animal. cbn [fst snd].
      rewrite FarmFacts.setAt_same by exact Hnth.
      destruct g as [m d goal st f inv stats ms]; destruct inv. reflexivity. }
  destruct (FarmFacts.isMature_true _ _ _ Emature) as (Hwith & Hst & Hagain).
  set (g1 := GameState.with_inventory _ g).
  assert (Hw : GameState.getCurrentWeather g1 = GameState.getCurrentWeather g)
    by (subst g1; destruct g; reflexivity).
  rewrite Hw.
  destruct (GameState.getCurrentWeather g) as [w|] eqn:Ew.
  2:{ cbn [fst snd]. exists i, before. split; [reflexivity|].
      subst g1. rewrite Hwith. reflexivity. }
  assert (Hid' : String.eqb (Animal.id animal) animalId = true)
    by (rewrite Hwith; destruct before; exact Hid).
  unfold GameState.sellAnimal.
  assert (Ea : GameState.animals (GameState.inventory g1)
               = Array.setAt i animal
                   (GameState.animals (GameState.inventory g)))
    by (subst g1; destruct g as [m d goal st f inv stats ms]; destruct inv;
        reflexivity).
  rewrite Ea.
  rewrite (FarmFacts.findIndex_setAt _ _ i before animal Efind Hid').
  rewrite Hagain. cbn [negb fst snd].
  split; [reflexivity|]. exists i, before, w.
  split; [reflexivity|]. split; [exact Emature|]. split; [exact Hst|].
  split; [reflexivity|]. split; [reflexivity|]. split; [reflexivity|].
  set (price := Animal.calculateSellPrice _ animal).
  assert (Hprice : 0 <= Animal.baseSellPrice animal -> 0 <= price)
    by apply SaleFacts.sanitized_price_nonneg.
  clearbody price.
  match goal with
  | |- context [GameState.addMoney (JNum price) ?h] => set (g2 := h)
  end.
  assert (Hinv : GameState.animals (GameState.inventory g2)
                 = Array.splice1 i
                     (GameState.animals (GameState.inventory g))
                 /\ GameState.totalAnimalsSold (GameState.statistics g2)
                    = GameState.totalAnimalsSold (GameState.statistics g) + 1
                 /\ GameState.currentMoney g2 = GameState.currentMoney g
                 /\ GameState.totalMoneyEarned (GameState.statistics g2)
                    = GameState.totalMoneyEarned (GameState.statistics g)).
  { subst g2 g1. destruct g as [m d goal st f inv stats ms]; destruct stats;
      destruct inv.
    cbn -[Array.splice1 Array.setAt Z.add].
    rewrite FarmFacts.setAt_setAt, FarmFacts.splice1_setAt. repeat split. }
  clearbody g2. destruct Hinv as (I1 & I2 & I3 & I4).
  destruct (Z.lt_ge_cases price 0) as [Hneg|Hpos].
  - rewrite ReachFacts.addMoney_negative by exact Hneg. cbn [snd].
    split; [exact I1|]. split; [exact I2|]. intro Hb. specialize (Hprice Hb).
    lia.
  - destruct (SaleFacts.credit_after_sale price g2 Hpos)
      as (C1 & C2 & C3 & _ & C5 & _).
    rewrite C3, C5, C1, C2. split; [exact I1|]. split; [exact I2|].
    intros _. lia.
Qed.

(** ** The shops: selling everything at once *)

Module SellAllFacts.
Import GameState.

Lemma findIndex_app_first {A : Type} (p : A -> bool) (pre rest : list A) (x : A) :
  (forall y, In y pre -> p y = false) -> p x = true ->
  Array.findIndex p (pre ++ x :: rest) = Some (List.length pre, x).
Proof.
  intros Hpre Hx. induction pre as [|y pre IH]; cbn [app Array.findIndex].
  - now rewrite Hx.
  - rewrite (Hpre y) by (left; reflexivity).
    rewrite IH by (intros z Hz; apply Hpre; right; exact Hz). reflexivity.
Qed.

Lemma splice1_app {A : Type} (pre rest : list A) (x : A) :
  Array.splice1 (List.length pre) (pre ++ x :: rest) = pre ++ rest.
Proof.
  unfold Array.splice1. induction pre as [|y pre IH]; [reflexivity|].
  cbn [List.length firstn skipn app]. f_equal. exact IH.
Qed.

Lemma nth_error_app_first {A : Type} (pre rest : list A) :
  nth_error (pre ++ rest) (List.length pre) = hd_error rest.
Proof.
  induction pre as [|y pre IH]; [destruct rest; reflexivity | exact IH].
Qed.

(** In an array without two equal ids, nothing before an element has its
    id. *)
Lemma no_earlier_id {A : Type} (id : A -> string) (pre rest : list A) (x : A) :
  NoDup (map id (pre ++ x :: rest)) ->
  forall y, In y pre -> String.eqb (id y) (id x) = false.
Proof.
  intros Hnd y Hy. apply String.eqb_neq. intro Heq.
  rewrite map_app in Hnd. cbn [map] in Hnd.
  apply NoDup_remove_2 in Hnd. apply Hnd, in_or_app. left.
  rewrite <- Heq. apply in_map, Hy.
Qed.

Lemma NoDup_ids_remove {A : Type} (id : A -> string) (pre rest : list A) (x : A) :
  NoDup (map id (pre ++ x :: rest)) -> NoDup (map id (pre ++ rest)).
Proof.
  rewrite !map_app. cbn [map]. apply NoDup_remove_1.
Qed.

(** A credit that stays under the goal does not end the game. *)
Lemma addMoney_under_goal (price : Z) (g : t) :
  0 <= price -> isGameOver g = false ->
  currentMoney g + price < goalMoney g ->
  let g' := snd (addMoney (JNum price) g) in
  isGameOver g' = false
  /\ goalMoney g' = goalMoney g
  /\ currentMoney g' = currentMoney g + price
  /\ inventory g' = inventory g
  /\ getCurrentWeather g' = getCurrentWeather g.
Proof.
  intros Hp Hover Hgoal g'.
  assert (Hs : gameStatus g' = gameStatus g).
  { subst g'. unfold addMoney. cbn [HELPERS.isValidNumber negb orb jsLtZ].
    destruct (Z.ltb_spec price 0); [lia|]. cbn [snd]. cbv zeta.
    unfold _checkWinCondition, _setGameWon.
    rewrite ReachFacts.checkMilestones_only.
    match goal with
    | |- context [milestonesReached (_checkMilestones ?h)] =>
        generalize (milestonesReached (_checkMilestones h)) as ms'
    end.
    intro ms'. destruct g as [m d goal st f inv stats ms]; destruct stats.
    cbn -[Z.add Z.gtb Z.geb] in *.
    destruct (_ >? _); cbn -[Z.add Z.geb]; destruct (negb _);
      cbn -[Z.add Z.geb]; try reflexivity;
      destruct (Z.geb_spec (m + price) goal); try lia; reflexivity. }
  pose proof (ReachFacts.addMoney_fields price g Hp) as Hf. cbv zeta in Hf.
  fold g' in Hf. revert Hs Hf.
  generalize (milestonesReached g') as ms'. generalize g' as h. clear g'.
  intros h ms' Hs Hf. rewrite Hs in Hf. subst h.
  destruct g as [m d goal st f inv stats ms]; destruct stats.
  repeat split. exact Hover.
Qed.








End SellAllFacts.




Module SellAnimalsFacts.
Import GameState.
Import SellAllFacts.

(** [isMature()] answers true exactly when it leaves the animal Mature, and
    changes nothing but the status. *)
Lemma isMature_reflects (now : Z) (a : Animal.t) :
  hasMatureStatus (snd (Animal.isMature now a)) = fst (Animal.isMature now a)
  /\ Animal.id (snd (Animal.isMature now a)) = Animal.id a
  /\ Animal.baseSellPrice (snd (Animal.isMature now a))
     = Animal.baseSellPrice a.
Proof.
  unfold Animal.isMature, hasMatureStatus.
  destruct a as [id ty pc bp gt bc osr gd st pt ip ho off ba].
  destruct st; cbn; try (repeat split; reflexivity).
  destruct (_ >=? _); repeat split; reflexivity.
Qed.

Lemma isMature_of_mature (now : Z) (a : Animal.t) :
  hasMatureStatus a = true -> Animal.isMature now a = (true, a).
Proof.
  unfold Animal.isMature, hasMatureStatus.
  destruct (Animal.status a); try discriminate. reflexivity.
Qed.

(** The filter pass: the farm keeps its ids and base prices, and the new
    array holds the animals that are Mature afterwards, in farm order. *)
Lemma filterMature_spec (now : nat -> Z) (farm : list Animal.t) :
  forall i,
    let run := ShopManager.filterMature now i farm in
    snd run = filter hasMatureStatus (fst run)
    /\ map Animal.id (fst run) = map Animal.id farm
    /\ map Animal.baseSellPrice (fst run) = map Animal.baseSellPrice farm.
Proof.
  induction farm as [|a farm IH]; intro i; [repeat split|].
  cbn [ShopManager.filterMature].
  destruct (isMature_reflects (now i) a) as (Hm & Hid & Hb).
  destruct (Animal.isMature (now i) a) as [mature a'].
  cbn [fst snd] in Hm, Hid, Hb.
  destruct (IH (S i)) as (F & I & B).
  destruct (ShopManager.filterMature now (S i) farm) as [farm' matureRest].
  cbn [fst snd] in *. cbn [filter map]. rewrite Hm, Hid, Hb, I, B, F.
  destruct mature; repeat split.
Qed.

Lemma filter_head {A : Type} (p : A -> bool) (arr rest : list A) (x : A) :
  filter p arr = x :: rest ->
  exists pre post,
    arr = pre ++ x :: post
    /\ (forall y, In y pre -> p y = false)
    /\ p x = true
    /\ filter p post = rest.
Proof.
  induction arr as [|y arr IH]; [discriminate|]. cbn [filter].
  destruct (p y) eqn:Ey.
  - intro H. injection H as -> <-. exists [], arr.
    repeat split; [intros z []| exact Ey].
  - intro H. destruct (IH H) as (pre & post & -> & Hpre & Hx & Hpost).
    exists (y :: pre), post. repeat split; try assumption.
    intros z [<-|Hz]; [exact Ey | apply Hpre, Hz].
Qed.

(** One sale of the loop: a Mature animal of the farm. *)
Lemma sellAnimal_at_index (now now' : Z) (pre post : list Animal.t)
      (a : Animal.t) (w : Weather.t) (g : t) :
  animals (inventory g) = pre ++ a :: post ->
  NoDup (map Animal.id (pre ++ a :: post)) ->
  hasMatureStatus a = true ->
  0 <= Animal.baseSellPrice a ->
  isGameOver g = false ->
  getCurrentWeather g = Some w ->
  currentMoney g + Animal.calculateSellPrice (JNum (Weather.demandIndex w)) a
    < goalMoney g ->
  let price := Animal.calculateSellPrice (JNum (Weather.demandIndex w)) a in
  let run := ShopManager.sellAnimal now now' (Animal.id a) g in
  fst run = ShopManager.Sold price (Animal.calculateProfit
                                      (JNum (Weather.demandIndex w)) a) a
  /\ 0 <= price
  /\ animals (inventory (snd run)) = pre ++ post
  /\ isGameOver (snd run) = false
  /\ getCurrentWeather (snd run) = Some w
  /\ goalMoney (snd run) = goalMoney g
  /\ currentMoney (snd run) = currentMoney g + price.
Proof.
  intros Hh Hnd Hst Hbase Hover Hw Hgoal price run. subst run.
  assert (Hprice : 0 <= price)
    by (apply SaleFacts.sanitized_price_nonneg, Hbase).
  assert (Hfind : Array.findIndex
                    (fun b => String.eqb (Animal.id b) (Animal.id a))
                    (animals (inventory g))
                  = Some (List.length pre, a)).
  { rewrite Hh. apply findIndex_app_first;
      [apply (no_earlier_id Animal.id _ _ _ Hnd) | apply String.eqb_refl]. }
  assert (Hset : Array.setAt (List.length pre) a (animals (inventory g))
                 = animals (inventory g)).
  { apply FarmFacts.setAt_same. rewrite Hh, nth_error_app_first.
    reflexivity. }
  unfold ShopManager.sellAnimal. rewrite Hover, Hfind.
  rewrite (isMature_of_mature now a Hst). cbn [negb]. rewrite Hset.
  replace (with_inventory (with_animals (animals (inventory g)) (inventory g)) g)
    with g by (destruct g as [m d goal st f inv stats ms]; destruct inv;
               reflexivity).
  rewrite Hw. unfold GameState.sellAnimal. rewrite Hfind.
  rewrite (isMature_of_mature now' a Hst). cbn [negb fst snd]. rewrite Hset.
  fold price.
  match goal with
  | |- context [addMoney (JNum price) ?h] => set (g1 := h)
  end.
  assert (H1 : isGameOver g1 = false /\ goalMoney g1 = goalMoney g
               /\ currentMoney g1 = currentMoney g
               /\ animals (inventory g1) = pre ++ post
               /\ getCurrentWeather g1 = getCurrentWeather g).
  { subst g1. rewrite <- (splice1_app pre post a), <- Hh.
    destruct g as [m d goal st f inv stats ms]; destruct stats;
      destruct inv. repeat split. exact Hover. }
  clearbody g1. destruct H1 as (O1 & G1 & M1 & I1 & W1).
  destruct (addMoney_under_goal price g1 Hprice O1)
    as (O2 & G2 & M2 & I2 & W2); [rewrite M1, G1; exact Hgoal|].
  rewrite I2, O2, G2, M2, W2, W1, G1, M1, I1, Hw. repeat split. exact Hprice.
Qed.

Lemma animalSalesTotal_nonneg (w : Weather.t) (farm : list Animal.t) :
  Forall (fun a => 0 <= Animal.baseSellPrice a) farm ->
  0 <= animalSalesTotal w farm.
Proof.
  induction 1 as [|a farm Ha _ IH]; [reflexivity|].
  unfold animalSalesTotal in *. cbn [fold_right].
  assert (0 <= Animal.calculateSellPrice (JNum (Weather.demandIndex w)) a)
    by (apply SaleFacts.sanitized_price_nonneg, Ha).
  lia.
Qed.

(** The loop of [sellAllMatureAnimals()] over the array of the Mature
    animals of the farm. *)
Lemma sellEachMatureAnimal_all (now now' : nat -> Z) (w : Weather.t)
      (matureAnimals : list Animal.t) :
  forall (farm : list Animal.t) (k : nat) (g : t) (earned sold : Z)
         (soldAnimals : list Animal.t),
    animals (inventory g) = farm ->
    matureAnimals = filter hasMatureStatus farm ->
    NoDup (map Animal.id farm) ->
    Forall (fun a => 0 <= Animal.baseSellPrice a) farm ->
    isGameOver g = false ->
    getCurrentWeather g = Some w ->
    currentMoney g + animalSalesTotal w matureAnimals < goalMoney g ->
    let run := ShopManager.sellEachMatureAnimal
                 now now' k matureAnimals g (earned, sold, soldAnimals) in
    fst run = (earned + animalSalesTotal w matureAnimals,
               sold + Z.of_nat (List.length matureAnimals),
               soldAnimals ++ matureAnimals)
    /\ animals (inventory (snd run))
       = filter (fun a => negb (hasMatureStatus a)) farm
    /\ currentMoney (snd run)
       = currentMoney g + animalSalesTotal w matureAnimals.
Proof.
  induction matureAnimals as [|a rest IH];
    intros farm k g earned sold soldAnimals Hfarm Hfilter Hnd Hbase Hover Hw
           Hgoal.
  - cbn. rewrite app_nil_r, !Z.add_0_r. split; [reflexivity|].
    split; [|reflexivity]. rewrite Hfarm. clear -Hfilter.
    induction farm as [|b farm IH]; [reflexivity|]. cbn [filter] in *.
    destruct (hasMatureStatus b); [discriminate|]. cbn [negb].
    f_equal. apply IH, Hfilter.
  - symmetry in Hfilter.
    destruct (filter_head _ _ _ _ Hfilter)
      as (pre & post & -> & Hpre & Ha & Hpost).
    assert (Ba : 0 <= Animal.baseSellPrice a).
    { rewrite Forall_forall in Hbase. apply Hbase, in_or_app. right. left.
      reflexivity. }
    assert (Hrest : 0 <= animalSalesTotal w rest).
    { apply animalSalesTotal_nonneg. subst rest.
      rewrite Forall_forall in *. intros b Hb. apply filter_In in Hb.
      apply Hbase, in_or_app. right. right. apply Hb. }
    cbn [animalSalesTotal fold_right] in Hgoal.
    change (fold_right _ 0 ?l) with (animalSalesTotal w l) in Hgoal.
    cbn [ShopManager.sellEachMatureAnimal].
    destruct (sellAnimal_at_index (now k) (now' k) pre post a w g
                Hfarm Hnd Ha Ba Hover Hw)
      as (R & Hp & H1 & O1 & W1 & G1 & M1); [lia|].
    destruct (ShopManager.sellAnimal (now k) (now' k) (Animal.id a) g)
      as [result g1].
    cbn [fst snd] in R, H1, O1, W1, G1, M1. subst result.
    cbn [ShopManager.tallySale].
    assert (Hfilter' : rest = filter hasMatureStatus (pre ++ post)).
    { rewrite filter_app, Hpost.
      replace (filter hasMatureStatus pre) with (@nil Animal.t);
        [reflexivity|].
      clear -Hpre. induction pre as [|b pre IH]; [reflexivity|].
      cbn [filter]. rewrite (Hpre b) by (left; reflexivity).
      apply IH. intros y Hy. apply Hpre. right. exact Hy. }
    assert (Hbase' : Forall (fun b => 0 <= Animal.baseSellPrice b)
                            (pre ++ post)).
    { rewrite Forall_forall in *. intros b Hb. apply Hbase.
      apply in_app_or in Hb. apply in_or_app.
      destruct Hb as [Hb|Hb]; [left; exact Hb | right; right; exact Hb]. }
    destruct (IH (pre ++ post) (S k) g1
                 (earned + Animal.calculateSellPrice
                             (JNum (Weather.demandIndex w)) a)
                 (sold + 1) (Array.push a soldAnimals)
                 H1 Hfilter' (NoDup_ids_remove Animal.id pre post a Hnd)
                 Hbase' O1 W1)
      as (R2 & H2 & M2); [rewrite M1, G1; lia|].
    rewrite R2, H2, M2, M1.
    cbn [animalSalesTotal fold_right List.length].
    change (fold_right _ 0 ?l) with (animalSalesTotal w l).
    unfold Array.push. rewrite <- !app_assoc. cbn [app].
    split; [repeat (f_equal; try lia)|]. split; [|lia].
    rewrite !filter_app. cbn [filter]. rewrite Ha. reflexivity.
Qed.

End SellAnimalsFacts.

(** X25. sellAllMatureAnimals() first asks every animal
    on the farm isMature(), which may turn Growing animals Mature, and then
    loops over the new array of those that answered true.  With animals of
    distinct ids and non-negative base prices, the game not over, today's
    weather present and the goal out of reach of the sales, it sells every
    one of them: the animals reported are exactly the Mature ones in farm
    order, each is paid for, and no Mature animal is left on the farm. *)
Theorem sellAllMatureAnimals_sells_them_all :
  forall (now0 now now' : nat -> Z) (g : GameState.t) (w : Weather.t),
    let farm := GameState.animals (GameState.inventory g) in
    let asked := fst (ShopManager.filterMature now0 0 farm) in
    let matureAnimals := filter hasMatureStatus asked in
    GameState.isGameOver g = false ->
    GameState.getCurrentWeather g = Some w ->
    NoDup (map Animal.id farm) ->
    Forall (fun a => 0 <= Animal.baseSellPrice a) farm ->
    GameState.currentMoney g + animalSalesTotal w matureAnimals
      < GameState.goalMoney g ->
    let run := ShopManager.sellAllMatureAnimals now0 now now' g in
    ShopManager.soldItems (fst run) = matureAnimals
    /\ ShopManager.count (fst run) = Z.of_nat (List.length matureAnimals)
    /\ ShopManager.totalEarnings (fst run)
       = animalSalesTotal w matureAnimals
    /\ ShopManager.success (fst run)
       = negb (List.length matureAnimals =? 0)%nat
    /\ GameState.animals (GameState.inventory (snd run))
       = filter (fun a => negb (hasMatureStatus a)) asked
    /\ (forall a, In a (GameState.animals (GameState.inventory (snd run))) ->
                  Animal.status a <> CONSTANTS.ANIMAL_STATUS.MATURE)
    /\ GameState.currentMoney (snd run)
       = GameState.currentMoney g + animalSalesTotal w matureAnimals.
Proof.
  intros now0 now now' g w farm asked matureAnimals Hover Hw Hnd Hbase Hgoal
         run.
  destruct (SellAnimalsFacts.filterMature_spec now0 farm 0%nat)
    as (Hm & Hids & Hprices).
  fold asked in Hm, Hids, Hprices. fold matureAnimals in Hm.
  assert (E : ShopManager.filterMature now0 0 farm = (asked, matureAnimals)).
  { rewrite <- Hm. unfold asked.
    destruct (ShopManager.filterMature now0 0 farm). reflexivity. }
  assert (Hleft : forall a,
             In a (filter (fun a => negb (hasMatureStatus a)) asked) ->
             Animal.status a <> CONSTANTS.ANIMAL_STATUS.MATURE).
  { intros a Ha Hs. apply filter_In in Ha. destruct Ha as [_ Ha].
    unfold hasMatureStatus in Ha. rewrite Hs in Ha. discriminate. }
  subst run. unfold ShopManager.sellAllMatureAnimals. fold farm.
  rewrite E. clear E Hm.
  set (g1 := GameState.with_inventory _ g).
  assert (H1 : GameState.animals (GameState.inventory g1) = asked
               /\ GameState.isGameOver g1 = false
               /\ GameState.getCurrentWeather g1 = Some w
               /\ GameState.currentMoney g1 = GameState.currentMoney g
               /\ GameState.goalMoney g1 = GameState.goalMoney g).
  { subst g1. rewrite <- Hover, <- Hw.
    destruct g as [m d goal st f inv stats ms]; destruct inv.
    repeat split. }
  clearbody g1. destruct H1 as (A1 & O1 & W1 & M1 & G1).
  destruct (List.length matureAnimals =? 0)%nat eqn:Elen.
  - apply Nat.eqb_eq in Elen.
    destruct matureAnimals as [|a rest] eqn:Em; [|discriminate].
    cbn [fst snd ShopManager.soldItems ShopManager.count
         ShopManager.totalEarnings ShopManager.success List.length negb
         animalSalesTotal fold_right Nat.eqb].
    rewrite A1, M1.
    assert (Hall : filter (fun a => negb (hasMatureStatus a)) asked = asked).
    { clear -Em. unfold matureAnimals in Em.
      induction asked as [|b l IH]; [reflexivity|]. cbn [filter] in *.
      destruct (hasMatureStatus b); [discriminate|]. cbn [negb].
      f_equal. apply IH, Em. }
    rewrite Hall. repeat split; try lia.
    intros a Ha. apply Hleft. rewrite Hall. exact Ha.
  - assert (Hnd1 : NoDup (map Animal.id asked)) by (rewrite Hids; exact Hnd).
    assert (Hbase1 : Forall (fun a => 0 <= Animal.baseSellPrice a) asked).
    { clear -Hbase Hprices. revert Hprices Hbase. generalize farm as l.
      induction asked as [|a l' IH]; intros [|b l] Hp Hb;
        try discriminate; constructor.
      - cbn in Hp. inversion Hb; subst. injection Hp as -> _. assumption.
      - cbn in Hp. inversion Hb; subst. injection Hp as _ Hp.
        apply (IH l Hp). assumption. }
    destruct (SellAnimalsFacts.sellEachMatureAnimal_all
                now now' w matureAnimals asked 0%nat g1 0 0 []
                A1 eq_refl Hnd1 Hbase1 O1 W1)
      as (R & H & M); [rewrite M1, G1; exact Hgoal|].
    destruct (ShopManager.sellEachMatureAnimal now now' 0 matureAnimals g1 _)
      as [tally g2].
    cbn [fst snd] in *. subst tally. cbn [ShopManager.summarize
      ShopManager.soldItems ShopManager.count ShopManager.totalEarnings
      ShopManager.success app].
    rewrite H, M, M1. split; [reflexivity|]. split; [lia|].
    split; [lia|]. split.
    + apply Nat.eqb_neq in Elen. cbn [negb]. rewrite Z.add_0_l.
      destruct (List.length matureAnimals); [contradiction | reflexivity].
    + split; [reflexivity|]. split; [exact Hleft | lia].
Qed.

Lemma sellAllMatureAnimals_sells_them_all_witness :
  let clock := fun i : nat => if (i =? 1)%nat then 2000 else 200000 in
  let run := ShopManager.sellAllMatureAnimals
               clock (fun _ => 200001) (fun _ => 200002) farmOfThree in
  ShopManager.soldItems (fst run)
  = [chickenOnFarm "animal_1" CONSTANTS.ANIMAL_STATUS.MATURE;
     chickenOnFarm "animal_3" CONSTANTS.ANIMAL_STATUS.MATURE]
  /\ ShopManager.count (fst run) = 2
  /\ GameState.animals (GameState.inventory (snd run))
     = [chickenOnFarm "animal_2" CONSTANTS.ANIMAL_STATUS.GROWING].
Proof.
  intros clock run.
  destruct (sellAllMatureAnimals_sells_them_all
              clock (fun _ => 200001) (fun _ => 200002) farmOfThree
              (Weather.new (JNum 1) None (1 # 2)))
    as (H1 & H2 & _ & _ & H5 & _).
  - reflexivity.
  - reflexivity.
  - repeat constructor; cbn; intuition discriminate.
  - repeat constructor; cbn; lia.
  - vm_compute. reflexivity.
  - split; [exact H1|]. split; [exact H2 | exact H5].
Defined.

(** X26. sellCrop(cropId) succeeds exactly when the game is not
    over, canSellCrop(cropId) says canSell and today's weather is in the
    forecast; sellAnimal(animalId) succeeds exactly when the game is not
    over, canSellAnimal(animalId) says canSell and today's weather is in the
    forecast.  The two can-sell queries look at neither the status of the
    game nor the weather. *)
Theorem sale_succeeds_when_can_sell :
  forall (now now' : Z) (itemId : string) (g : GameState.t),
    let today :=
      match GameState.getCurrentWeather g with
      | Some _ => true
      | None => false
      end in
    ShopManager.saleSuccess (fst (ShopManager.sellCrop itemId g))
    = negb (GameState.isGameOver g)
      && ShopManager.canSell (ShopManager.canSellCrop itemId g)
      && today
    /\ ShopManager.saleSuccess
         (fst (ShopManager.sellAnimal now now' itemId g))
       = negb (GameState.isGameOver g)
         && ShopManager.canSell
              (fst (ShopManager.canSellAnimal now itemId g))
         && today.
Proof.
  intros now now' itemId g today. subst today. split.
  - unfold ShopManager.sellCrop, ShopManager.canSellCrop.
    destruct (GameState.isGameOver g); [reflexivity|]. cbn [negb andb].
    rewrite SaleFacts.findIndex_find. unfold GameState.sellCrop.
    destruct (Array.findIndex _ _) as [[i crop]|]; cbn [option_map snd];
      [|reflexivity].
    destruct (Crop.isHarvested crop); cbn [negb]; [|reflexivity].
    destruct (GameState.getCurrentWeather g); reflexivity.
  - unfold ShopManager.sellAnimal, ShopManager.canSellAnimal.
    destruct (GameState.isGameOver g); [reflexivity|]. cbn [negb andb].
    destruct (Array.findIndex _ _) as [[i before]|] eqn:Efind; [|reflexivity].
    destruct (ReachFacts.findIndex_some _ _ _ _ Efind) as (_ & Hid & _).
    destruct (Animal.isMature now before) as [mature animal] eqn:Emature.
    destruct mature; cbn [negb fst]; [|reflexivity].
    destruct (FarmFacts.isMature_true _ _ _ Emature) as (Hwith & _ & Hagain).
    set (g1 := GameState.with_inventory _ g).
    assert (Hw : GameState.getCurrentWeather g1
                 = GameState.getCurrentWeather g)
      by (subst g1; destruct g; reflexivity).
    rewrite Hw. destruct (GameState.getCurrentWeather g); [|reflexivity].
    unfold GameState.sellAnimal.
    assert (Ea : GameState.animals (GameState.inventory g1)
                 = Array.setAt i animal
                     (GameState.animals (GameState.inventory g)))
      by (subst g1; destruct g as [m d goal st f inv stats ms]; destruct inv;
          reflexivity).
    rewrite Ea.
    rewrite (FarmFacts.findIndex_setAt _ _ i before animal Efind)
      by (rewrite Hwith; destruct before; exact Hid).
    rewrite Hagain. reflexivity.
Qed.



(** ** Saving and loading a game *)

Module SaveFacts.
Import GameState.

Lemma mapThrowing_round_trip {A J : Type} (toJson : A -> J)
      (fromJson : nat -> J -> Completion A) (arr : list A) :
  Forall (fun x => forall i, fromJson i (toJson x) = Return x) arr ->
  forall i, mapThrowing fromJson i (map toJson arr) = Return arr.
Proof.
  induction 1 as [|x arr Hx _ IH]; intro i; [reflexivity|].
  cbn [map mapThrowing]. rewrite Hx, IH. reflexivity.
Qed.

Lemma forecast_round_trip (random : nat -> Q) (forecast : list Weather.t) :
  Forall (fun w => forall r, Weather.fromJSON (Some (Weather.toJSON w)) r = w)
         forecast ->
  forall i,
    map (fun iw => Weather.fromJSON (Some (snd iw)) (random (fst iw)))
        (combine (seq i (List.length (map Weather.toJSON forecast)))
                 (map Weather.toJSON forecast))
    = forecast.
Proof.
  induction 1 as [|w forecast Hw _ IH]; intro i; [reflexivity|].
  cbn [map List.length seq combine fst snd]. rewrite Hw. f_equal. apply IH.
Qed.

End SaveFacts.

(** X28. GameState.fromJSON(gameState.toJSON()) restores the status, the
    statistics, the milestones and, when each Weather, Crop and Animal comes
    back from its own JSON, the forecast and the five inventory lists.  The
    three numbers are restored unless they are 0: a balance of 0 comes back
    as STARTING_MONEY, a day of 0 as 1 and a goal of 0 as GOAL_MONEY. *)
Theorem game_json_round_trip :
  forall (g : GameState.t) (random : nat -> Q) (newId : nat -> nat -> string),
    let inv := GameState.inventory g in
    Forall (fun w => forall r,
                Weather.fromJSON (Some (Weather.toJSON w)) r = w)
           (GameState.weatherForecast g) ->
    Forall (fun c => forall newId,
                Crop.fromJSON (Some (Crop.toJSON c)) newId = Return c)
           (GameState.seeds inv ++ GameState.crops inv
            ++ GameState.harvestedCrops inv) ->
    Forall (fun a => forall newId,
                Animal.fromJSON (Some (Animal.toJSON a)) newId = Return a)
           (GameState.youngAnimals inv ++ GameState.animals inv) ->
    GameState.fromJSON (GameState.toJSON g) random newId
    = Return
        (GameState.mk
           (if GameState.currentMoney g =? 0
            then GAME_CONFIG.STARTING_MONEY else GameState.currentMoney g)
           (if GameState.currentDay g =? 0 then 1 else GameState.currentDay g)
           (if GameState.goalMoney g =? 0
            then GAME_CONFIG.GOAL_MONEY else GameState.goalMoney g)
           (GameState.gameStatus g) (GameState.weatherForecast g)
           (GameState.inventory g) (GameState.statistics g)
           (GameState.milestonesReached g)).
Proof.
  intros g random newId inv Hw Hc Ha. subst inv.
  apply Forall_app in Hc. destruct Hc as [Hseeds Hc].
  apply Forall_app in Hc. destruct Hc as [Hcrops Hharvested].
  apply Forall_app in Ha. destruct Ha as [Hyoung Hanimals].
  unfold GameState.fromJSON, GameState.toJSON.
  cbn [GameState.j_currentMoney GameState.j_currentDay GameState.j_goalMoney
       GameState.j_gameStatus GameState.j_weatherForecast GameState.j_seeds
       GameState.j_crops GameState.j_harvestedCrops GameState.j_youngAnimals
       GameState.j_animals GameState.j_statistics
       GameState.j_milestonesReached].
  rewrite (SaveFacts.mapThrowing_round_trip Crop.toJSON
             (fun i c => Crop.fromJSON (Some c) (newId 0%nat i)))
    by (eapply Forall_impl; [|exact Hseeds]; cbn; intros c H i; apply H).
  rewrite (SaveFacts.mapThrowing_round_trip Crop.toJSON
             (fun i c => Crop.fromJSON (Some c) (newId 1%nat i)))
    by (eapply Forall_impl; [|exact Hcrops]; cbn; intros c H i; apply H).
  rewrite (SaveFacts.mapThrowing_round_trip Crop.toJSON
             (fun i c => Crop.fromJSON (Some c) (newId 2%nat i)))
    by (eapply Forall_impl; [|exact Hharvested]; cbn; intros c H i; apply H).
  rewrite (SaveFacts.mapThrowing_round_trip Animal.toJSON
             (fun i a => Animal.fromJSON (Some a) (newId 3%nat i)))
    by (eapply Forall_impl; [|exact Hyoung]; cbn; intros c H i; apply H).
  rewrite (SaveFacts.mapThrowing_round_trip Animal.toJSON
             (fun i a => Animal.fromJSON (Some a) (newId 4%nat i)))
    by (eapply Forall_impl; [|exact Hanimals]; cbn; intros c H i; apply H).
  cbv zeta. rewrite (SaveFacts.forecast_round_trip random _ Hw).
  destruct g as [m d goal st f inv stats ms]; destruct inv.
  cbn [GameState.currentMoney GameState.currentDay GameState.goalMoney
       GameState.gameStatus GameState.weatherForecast GameState.inventory
       GameState.statistics GameState.milestonesReached GameState.seeds
       GameState.crops GameState.harvestedCrops GameState.youngAnimals
       GameState.animals GameState.with_currentMoney
       GameState.with_currentDay].
  unfold GameState.numberOr, truthyNumber.
  destruct m, d, goal; reflexivity.
Qed.

Lemma game_json_round_trip_witness :
  GameState.currentMoney emptyPurse = 0
  /\ GameState.fromJSON (GameState.toJSON emptyPurse)
                        (fun _ => (9 # 10)%Q) (fun _ _ => "fresh"%string)
     = Return (GameState.with_currentMoney 50 emptyPurse).
Proof.
  split; [reflexivity|].
  rewrite (game_json_round_trip emptyPurse).
  - reflexivity.
  - repeat constructor; intro r; reflexivity.
  - repeat constructor; intro newId; reflexivity.
  - repeat constructor; intro newId; reflexivity.
Defined.

(** ** The timers *)

Module TimerFacts.
Import TimerManager.

Lemma start_in_step (now : Z) (tm : t) (b : Browser) :
  timersInStep tm b ->
  timersInStep (fst (start now tm b)) (snd (start now tm b)).
Proof.
  intros [Hid H]. unfold start. destruct (isRunning tm) eqn:Er.
  - split; [exact Hid|]. cbn [fst snd]. rewrite Er. exact H.
  - destruct H as (_ & _ & Hs). destruct b as [sched next].
    cbn in Hs, Hid. subst sched. unfold timersInStep. cbn -[Z.add].
    split; [lia|].
    exists next, (next + 1). repeat split; lia.
Qed.

Lemma stop_in_step (tm : t) (b : Browser) :
  timersInStep tm b ->
  timersInStep (fst (stop tm b)) (snd (stop tm b))
  /\ isRunning (fst (stop tm b)) = false.
Proof.
  intros [Hid H]. unfold stop. destruct (isRunning tm) eqn:Er; cbn [negb].
  - destruct H as (m & d & Hm & Hd & Hs & Hlt & Hnext).
    rewrite Hm, Hd. destruct b as [sched next]. cbn in Hs, Hid, Hnext.
    subst sched.
    assert (Em : truthyNumber (Some m) = Some m)
      by (destruct m; try reflexivity; lia).
    assert (Ed : truthyNumber (Some d) = Some d)
      by (destruct d; try reflexivity; lia).
    rewrite Em, Ed. unfold clearInterval. cbn [scheduled nextId filter fst].
    rewrite Z.eqb_refl.
    destruct (Z.eqb_spec d m); [lia|]. cbn [negb filter fst].
    rewrite Z.eqb_refl. cbn [negb fst snd].
    split; [|reflexivity]. split; [exact Hid|]. cbn. repeat split.
  - cbn [fst snd]. split; [|exact Er]. split; [exact Hid|].
    rewrite Er. exact H.
Qed.

Lemma call_in_step (call : TimerCall) (tm : t) (b : Browser)
      (g : GameState.t) :
  timersInStep tm b ->
  let s := runTimerCall call (tm, b, g) in
  timersInStep (fst (fst s)) (snd (fst s)).
Proof.
  intros H. destruct call as [now| | |now|now visits|now random|call];
    cbn [runTimerCall fst snd].
  - apply start_in_step, H.
  - apply stop_in_step, H.
  - apply stop_in_step, H.
  - apply start_in_step, H.
  - destruct (isScheduled MainLoop b); [|exact H].
    unfold _mainLoop. destruct (GameState.isGameOver g).
    + pose proof (proj1 (stop_in_step tm b H)) as Hs.
      destruct (stop tm b) as [tm' b']. exact Hs.
    + destruct (_updateAnimals visits _) as [outcome g']. exact H.
  - destruct (isScheduled AdvanceDay b); [|exact H].
    unfold _advanceDay.
    destruct (GameState.advanceDay random g) as [[[]|e] g']; [|exact H].
    set (tm1 := mk _ _ _ _).
    assert (H1 : timersInStep tm1 b) by (destruct tm; exact H).
    destruct (GameState.isGameOver g'); [|exact H1].
    pose proof (proj1 (stop_in_step tm1 b H1)) as Hs.
    destruct (stop tm1 b) as [tm' b']. exact Hs.
  - exact H.
Qed.

End TimerFacts.

(** X29. Whatever calls of start(), stop(), pause() and resume(), firings
    of the two intervals and moves of the player follow the constructor, in a
    browser whose interval ids are positive, the manager is either running
    and holds the ids of exactly the two intervals that are scheduled, one
    for the main loop and one for the day, or it is stopped, holds no id and
    nothing is scheduled: a second start() schedules nothing and stop()
    leaves no interval behind. *)
Theorem timers_never_leak :
  forall (calls : list TimerCall) (firstId : Z) (g : GameState.t),
    0 < firstId ->
    let s := runTimerCalls calls
               (TimerManager.new, TimerManager.mkBrowser [] firstId, g) in
    let tm := fst (fst s) in
    let b := snd (fst s) in
    if TimerManager.isRunning tm
    then exists mainLoopId dayId,
           TimerManager.mainLoopTimer tm = Some mainLoopId
           /\ TimerManager.dayTimer tm = Some dayId
           /\ mainLoopId <> dayId
           /\ TimerManager.scheduled b
              = [(mainLoopId, TimerManager.MainLoop);
                 (dayId, TimerManager.AdvanceDay)]
    else TimerManager.mainLoopTimer tm = None
         /\ TimerManager.dayTimer tm = None
         /\ TimerManager.scheduled b = [].
Proof.
  intros calls firstId g Hid s tm b.
  assert (H : timersInStep tm b).
  { subst tm b s. unfold runTimerCalls.
    assert (H0 : timersInStep TimerManager.new
                              (TimerManager.mkBrowser [] firstId))
      by (split; [exact Hid | repeat split]).
    revert H0.
    generalize TimerManager.new as tm0.
    generalize (TimerManager.mkBrowser [] firstId) as b0. revert g.
    induction calls as [|call calls IH]; intros g b0 tm0 H0; [exact H0|].
    cbn [fold_left].
    pose proof (TimerFacts.call_in_step call tm0 b0 g H0) as H1.
    cbv zeta in H1.
    destruct (runTimerCall call (tm0, b0, g)) as [[tm1 b1] g1].
    apply IH, H1. }
  destruct H as [_ H]. destruct (TimerManager.isRunning tm); [|exact H].
  destruct H as (m & d & Hm & Hd & Hs & Hlt & _).
  exists m, d. repeat split; try assumption. lia.
Qed.

Lemma timers_never_leak_witness :
  let s := runTimerCalls [CallStart 1000; CallResume 2000; CallPause;
                          CallStart 3000; CallStart 4000]
             (TimerManager.new, TimerManager.mkBrowser [] 1,
              GameState.new (fun _ => (1 # 2)%Q)) in
  TimerManager.scheduled (snd (fst s))
  = [(3, TimerManager.MainLoop); (4, TimerManager.AdvanceDay)].
Proof.
  intro s.
  pose proof (timers_never_leak
                [CallStart 1000; CallResume 2000; CallPause;
                 CallStart 3000; CallStart 4000]
                1 (GameState.new (fun _ => (1 # 2)%Q)) ltac:(lia)) as H.
  cbv zeta in H. fold s in H.
  change (TimerManager.isRunning (fst (fst s))) with true in H.
  destruct H as (m & d & Hm & Hd & _ & Hs).
  rewrite Hs. injection Hm as <-. injection Hd as <-. reflexivity.
Defined.

(** ** The growth tick *)

Module TickFacts.
Import GameState.

Lemma setAt_app {A : Type} (i : nat) (x : A) (zone tail : list A) :
  (i < List.length zone)%nat ->
  Array.setAt i x (zone ++ tail) = Array.setAt i x zone ++ tail.
Proof.
  revert i. induction zone as [|y zone IH]; intros [|i] H;
    cbn in H; try lia; cbn [app Array.setAt]; [reflexivity|].
  f_equal. apply IH. lia.
Qed.

Lemma setAt_ids (i : nat) (x y : Animal.t) (zone : list Animal.t) :
  nth_error zone i = Some y -> Animal.id x = Animal.id y ->
  map Animal.id (Array.setAt i x zone) = map Animal.id zone.
Proof.
  revert i. induction zone as [|z zone IH]; intros [|i] H Hid;
    try discriminate; cbn in *.
  - injection H as ->. now rewrite Hid.
  - f_equal. apply (IH i H Hid).
Qed.

Lemma setAt_nth {A : Type} (i : nat) (x : A) (zone : list A) :
  (i < List.length zone)%nat -> nth_error (Array.setAt i x zone) i = Some x.
Proof.
  revert i. induction zone as [|z zone IH]; intros [|i] H; cbn in *;
    try lia; [reflexivity|]. apply IH. lia.
Qed.

Lemma isMature_keeps_id (now : Z) (a : Animal.t) :
  Animal.id (snd (Animal.isMature now a)) = Animal.id a.
Proof.
  unfold Animal.isMature. destruct (negb _); [reflexivity|].
  destruct (_ >=? _); destruct a; reflexivity.
Qed.

(** [attemptBreeding()] keeps the parent's id, and an offspring it returns is
    a newborn. *)
Lemma attemptBreeding_shape (now : Z) (random1 random2 : Q)
      (childId : string) (a : Animal.t) :
  let run := Animal.attemptBreeding now random1 random2 childId a in
  Animal.id (snd run) = Animal.id a
  /\ match fst run with
     | Return result =>
         match Animal.Result.offspring result with
         | Some child => isNewborn child
         | None => True
         end
     | Throw _ => True
     end.
Proof.
  unfold Animal.attemptBreeding.
  destruct (Animal.breedingAttempted a); [split; [reflexivity | exact I]|].
  destruct (negb _); [split; [reflexivity | exact I]|].
  destruct (HELPERS.randomBoolean _ random1); cbn [negb];
    [|split; [destruct a; reflexivity | exact I]].
  unfold Animal.new.
  destruct (find _ GAME_CONFIG.ANIMALS) as [animalDef|];
    [|split; [destruct a; reflexivity | exact I]].
  destruct (HELPERS.randomBoolean _ random2); cbn [negb];
    [|split; [destruct a; reflexivity | exact I]].
  split; [destruct a; reflexivity|].
  cbn. repeat split.
Qed.


Lemma withBirths_none (g : t) :
  withBirths (animals (inventory g)) 0 g = g.
Proof.
  unfold withBirths. destruct g as [m d goal st f inv stats ms];
    destruct stats; destruct inv. cbn. rewrite !Z.add_0_r. reflexivity.
Qed.

Lemma withBirths_again (farm1 farm2 : list Animal.t) (born1 born2 : Z) (g : t) :
  withBirths farm2 born2 (withBirths farm1 born1 g)
  = withBirths farm2 (born1 + born2) g.
Proof.
  unfold withBirths. destruct g as [m d goal st f inv stats ms];
    destruct stats; destruct inv. cbn -[Z.add]. rewrite !Z.add_assoc.
  reflexivity.
Qed.

Lemma withBirths_animals (farm : list Animal.t) (born : Z) (g : t) :
  animals (inventory (withBirths farm born g)) = farm.
Proof.
  unfold withBirths. destruct g as [m d goal st f inv stats ms];
    destruct inv. reflexivity.
Qed.

Lemma setAt_is_withBirths (farm : list Animal.t) (g : t) :
  with_inventory (with_animals farm (inventory g)) g = withBirths farm 0 g.
Proof.
  unfold withBirths. destruct g as [m d goal st f inv stats ms];
    destruct stats; destruct inv. cbn. rewrite !Z.add_0_r. reflexivity.
Qed.

(** [_attemptAnimalBreeding] on an animal of the visited zone: the zone keeps
    its ids, what is behind it stays, and at most a newborn is appended and
    counted. *)
Lemma breeding_step (now : Z) (random1 random2 : Q) (childId : string)
      (index : nat) (zone tail : list Animal.t) (g : t) :
  animals (inventory g) = zone ++ tail ->
  (index < List.length zone)%nat ->
  let run := TimerManager._attemptAnimalBreeding
               now random1 random2 childId index g in
  exists zone' births,
    map Animal.id zone' = map Animal.id zone
    /\ List.length zone' = List.length zone
    /\ Forall isNewborn births
    /\ snd run = withBirths (zone' ++ tail ++ births)
                            (Z.of_nat (List.length births)) g.
Proof.
  intros Hfarm Hlt run. subst run. unfold TimerManager._attemptAnimalBreeding.
  rewrite Hfarm, nth_error_app1 by exact Hlt.
  destruct (nth_error zone index) as [animal|] eqn:Enth;
    [|apply nth_error_None in Enth; lia].
  destruct (attemptBreeding_shape now random1 random2 childId animal)
    as [Hid Hchild].
  destruct (Animal.attemptBreeding now random1 random2 childId animal)
    as [outcome animal'].
  cbn [fst snd] in Hid, Hchild.
  rewrite setAt_app by exact Hlt. rewrite setAt_is_withBirths.
  set (zone' := Array.setAt index animal' zone).
  assert (Hids : map Animal.id zone' = map Animal.id zone)
    by (apply (setAt_ids index animal' animal zone Enth Hid)).
  assert (Hlen : List.length zone' = List.length zone)
    by apply setAt_length.
  assert (Hquiet : exists zone'' births,
             map Animal.id zone'' = map Animal.id zone
             /\ List.length zone'' = List.length zone
             /\ Forall isNewborn births
             /\ withBirths (zone' ++ tail) 0 g
                = withBirths (zone'' ++ tail ++ births)
                             (Z.of_nat (List.length births)) g).
  { exists zone', []. rewrite app_nil_r. repeat split; try assumption.
    constructor. }
  destruct outcome as [result|e]; [|exact Hquiet].
  destruct (Animal.Result.attempted result); [|exact Hquiet].
  destruct (_ && _); [|exact Hquiet].
  destruct (Animal.Result.offspring result) as [child|]; [|exact Hquiet].
  exists zone', [child]. split; [exact Hids|]. split; [exact Hlen|].
  split; [constructor; [exact Hchild | constructor]|].
  cbn [snd List.length]. unfold addOffspringToFarm, withBirths, Array.push.
  destruct g as [m d goal st f inv stats ms]; destruct stats; destruct inv.
  cbn -[Z.add Z.of_nat]. rewrite !Z.add_0_r, <- !app_assoc. reflexivity.
Qed.

(** The loop of [_updateAnimals()]: [zone] holds the animals the loop visits,
    [tail] what was appended behind them. *)
Lemma updateEachAnimal_shape (visits : nat -> TimerManager.Visit)
      (remaining : nat) :
  forall (index : nat) (zone tail : list Animal.t) (g : t),
    animals (inventory g) = zone ++ tail ->
    (index + remaining <= List.length zone)%nat ->
    let run := TimerManager.updateEachAnimal visits remaining index g in
    exists zone' births,
      map Animal.id zone' = map Animal.id zone
      /\ List.length zone' = List.length zone
      /\ Forall isNewborn births
      /\ snd run = withBirths (zone' ++ tail ++ births)
                              (Z.of_nat (List.length births)) g.
Proof.
  induction remaining as [|remaining IH]; intros index zone tail g Hfarm Hlen.
  - exists zone, []. rewrite app_nil_r, <- Hfarm. cbn [snd List.length
      TimerManager.updateEachAnimal]. rewrite withBirths_none.
    repeat split. constructor.
  - cbn [TimerManager.updateEachAnimal]. cbv zeta.
    assert (Hlt : (index < List.length zone)%nat) by lia.
    rewrite Hfarm, nth_error_app1 by exact Hlt.
    destruct (nth_error zone index) as [animal|] eqn:Enth;
      [|apply nth_error_None in Enth; lia].
    pose proof (isMature_keeps_id (TimerManager.nowMature (visits index))
                                  animal) as Hid.
    destruct (Animal.isMature _ animal) as [mature animal1].
    cbn [snd] in Hid.
    rewrite setAt_app by exact Hlt. rewrite setAt_is_withBirths.
    set (zone1 := Array.setAt index animal1 zone).
    assert (Hids1 : map Animal.id zone1 = map Animal.id zone)
      by (apply (setAt_ids index animal1 animal zone Enth Hid)).
    assert (Hlen1 : List.length zone1 = List.length zone)
      by apply setAt_length.
    set (g1 := withBirths (zone1 ++ tail) 0 g).
    assert (Hfarm1 : animals (inventory g1) = zone1 ++ tail)
      by apply withBirths_animals.
    assert (Hrest : forall g2 zone2 births,
               map Animal.id zone2 = map Animal.id zone1 ->
               List.length zone2 = List.length zone1 ->
               Forall isNewborn births ->
               g2 = withBirths (zone2 ++ tail ++ births)
                               (Z.of_nat (List.length births)) g1 ->
               exists zone' births',
                 map Animal.id zone' = map Animal.id zone
                 /\ List.length zone' = List.length zone
                 /\ Forall isNewborn births'
                 /\ snd (TimerManager.updateEachAnimal
                           visits remaining (S index) g2)
                    = withBirths (zone' ++ tail ++ births')
                                 (Z.of_nat (List.length births')) g).
    { intros g2 zone2 births Hids2 Hlen2 Hnew ->.
      destruct (IH (S index) zone2 (tail ++ births)
                   (withBirths (zone2 ++ tail ++ births)
                               (Z.of_nat (List.length births)) g1))
        as (zone' & births' & I1 & I2 & I3 & I4).
      - rewrite withBirths_animals, app_assoc. reflexivity.
      - lia.
      - exists zone', (births ++ births').
        split; [congruence|]. split; [congruence|].
        split; [apply Forall_app; split; assumption|].
        rewrite I4. subst g1. rewrite !withBirths_again.
        rewrite length_app, Nat2Z.inj_add, <- !app_assoc. reflexivity. }
    destruct (_ && _).
    + destruct (breeding_step
                  (TimerManager.nowPlace (visits index))
                  (TimerManager.random1 (visits index))
                  (TimerManager.random2 (visits index))
                  (TimerManager.childId (visits index))
                  index zone1 tail g1 Hfarm1 ltac:(lia))
        as (zone2 & births & B1 & B2 & B3 & B4).
      destruct (TimerManager._attemptAnimalBreeding _ _ _ _ index g1)
        as [[[]|e] g2]; cbn [snd] in B4.
      * apply (Hrest g2 zone2 births B1 B2 B3 B4).
      * exists zone2, births. split; [congruence|]. split; [congruence|].
        split; [exact B3|]. cbn [snd]. rewrite B4. subst g1.
        rewrite withBirths_again. reflexivity.
    + apply (Hrest g1 zone1 []); try reflexivity; [constructor|].
      rewrite app_nil_r. cbn [List.length]. subst g1.
      rewrite withBirths_again. reflexivity.
Qed.

End TickFacts.

Lemma updateEachCrop_shape (now : nat -> Z) (crops : list Crop.t) :
  forall i,
    Forall2 (fun before after =>
               after = before
               \/ (Crop.status before = CONSTANTS.CROP_STATUS.GROWING
                   /\ after = Crop.with_status CONSTANTS.CROP_STATUS.MATURE
                                               before))
            crops (TimerManager.updateEachCrop now i crops).
Proof.
  induction crops as [|c crops IH]; intro i; constructor; [|apply IH].
  unfold Crop.isMature.
  destruct (Crop.status c) eqn:Es;
    cbn [CONSTANTS.CROP_STATUS.eqb negb snd]; try (left; reflexivity).
  destruct (_ >=? _); cbn [snd]; [right; split; reflexivity | left; reflexivity].
Qed.

(** X30. The callback of the main interval stops the timers and touches
    nothing else once the game is over.  Otherwise it leaves the timers
    alone; every crop of the farm stays where it is, unchanged or turned from
    Growing to Mature; the animals that were on the farm stay where they are
    under their ids, and what the tick appends behind them are newborns,
    each counted once in totalOffspringBorn and in successfulBreedings:
    offspring born during a tick are not themselves visited by it.  Nothing
    else of the Ledger changes, also when attemptBreeding() throws, and a
    stock that matched its counters still does. *)
Theorem main_loop_tick :
  forall (now : nat -> Z) (visits : nat -> TimerManager.Visit)
         (tm : TimerManager.t) (b : TimerManager.Browser) (g : GameState.t),
    let run := TimerManager._mainLoop now visits tm b g in
    let g' := snd (snd run) in
    (GameState.isGameOver g = true ->
     g' = g /\ fst (snd run) = TimerManager.stop tm b
     /\ TimerManager.isRunning (fst (fst (snd run))) = false)
    /\ (GameState.isGameOver g = false ->
        fst (snd run) = (tm, b)
        /\ exists crops' farm' births,
             Forall2 (fun before after =>
                        after = before
                        \/ (Crop.status before = CONSTANTS.CROP_STATUS.GROWING
                            /\ after = Crop.with_status
                                         CONSTANTS.CROP_STATUS.MATURE before))
                     (GameState.crops (GameState.inventory g)) crops'
             /\ map Animal.id farm'
                = map Animal.id (GameState.animals (GameState.inventory g))
             /\ Forall isNewborn births
             /\ g' = withBirths (farm' ++ births)
                                (Z.of_nat (List.length births))
                                (GameState.with_inventory
                                   (GameState.with_crops
                                      crops' (GameState.inventory g)) g))
    /\ (stockBalance g -> stockBalance g').
Proof.
  intros now visits tm b g run g'. subst g' run. unfold TimerManager._mainLoop.
  destruct (GameState.isGameOver g) eqn:Eover.
  - assert (Hstop : TimerManager.isRunning (fst (TimerManager.stop tm b))
                    = false).
    { unfold TimerManager.stop.
      destruct (TimerManager.isRunning tm) eqn:Er; cbn [negb];
        [|exact Er].
      destruct (truthyNumber (TimerManager.mainLoopTimer tm));
        destruct (truthyNumber (TimerManager.dayTimer tm)); reflexivity. }
    destruct (TimerManager.stop tm b) as [tm' b']. cbn [fst snd] in *.
    split; [intros _; repeat split; exact Hstop|].
    split; [discriminate | tauto].
  - unfold TimerManager._updateAnimals, TimerManager._updateCrops.
    set (crops' := TimerManager.updateEachCrop now 0 _).
    set (g1 := GameState.with_inventory _ g).
    assert (Hfarm : GameState.animals (GameState.inventory g1)
                    = GameState.animals (GameState.inventory g) ++ [])
      by (rewrite app_nil_r; subst g1;
          destruct g as [m d goal st f inv stats ms]; destruct inv;
          reflexivity).
    destruct (TickFacts.updateEachAnimal_shape
                visits
                (List.length (GameState.animals (GameState.inventory g1)))
                0%nat (GameState.animals (GameState.inventory g)) [] g1 Hfarm)
      as (farm' & births & Hids & Hlen & Hnew & Hg').
    { rewrite Hfarm, app_nil_r. apply Nat.le_refl. }
    cbn [app] in Hg'.
    destruct (TimerManager.updateEachAnimal visits _ 0 g1) as [outcome g2].
    cbn [fst snd] in *. subst g2.
    pose proof (updateEachCrop_shape
                  now (GameState.crops (GameState.inventory g)) 0%nat)
      as Hcrops.
    fold crops' in Hcrops.
    split; [discriminate|]. split.
    + intros _. split; [reflexivity|]. exists crops', farm', births.
      repeat split; assumption.
    + assert (Hclen : List.length crops'
                      = List.length (GameState.crops (GameState.inventory g)))
        by (symmetry; apply (Forall2_length Hcrops)).
      clearbody crops'. subst g1. clear Hfarm Hcrops.
      unfold stockBalance, cropsHeld, animalsHeld, withBirths.
      destruct g as [m d goal st f inv stats ms]; destruct stats;
        destruct inv.
      cbn -[Z.add Z.sub Z.of_nat List.length] in *.
      rewrite length_app, Hlen, Hclen. intros (H1 & H2 & H3).
      repeat split; lia.
Qed.
